(** * Schema and validation layer of the RSI dashboard (app/models.py)

    The source file is a list of SQLModel class declarations: seven table
    classes, the create/update request shapes and three response shapes.
    Each class is embedded as data (a [ModelClass] with its [FieldDecl]s,
    one per annotated attribute, carrying the keyword arguments of
    [Field(...)] as written), and the behaviour the declarations configure
    (instantiating a shape validates the keyword arguments field by field,
    applies defaults, and collects the errors) is embedded as one
    interpreter over those declarations. *)

From Stdlib Require Import ZArith NArith String Ascii List Lia.
From Stdlib Require Import DecimalString DecimalN DecimalFacts.
From stdpp Require Import base strings gmap list.

Set Warnings "-register-all,-clear-no-such-hyp".

Local Open Scope string_scope.
Local Open Scope Z_scope.

(** ** Enumerations (models.py, lines 9-18) *)

Inductive NotificationStatus := PENDING | SENT | DISMISSED.
Inductive AlertCondition := OVERBOUGHT | OVERSOLD | CUSTOM.

Module NotificationStatus_.
(** Both enums derive from [str]: a member is its value. *)
Definition value (s : NotificationStatus) : string :=
  match s with
  | PENDING => "pending"
  | SENT => "sent"
  | DISMISSED => "dismissed"
  end.
Definition members : list NotificationStatus := [PENDING; SENT; DISMISSED].
(** [NotificationStatus(s)]: lookup of a member by value. *)
Definition of_value (s : string) : option NotificationStatus :=
  List.find (fun m => String.eqb (value m) s) members.
End NotificationStatus_.

Module AlertCondition_.
Definition value (c : AlertCondition) : string :=
  match c with
  | OVERBOUGHT => "overbought"
  | OVERSOLD => "oversold"
  | CUSTOM => "custom"
  end.
Definition members : list AlertCondition := [OVERBOUGHT; OVERSOLD; CUSTOM].
Definition of_value (s : string) : option AlertCondition :=
  List.find (fun m => String.eqb (value m) s) members.
End AlertCondition_.

(** ** Values *)

(** A finite [decimal.Decimal]: sign, coefficient and exponent, the value
    being (-1)^sign * coefficient * 10^exponent.  The coefficient is kept
    as a number; its digit tuple is its decimal expansion without leading
    zeros ("0" for zero), as [as_tuple()] returns it. *)
Record Decimal := { d_sign : bool; d_int : N; d_exp : Z }.

(** [Decimal("0")], [Decimal("70.00")] and [Decimal("30.00")]. *)
Definition Decimal_0 : Decimal := {| d_sign := false; d_int := 0; d_exp := 0 |}.
Definition Decimal_70_00 : Decimal := {| d_sign := false; d_int := 7000; d_exp := -2 |}.
Definition Decimal_30_00 : Decimal := {| d_sign := false; d_int := 3000; d_exp := -2 |}.

(** A naive [datetime.datetime]. *)
Record datetime := {
  year : N; month : N; day : N;
  hour : N; minute : N; second : N; microsecond : N
}.

(** Python values that occur as keyword arguments, attribute values and
    declared defaults. *)
Inductive Value :=
| VNone
| VBool (b : bool)
| VInt (z : Z)
| VStr (s : string)
| VDecimal (d : Decimal)
| VDatetime (t : datetime)
| VStatus (s : NotificationStatus)
| VCondition (c : AlertCondition)
| VList (l : list Value)
| VDict (kv : list (string * Value)).

(** ** Declarations *)

(** Type annotations used in the file. *)
Inductive Annotation :=
| int_
| str_
| bool_
| Decimal_
| datetime_
| NotificationStatus_
| AlertCondition_
| Optional (t : Annotation)
| List_ (t : Annotation)
| Dict_str_Any.

(** Keyword arguments of [Field(...)]. *)
Inductive FieldArg :=
| default (v : Value)
| default_factory_utcnow
| primary_key
| unique
| index
| foreign_key (target : string)
| max_length (n : nat)
| decimal_places (n : nat)
| max_digits (n : nat)
| sa_column_JSON.

(** [name: annotation = Field(args)]; a bare [name: annotation] has no
    arguments. *)
Record FieldDecl := Field {
  fname : string;
  annotation : Annotation;
  args : list FieldArg
}.

(** [name = Relationship(back_populates=...)] of a table class. *)
Record RelationshipDecl := Relationship {
  rname : string;
  rtarget : string;
  many : bool;
  back_populates : string
}.

Record ModelClass := {
  cname : string;
  table : bool;
  tablename : option string;
  fields : list FieldDecl;
  relationships : list RelationshipDecl
}.

(** *** Persistent models *)

Definition CoinPair : ModelClass := {|
  cname := "CoinPair"; table := true; tablename := Some "coin_pairs";
  fields := [
    Field "id" (Optional int_) [default VNone; primary_key];
    Field "symbol" str_ [unique; max_length 50; index];
    Field "base_asset" str_ [max_length 20];
    Field "quote_asset" str_ [max_length 20];
    Field "is_active" bool_ [default (VBool true)];
    Field "created_at" datetime_ [default_factory_utcnow];
    Field "updated_at" datetime_ [default_factory_utcnow] ];
  relationships := [
    Relationship "rsi_data" "RSIData" true "coin_pair";
    Relationship "user_preferences" "UserCoinPreference" true "coin_pair";
    Relationship "notifications" "RSINotification" true "coin_pair" ]
|}.

Definition RSIData : ModelClass := {|
  cname := "RSIData"; table := true; tablename := Some "rsi_data";
  fields := [
    Field "id" (Optional int_) [default VNone; primary_key];
    Field "coin_pair_id" int_ [foreign_key "coin_pairs.id"; index];
    Field "rsi_value" Decimal_ [decimal_places 4; max_digits 8];
    Field "price" Decimal_ [decimal_places 8; max_digits 20];
    Field "volume" Decimal_ [decimal_places 8; max_digits 20; default (VDecimal Decimal_0)];
    Field "timestamp" datetime_ [default_factory_utcnow; index];
    Field "period" int_ [default (VInt 14)] ];
  relationships := [
    Relationship "coin_pair" "CoinPair" false "rsi_data" ]
|}.

Definition User : ModelClass := {|
  cname := "User"; table := true; tablename := Some "users";
  fields := [
    Field "id" (Optional int_) [default VNone; primary_key];
    Field "username" str_ [unique; max_length 50];
    Field "email" str_ [unique; max_length 255];
    Field "is_active" bool_ [default (VBool true)];
    Field "created_at" datetime_ [default_factory_utcnow];
    Field "updated_at" datetime_ [default_factory_utcnow] ];
  relationships := [
    Relationship "coin_preferences" "UserCoinPreference" true "user";
    Relationship "alert_settings" "AlertSetting" true "user";
    Relationship "notifications" "RSINotification" true "user" ]
|}.

Definition UserCoinPreference : ModelClass := {|
  cname := "UserCoinPreference"; table := true;
  tablename := Some "user_coin_preferences";
  fields := [
    Field "id" (Optional int_) [default VNone; primary_key];
    Field "user_id" int_ [foreign_key "users.id"; index];
    Field "coin_pair_id" int_ [foreign_key "coin_pairs.id"; index];
    Field "is_selected" bool_ [default (VBool true)];
    Field "display_order" int_ [default (VInt 0)];
    Field "created_at" datetime_ [default_factory_utcnow];
    Field "updated_at" datetime_ [default_factory_utcnow] ];
  relationships := [
    Relationship "user" "User" false "coin_preferences";
    Relationship "coin_pair" "CoinPair" false "user_preferences" ]
|}.

Definition AlertSetting : ModelClass := {|
  cname := "AlertSetting"; table := true; tablename := Some "alert_settings";
  fields := [
    Field "id" (Optional int_) [default VNone; primary_key];
    Field "user_id" int_ [foreign_key "users.id"; index];
    Field "name" str_ [max_length 100];
    Field "condition" AlertCondition_ [index];
    Field "overbought_threshold" Decimal_
      [decimal_places 2; max_digits 5; default (VDecimal Decimal_70_00)];
    Field "oversold_threshold" Decimal_
      [decimal_places 2; max_digits 5; default (VDecimal Decimal_30_00)];
    Field "custom_threshold" (Optional Decimal_)
      [default VNone; decimal_places 2; max_digits 5];
    Field "custom_operator" (Optional str_) [default VNone; max_length 10];
    Field "is_enabled" bool_ [default (VBool true)];
    Field "applies_to_all_pairs" bool_ [default (VBool true)];
    Field "coin_pair_filters" (List_ str_) [default (VList []); sa_column_JSON];
    Field "created_at" datetime_ [default_factory_utcnow];
    Field "updated_at" datetime_ [default_factory_utcnow] ];
  relationships := [
    Relationship "user" "User" false "alert_settings";
    Relationship "notifications" "RSINotification" true "alert_setting" ]
|}.

Definition RSINotification : ModelClass := {|
  cname := "RSINotification"; table := true;
  tablename := Some "rsi_notifications";
  fields := [
    Field "id" (Optional int_) [default VNone; primary_key];
    Field "user_id" int_ [foreign_key "users.id"; index];
    Field "coin_pair_id" int_ [foreign_key "coin_pairs.id"; index];
    Field "alert_setting_id" int_ [foreign_key "alert_settings.id"; index];
    Field "title" str_ [max_length 200];
    Field "message" str_ [max_length 1000];
    Field "rsi_value" Decimal_ [decimal_places 4; max_digits 8];
    Field "price_at_alert" Decimal_ [decimal_places 8; max_digits 20];
    Field "status" NotificationStatus_ [default (VStatus PENDING); index];
    Field "created_at" datetime_ [default_factory_utcnow; index];
    Field "sent_at" (Optional datetime_) [default VNone];
    Field "dismissed_at" (Optional datetime_) [default VNone] ];
  relationships := [
    Relationship "user" "User" false "notifications";
    Relationship "coin_pair" "CoinPair" false "notifications";
    Relationship "alert_setting" "AlertSetting" false "notifications" ]
|}.

Definition DashboardConfig : ModelClass := {|
  cname := "DashboardConfig"; table := true;
  tablename := Some "dashboard_config";
  fields := [
    Field "id" (Optional int_) [default VNone; primary_key];
    Field "refresh_interval" int_ [default (VInt 5)];
    Field "default_rsi_period" int_ [default (VInt 14)];
    Field "max_historical_records" int_ [default (VInt 1000)];
    Field "display_settings" Dict_str_Any
      [default (VDict [("show_volume", VBool true); ("show_price", VBool true);
                       ("show_timestamp", VBool true); ("theme", VStr "light");
                       ("grid_columns", VInt 4)]);
       sa_column_JSON];
    Field "api_settings" Dict_str_Any
      [default (VDict [("base_url", VStr "https://fapi.binance.com");
                       ("rate_limit", VInt 1200); ("timeout", VInt 10)]);
       sa_column_JSON];
    Field "created_at" datetime_ [default_factory_utcnow];
    Field "updated_at" datetime_ [default_factory_utcnow] ];
  relationships := []
|}.

(** *** Non-persistent schemas *)

Definition schema (name : string) (fs : list FieldDecl) : ModelClass :=
  {| cname := name; table := false; tablename := None;
     fields := fs; relationships := [] |}.

Definition CoinPairCreate : ModelClass := schema "CoinPairCreate" [
  Field "symbol" str_ [max_length 50];
  Field "base_asset" str_ [max_length 20];
  Field "quote_asset" str_ [max_length 20];
  Field "is_active" bool_ [default (VBool true)] ].

Definition CoinPairUpdate : ModelClass := schema "CoinPairUpdate" [
  Field "symbol" (Optional str_) [default VNone; max_length 50];
  Field "base_asset" (Optional str_) [default VNone; max_length 20];
  Field "quote_asset" (Optional str_) [default VNone; max_length 20];
  Field "is_active" (Optional bool_) [default VNone] ].

Definition RSIDataCreate : ModelClass := schema "RSIDataCreate" [
  Field "coin_pair_id" int_ [];
  Field "rsi_value" Decimal_ [];
  Field "price" Decimal_ [];
  Field "volume" Decimal_ [default (VDecimal Decimal_0)];
  Field "period" int_ [default (VInt 14)] ].

Definition UserCreate : ModelClass := schema "UserCreate" [
  Field "username" str_ [max_length 50];
  Field "email" str_ [max_length 255] ].

Definition UserUpdate : ModelClass := schema "UserUpdate" [
  Field "username" (Optional str_) [default VNone; max_length 50];
  Field "email" (Optional str_) [default VNone; max_length 255];
  Field "is_active" (Optional bool_) [default VNone] ].

Definition AlertSettingCreate : ModelClass := schema "AlertSettingCreate" [
  Field "user_id" int_ [];
  Field "name" str_ [max_length 100];
  Field "condition" AlertCondition_ [];
  Field "overbought_threshold" Decimal_
    [default (VDecimal Decimal_70_00); decimal_places 2; max_digits 5];
  Field "oversold_threshold" Decimal_
    [default (VDecimal Decimal_30_00); decimal_places 2; max_digits 5];
  Field "custom_threshold" (Optional Decimal_)
    [default VNone; decimal_places 2; max_digits 5];
  Field "custom_operator" (Optional str_) [default VNone; max_length 10];
  Field "applies_to_all_pairs" bool_ [default (VBool true)];
  Field "coin_pair_filters" (List_ str_) [default (VList [])] ].

Definition AlertSettingUpdate : ModelClass := schema "AlertSettingUpdate" [
  Field "name" (Optional str_) [default VNone; max_length 100];
  Field "condition" (Optional AlertCondition_) [default VNone];
  Field "overbought_threshold" (Optional Decimal_)
    [default VNone; decimal_places 2; max_digits 5];
  Field "oversold_threshold" (Optional Decimal_)
    [default VNone; decimal_places 2; max_digits 5];
  Field "custom_threshold" (Optional Decimal_)
    [default VNone; decimal_places 2; max_digits 5];
  Field "custom_operator" (Optional str_) [default VNone; max_length 10];
  Field "is_enabled" (Optional bool_) [default VNone];
  Field "applies_to_all_pairs" (Optional bool_) [default VNone];
  Field "coin_pair_filters" (Optional (List_ str_)) [default VNone] ].

Definition UserCoinPreferenceCreate : ModelClass :=
  schema "UserCoinPreferenceCreate" [
  Field "user_id" int_ [];
  Field "coin_pair_id" int_ [];
  Field "is_selected" bool_ [default (VBool true)];
  Field "display_order" int_ [default (VInt 0)] ].

Definition UserCoinPreferenceUpdate : ModelClass :=
  schema "UserCoinPreferenceUpdate" [
  Field "is_selected" (Optional bool_) [default VNone];
  Field "display_order" (Optional int_) [default VNone] ].

Definition NotificationCreate : ModelClass := schema "NotificationCreate" [
  Field "user_id" int_ [];
  Field "coin_pair_id" int_ [];
  Field "alert_setting_id" int_ [];
  Field "title" str_ [max_length 200];
  Field "message" str_ [max_length 1000];
  Field "rsi_value" Decimal_ [];
  Field "price_at_alert" Decimal_ [] ].

Definition DashboardConfigUpdate : ModelClass := schema "DashboardConfigUpdate" [
  Field "refresh_interval" (Optional int_) [default VNone];
  Field "default_rsi_period" (Optional int_) [default VNone];
  Field "max_historical_records" (Optional int_) [default VNone];
  Field "display_settings" (Optional Dict_str_Any) [default VNone];
  Field "api_settings" (Optional Dict_str_Any) [default VNone] ].

(** *** Response schemas *)

Definition RSIDataResponse : ModelClass := schema "RSIDataResponse" [
  Field "id" int_ [];
  Field "symbol" str_ [];
  Field "rsi_value" str_ [];
  Field "price" str_ [];
  Field "volume" str_ [];
  Field "timestamp" str_ [];
  Field "period" int_ [] ].

Definition CoinPairResponse : ModelClass := schema "CoinPairResponse" [
  Field "id" int_ [];
  Field "symbol" str_ [];
  Field "base_asset" str_ [];
  Field "quote_asset" str_ [];
  Field "is_active" bool_ [];
  Field "created_at" str_ [];
  Field "latest_rsi" (Optional str_) [default VNone] ].

Definition NotificationResponse : ModelClass := schema "NotificationResponse" [
  Field "id" int_ [];
  Field "title" str_ [];
  Field "message" str_ [];
  Field "symbol" str_ [];
  Field "rsi_value" str_ [];
  Field "price_at_alert" str_ [];
  Field "status" NotificationStatus_ [];
  Field "created_at" str_ [] ].

(** The classes by role. *)
Definition table_classes : list ModelClass :=
  [CoinPair; RSIData; User; UserCoinPreference; AlertSetting;
   RSINotification; DashboardConfig].

Definition create_shapes : list ModelClass :=
  [CoinPairCreate; RSIDataCreate; UserCreate; AlertSettingCreate;
   UserCoinPreferenceCreate; NotificationCreate].

Definition update_shapes : list ModelClass :=
  [CoinPairUpdate; UserUpdate; AlertSettingUpdate;
   UserCoinPreferenceUpdate; DashboardConfigUpdate].

Definition response_shapes : list ModelClass :=
  [RSIDataResponse; CoinPairResponse; NotificationResponse].

Definition all_classes : list ModelClass :=
  (table_classes ++ create_shapes ++ update_shapes ++ response_shapes)%list.

(** ** Decimals: construction from text and digit counts *)

Definition is_digit (c : ascii) : bool :=
  let n := N_of_ascii c in ((48 <=? n) && (n <=? 57))%N.

Definition is_space (c : ascii) : bool :=
  let n := N_of_ascii c in ((n =? 32) || ((9 <=? n) && (n <=? 13)))%N.

(** Longest prefix of digits, and the rest. *)
Fixpoint span_digits (s : string) : string * string :=
  match s with
  | String c r =>
      if is_digit c then let '(ds, rest) := span_digits r in (String c ds, rest)
      else ("", s)
  | EmptyString => ("", "")
  end.

Fixpoint lstrip (s : string) : string :=
  match s with
  | String c r => if is_space c then lstrip r else s
  | EmptyString => ""
  end.

Fixpoint rstrip (s : string) : string :=
  match s with
  | String c r =>
      match rstrip r with
      | EmptyString => if is_space c then "" else String c ""
      | r' => String c r'
      end
  | EmptyString => ""
  end.

Definition strip (s : string) : string := rstrip (lstrip s).

Fixpoint remove_underscores (s : string) : string :=
  match s with
  | String c r =>
      if Ascii.eqb c "_" then remove_underscores r
      else String c (remove_underscores r)
  | EmptyString => ""
  end.

(** An optional leading sign: [true] for "-". *)
Definition take_sign (s : string) : bool * string :=
  match s with
  | String "-" r => (true, r)
  | String "+" r => (false, r)
  | _ => (false, s)
  end.

(** [int(ds)] for a string of digits ([0] for the empty string). *)
Definition int_of_digits (ds : string) : N :=
  match NilEmpty.uint_of_string ds with
  | Some u => N.of_uint u
  | None => 0%N
  end.

(** The exponent part after the letter E: an optional sign and at least
    one digit, up to the end of the text. *)
Definition parse_exponent (s : string) : option Z :=
  let '(neg, r) := take_sign s in
  let '(ds, rest) := span_digits r in
  match ds, rest with
  | String _ _, EmptyString =>
      let e := Z.of_N (int_of_digits ds) in Some (if neg then - e else e)
  | _, _ => None
  end.

(** [Decimal(s)] for a numeric string: surrounding whitespace and
    underscores are dropped, then an optional sign, digits with an
    optional point among them (at least one digit in all), and an
    optional exponent (the letter E, an optional sign, digits);
    the coefficient is [int(intpart + fracpart)] and the exponent is
    [exp - len(fracpart)].  The special values (Infinity, NaN) are not
    finite and every decimal field refuses them, so they are [None] here
    like any other text that is not a finite number. *)
Definition Decimal_of_str (s : string) : option Decimal :=
  let '(neg, r) := take_sign (remove_underscores (strip s)) in
  let '(intpart, r1) := span_digits r in
  let '(fracpart, r2) :=
    match r1 with
    | String "." r' => span_digits r'
    | _ => ("", r1)
    end in
  match String.append intpart fracpart with
  | EmptyString => None
  | String _ _ as digits =>
      let mk e := Some {| d_sign := neg; d_int := int_of_digits digits;
                          d_exp := e - Z.of_nat (String.length fracpart) |} in
      match r2 with
      | EmptyString => mk 0
      | String c r3 =>
          if Ascii.eqb c "e" || Ascii.eqb c "E" then
            match parse_exponent r3 with
            | Some e => mk e
            | None => None
            end
          else None
      end
  end.

(** [Decimal(z)] for an int. *)
Definition Decimal_of_int (z : Z) : Decimal :=
  {| d_sign := z <? 0; d_int := Z.abs_N z; d_exp := 0 |}.

(** [len(d.as_tuple().digits)]. *)
Definition digit_count (d : Decimal) : nat :=
  Decimal.nb_digits (N.to_uint (d_int d)).

(** The digit counts the max_digits / decimal_places checks work on:
    (digits after the point, total digits).  A non-negative exponent adds
    that many trailing zeros; a negative exponent larger than the number of
    digits adds leading zeros after the point. *)
Definition decimal_digits_info (d : Decimal) : nat * nat :=
  if 0 <=? d_exp d then (0%nat, (digit_count d + Z.to_nat (d_exp d))%nat)
  else let decimals := Z.to_nat (- d_exp d) in
       (decimals, Nat.max (digit_count d) decimals).

(** The context of the decimal module, as it is when nothing changes it:
    28 digits of precision, exponents up to 999999 in size, rounding half
    to even, overflow raised as an exception. *)
Definition context_prec : Z := 28.
Definition context_Emax : Z := 999999.
Definition context_Emin : Z := -999999.
Definition context_Etiny : Z := context_Emin - context_prec + 1.
Definition context_Etop : Z := context_Emax - context_prec + 1.

(** [c] without its last [k] digits, rounded half to even. *)
Definition round_half_even (c : N) (k : Z) : N :=
  let p := (10 ^ Z.to_N k)%N in
  let q := (c / p)%N in
  let r := (c mod p)%N in
  if (p <? 2 * r)%N || ((2 * r =? p)%N && N.odd q) then (q + 1)%N else q.

(** Rounding of a decimal to the context: a coefficient of more digits
    than the precision, or an exponent under the least one, drops its
    last digits; [None] when the result overflows the exponent range.
    A zero keeps its exponent, within the range. *)
Definition context_fix (d : Decimal) : option Decimal :=
  if (d_int d =? 0)%N then
    Some {| d_sign := d_sign d; d_int := 0;
            d_exp := Z.min (Z.max (d_exp d) context_Etiny) context_Emax |}
  else
    let exp_min := Z.of_nat (digit_count d) + d_exp d - context_prec in
    if context_Etop <? exp_min then None
    else
      let exp_min := Z.max exp_min context_Etiny in
      if d_exp d <? exp_min then
        let q := round_half_even (d_int d) (exp_min - d_exp d) in
        let '(coeff, exp_min) :=
          if (10 ^ Z.to_N context_prec <=? q)%N then ((q / 10)%N, exp_min + 1)
          else (q, exp_min) in
        if context_Etop <? exp_min then None
        else Some {| d_sign := d_sign d; d_int := coeff; d_exp := exp_min |}
      else Some d.

(** [c] without its trailing zeros, each of them added to the exponent,
    as long as the exponent is under the greatest one; [fuel] bounds the
    number of zeros removed. *)
Fixpoint strip_trailing_zeros (fuel : nat) (c : N) (e : Z) : N * Z :=
  match fuel with
  | O => (c, e)
  | S k =>
      if (c mod 10 =? 0)%N && (e <? context_Emax)
      then strip_trailing_zeros k (c / 10)%N (e + 1)
      else (c, e)
  end.

(** [d.normalize()]: the decimal rounded to the context, with no trailing
    zero in the coefficient; a zero becomes 0 with exponent 0, and keeps
    its sign.  [None] when the rounding overflows. *)
Definition normalize (d : Decimal) : option Decimal :=
  match context_fix d with
  | Some dup =>
      if (d_int dup =? 0)%N
      then Some {| d_sign := d_sign dup; d_int := 0; d_exp := 0 |}
      else
        let '(c, e) :=
          strip_trailing_zeros (digit_count dup) (d_int dup) (d_exp dup) in
        Some {| d_sign := d_sign dup; d_int := c; d_exp := e |}
  | None => None
  end.

(** The digit counts of the normalized decimal; those of the decimal as
    written when normalizing overflows. *)
Definition normalized_digits_info (d : Decimal) : nat * nat :=
  match normalize d with
  | Some n => decimal_digits_info n
  | None => decimal_digits_info d
  end.

(** ** Validation errors *)

Inductive ErrorType :=
| missing
| string_type
| string_too_long (max : nat)
| int_type
| bool_type
| decimal_type
| decimal_parsing
| decimal_max_digits (max : nat)
| decimal_max_places (places : nat)
| decimal_whole_digits (whole : nat)
| datetime_type
| enum (expected : list string)
| list_type
| dict_type.

Inductive Result (A E : Type) := Ok (a : A) | Err (e : E).
Arguments Ok {A E} a.
Arguments Err {A E} e.

Definition bind {A B E} (r : Result A E) (k : A -> Result B E) : Result B E :=
  match r with
  | Ok a => k a
  | Err e => Err e
  end.

Notation "'let*' x ':=' r 'in' k" := (bind r (fun x => k))
  (at level 10, x name, r at level 100, k at level 200).

Definition is_ok {A E} (r : Result A E) : bool :=
  match r with Ok _ => true | Err _ => false end.

(** ** Reading the arguments of a field *)

Fixpoint get_max_length (a : list FieldArg) : option nat :=
  match a with
  | max_length n :: _ => Some n
  | _ :: r => get_max_length r
  | [] => None
  end.

Fixpoint get_decimal_places (a : list FieldArg) : option nat :=
  match a with
  | decimal_places n :: _ => Some n
  | _ :: r => get_decimal_places r
  | [] => None
  end.

Fixpoint get_max_digits (a : list FieldArg) : option nat :=
  match a with
  | max_digits n :: _ => Some n
  | _ :: r => get_max_digits r
  | [] => None
  end.

(** The declared default: [default=v] gives [v]; [default_factory] calls
    [datetime.utcnow], whose result is the argument [now]; a field with
    neither is required. *)
Fixpoint get_default (now : datetime) (a : list FieldArg) : option Value :=
  match a with
  | default v :: _ => Some v
  | default_factory_utcnow :: _ => Some (VDatetime now)
  | _ :: r => get_default now r
  | [] => None
  end.

Definition is_required (f : FieldDecl) : bool :=
  match get_default {| year := 0; month := 0; day := 0; hour := 0;
                       minute := 0; second := 0; microsecond := 0 |} (args f) with
  | Some _ => false
  | None => true
  end.

(** ** Validation of one value *)

Definition check_str (a : list FieldArg) (s : string) : Result Value ErrorType :=
  match get_max_length a with
  | Some n => if (n <? String.length s)%nat then Err (string_too_long n)
              else Ok (VStr s)
  | None => Ok (VStr s)
  end.

(** The digit checks of a decimal field.  The digits are counted on the
    decimal as written and on the normalized decimal, and a limit on the
    digits in all, or on the digits after the point, refuses the value
    only when both counts exceed it: trailing zeros after the point do
    not count against a limit.  The digits before the point, which
    normalizing does not change, are counted as written.  An accepted
    decimal is kept as written. *)
Definition check_decimal (a : list FieldArg) (d : Decimal)
  : Result Value ErrorType :=
  let '(decimals, digits) := decimal_digits_info d in
  let '(normalized_decimals, normalized_digits) :=
    normalized_digits_info d in
  let* _ := match get_max_digits a with
            | Some m =>
                if (m <? digits)%nat && (m <? normalized_digits)%nat
                then Err (decimal_max_digits m)
                else Ok tt
            | None => Ok tt
            end in
  let* _ := match get_decimal_places a with
            | Some p =>
                if (p <? decimals)%nat && (p <? normalized_decimals)%nat
                then Err (decimal_max_places p)
                else Ok tt
            | None => Ok tt
            end in
  let* _ := match get_max_digits a, get_decimal_places a with
            | Some m, Some p =>
                if (m - p <? digits - decimals)%nat
                then Err (decimal_whole_digits (m - p))
                else Ok tt
            | _, _ => Ok tt
            end in
  Ok (VDecimal d).

Fixpoint all_ok {A E} (l : list (Result A E)) : Result (list A) E :=
  match l with
  | [] => Ok []
  | r :: rs => let* a := r in let* rest := all_ok rs in Ok (a :: rest)
  end.

(** Validation of a keyword argument against the annotation and the
    constraints of its field.  Arguments arrive as Python values of the
    annotated type; in addition a decimal field takes an int or a numeric
    string, and an enum field takes the value of a member.  The other
    conversions between types are not part of this development: a value
    of another type is reported as a type error. *)
Fixpoint validate_value (t : Annotation) (a : list FieldArg) (v : Value)
  : Result Value ErrorType :=
  match t with
  | Optional t' =>
      match v with
      | VNone => Ok VNone
      | _ => validate_value t' a v
      end
  | int_ => match v with VInt z => Ok (VInt z) | _ => Err int_type end
  | str_ => match v with VStr s => check_str a s | _ => Err string_type end
  | bool_ => match v with VBool b => Ok (VBool b) | _ => Err bool_type end
  | Decimal_ =>
      match v with
      | VDecimal d => check_decimal a d
      | VInt z => check_decimal a (Decimal_of_int z)
      | VStr s =>
          match Decimal_of_str s with
          | Some d => check_decimal a d
          | None => Err decimal_parsing
          end
      | _ => Err decimal_type
      end
  | datetime_ =>
      match v with VDatetime d => Ok (VDatetime d) | _ => Err datetime_type end
  | NotificationStatus_ =>
      let expected := List.map NotificationStatus_.value NotificationStatus_.members in
      match v with
      | VStatus s => Ok (VStatus s)
      | VStr s =>
          match NotificationStatus_.of_value s with
          | Some m => Ok (VStatus m)
          | None => Err (enum expected)
          end
      | _ => Err (enum expected)
      end
  | AlertCondition_ =>
      let expected := List.map AlertCondition_.value AlertCondition_.members in
      match v with
      | VCondition c => Ok (VCondition c)
      | VStr s =>
          match AlertCondition_.of_value s with
          | Some m => Ok (VCondition m)
          | None => Err (enum expected)
          end
      | _ => Err (enum expected)
      end
  | List_ t' =>
      match v with
      | VList l =>
          let* l' := all_ok (List.map (validate_value t' []) l) in Ok (VList l')
      | _ => Err list_type
      end
  | Dict_str_Any =>
      match v with VDict kv => Ok (VDict kv) | _ => Err dict_type end
  end.

(** ** Instantiating a shape *)

(** An instance of a model class: the attribute values, and the names of
    the fields that were passed explicitly ([model_fields_set]). *)
Record Instance := {
  values : gmap string Value;
  model_fields_set : gset string
}.

Definition empty_instance : Instance :=
  {| values := ∅; model_fields_set := ∅ |}.

Definition ValidationError : Type := list (string * ErrorType).

(** One field of the call of a shape on keyword arguments: a passed argument is validated and
    recorded as set; an omitted one takes the declared default as it is
    (defaults are not validated), or is reported missing.  Errors of all
    fields are collected, in declaration order. *)
Definition validate_field (now : datetime) (kwargs : gmap string Value)
    (f : FieldDecl) (acc : Instance * ValidationError)
  : Instance * ValidationError :=
  let '(inst, errs) := acc in
  match kwargs !! fname f with
  | Some v =>
      match validate_value (annotation f) (args f) v with
      | Ok v' => ({| values := <[fname f := v']> (values inst);
                     model_fields_set := {[fname f]} ∪ model_fields_set inst |},
                  errs)
      | Err e => (inst, (errs ++ [(fname f, e)])%list)
      end
  | None =>
      match get_default now (args f) with
      | Some v => ({| values := <[fname f := v]> (values inst);
                      model_fields_set := model_fields_set inst |}, errs)
      | None => (inst, (errs ++ [(fname f, missing)])%list)
      end
  end.

Definition validate_fields (now : datetime) (kwargs : gmap string Value)
    (fs : list FieldDecl) : Instance * ValidationError :=
  fold_left (fun acc f => validate_field now kwargs f acc) fs
            (empty_instance, []).

(** Calling a class with [table=False] on keyword arguments: the instance, or the
    list of (field, error) pairs.  Arguments that name no field are
    ignored. *)
Definition validate_model (now : datetime) (m : ModelClass)
    (kwargs : gmap string Value) : Result Instance ValidationError :=
  match validate_fields now kwargs (fields m) with
  | (inst, []) => Ok inst
  | (_, errs) => Err errs
  end.

(** Calling a class with [table=True] on keyword arguments: the arguments that
    name a field are assigned as they are, the other fields take their
    defaults, and a required field that was not passed stays unset.  Table
    classes do not validate on instantiation. *)
Definition construct_field (now : datetime) (kwargs : gmap string Value)
    (f : FieldDecl) (row : gmap string Value) : gmap string Value :=
  match kwargs !! fname f with
  | Some v => <[fname f := v]> row
  | None =>
      match get_default now (args f) with
      | Some v => <[fname f := v]> row
      | None => row
      end
  end.

Definition construct (now : datetime) (m : ModelClass)
    (kwargs : gmap string Value) : gmap string Value :=
  fold_left (fun row f => construct_field now kwargs f row) (fields m) ∅.

(** [validate_create]: the create shape is instantiated from the input. *)
Definition validate_create := validate_model.

(** [validate_update]: the update shape is instantiated from the input. *)
Definition validate_update := validate_model.

(** The entity built from a validated create shape: the table class
    called on the fields of the shape. *)
Definition from_create (now : datetime) (T : ModelClass) (inst : Instance)
  : gmap string Value :=
  construct now T (values inst).

(** ** What one field contributes *)

(** The error a field reports, if any. *)
Definition field_error (now : datetime) (kwargs : gmap string Value)
    (f : FieldDecl) : option (string * ErrorType) :=
  match kwargs !! fname f with
  | Some v =>
      match validate_value (annotation f) (args f) v with
      | Ok _ => None
      | Err e => Some (fname f, e)
      end
  | None =>
      match get_default now (args f) with
      | Some _ => None
      | None => Some (fname f, missing)
      end
  end.

(** The value a field receives, if it reports no error. *)
Definition field_value (now : datetime) (kwargs : gmap string Value)
    (f : FieldDecl) : option Value :=
  match kwargs !! fname f with
  | Some v =>
      match validate_value (annotation f) (args f) v with
      | Ok v' => Some v'
      | Err _ => None
      end
  | None => get_default now (args f)
  end.

(** Whether a field was passed and accepted. *)
Definition field_set (kwargs : gmap string Value) (f : FieldDecl) : bool :=
  match kwargs !! fname f with
  | Some v => is_ok (validate_value (annotation f) (args f) v)
  | None => false
  end.

Definition field_names (m : ModelClass) : list string := fname <$> fields m.

Definition has_field (m : ModelClass) (k : string) : bool :=
  bool_decide (k ∈ field_names m).

(** What a call gives to a field, before any validation: the argument
    passed for it, or its default.  A table class assigns it as it is. *)
Definition assigned (now : datetime) (kwargs : gmap string Value)
    (f : FieldDecl) : option Value :=
  match kwargs !! fname f with
  | Some v => Some v
  | None => get_default now (args f)
  end.

(** ** Rendering for responses *)

Fixpoint zeros (n : nat) : string :=
  match n with
  | O => ""
  | S k => String "0" (zeros k)
  end.

(** The decimal digits of a number, "0" for zero. *)
Definition digits_of (n : N) : string := NilZero.string_of_uint (N.to_uint n).

(** The first [n] characters, and the rest. *)
Fixpoint split_at (n : nat) (s : string) : string * string :=
  match n, s with
  | S k, String c r => let '(a, b) := split_at k r in (String c a, b)
  | _, _ => ("", s)
  end.

(** A signed number with its sign always written, as the exponent of the
    scientific notation is. *)
Definition signed_str (z : Z) : string :=
  String.append (if z <? 0 then "-" else "+") (digits_of (Z.abs_N z)).

(** Modelled from the spec: the response shapes hold their decimals as
    text ("Decimal serialized as string"), and the function that produces
    the text is not in models.py.  This is the text [str] gives for a
    decimal, which keeps every digit of the coefficient and the exponent:
    positional notation when the exponent is at most 0 and more than -6
    digits stand left of the point, scientific notation with one digit
    left of the point otherwise. *)
Definition Decimal_str (d : Decimal) : string :=
  let ds := digits_of (d_int d) in
  let n := Z.of_nat (String.length ds) in
  let leftdigits := d_exp d + n in
  let dotplace :=
    if (d_exp d <=? 0) && (-6 <? leftdigits) then leftdigits else 1 in
  let '(intpart, fracpart) :=
    if dotplace <=? 0 then
      ("0", String "." (String.append (zeros (Z.to_nat (- dotplace))) ds))
    else if n <=? dotplace then
      (String.append ds (zeros (Z.to_nat (dotplace - n))), "")
    else
      let '(a, b) := split_at (Z.to_nat dotplace) ds in (a, String "." b) in
  let exp :=
    if leftdigits =? dotplace then ""
    else String "E" (signed_str (leftdigits - dotplace)) in
  String.append (if d_sign d then "-" else "")
    (String.append intpart (String.append fracpart exp)).

(** A number written on at least [w] digits. *)
Definition zfill (w : nat) (n : N) : string :=
  let ds := digits_of n in
  String.append (zeros (w - String.length ds)) ds.

(** Modelled from the spec: the response shapes hold their timestamps as
    text ("ISO format datetime"), and the function that produces the text
    is not in models.py.  This is [isoformat()] of a naive datetime:
    YYYY-MM-DDTHH:MM:SS, followed by the microseconds on six digits when
    they are not zero. *)
Definition isoformat (t : datetime) : string :=
  String.concat "" [
    zfill 4 (year t); "-"; zfill 2 (month t); "-"; zfill 2 (day t); "T";
    zfill 2 (hour t); ":"; zfill 2 (minute t); ":"; zfill 2 (second t);
    if (microsecond t =? 0)%N then ""
    else String "." (zfill 6 (microsecond t)) ].

(** Type rendering of an attribute for a response: decimals and
    timestamps become text, every other value is kept. *)
Definition render (v : Value) : Value :=
  match v with
  | VDecimal d => VStr (Decimal_str d)
  | VDatetime t => VStr (isoformat t)
  | _ => v
  end.

(** Modelled from the spec: persisted entities have "a unique identifier,
    generated on creation"; the store that generates it is not in
    models.py.  Storing a row sets its [id] to the identifier the store
    chose. *)
Definition stored (id : Z) (row : gmap string Value) : gmap string Value :=
  <["id" := VInt id]> row.

(** Modelled from the spec: [to_response] is not in models.py.  It
    "projects a persisted entity (optionally joined with related entities)
    into a response shape with decimal values rendered as exact-precision
    strings and timestamps rendered in a fixed ISO-8601-like text format":
    the response shape is instantiated from the attributes of the entity
    and, for the names the entity does not have, from the joined
    attributes, all rendered. *)
Definition to_response (now : datetime) (R : ModelClass)
    (entity joined : gmap string Value) : Result Instance ValidationError :=
  validate_model now R (render <$> (entity ∪ joined)).

(** The entity kinds that have a response shape: create shape, table
    class, response shape. *)
Definition response_kinds : list (ModelClass * ModelClass * ModelClass) :=
  [ (CoinPairCreate, CoinPair, CoinPairResponse);
    (RSIDataCreate, RSIData, RSIDataResponse);
    (NotificationCreate, RSINotification, NotificationResponse) ].

(** ** Applying an update *)

(** Modelled from the spec: the function that applies a validated update
    shape to a stored entity is not in models.py.  "Only supplied fields
    are considered for mutation; absent fields must not overwrite existing
    values": the fields that were passed to the update shape are assigned
    to the entity, the others are left as they are. *)
Definition apply_update (entity : gmap string Value) (upd : Instance)
  : gmap string Value :=
  filter (fun kv => kv.1 ∈ model_fields_set upd) (values upd) ∪ entity.

(** ** Notification status *)

(** Modelled from the spec: no operation of models.py changes the status
    of a notification; the permitted changes are those of the spec,
    "pending -> sent or pending -> dismissed; no transition back to
    pending". *)
Definition permitted (from to : NotificationStatus) : bool :=
  match from, to with
  | PENDING, SENT | PENDING, DISMISSED => true
  | _, _ => false
  end.

Definition status_of (n : gmap string Value) : option NotificationStatus :=
  match n !! "status" with
  | Some (VStatus s) => Some s
  | _ => None
  end.

(** Modelled from the spec: a status update of a stored notification
    ("then mutate only status/sent_at/dismissed_at").  A permitted change
    sets the status and the matching timestamp; any other request leaves
    the notification as it is. *)
Definition update_status (n : gmap string Value)
    (req : datetime * NotificationStatus) : gmap string Value :=
  let '(now, to) := req in
  match status_of n with
  | Some from =>
      if permitted from to then
        match to with
        | SENT => <["status" := VStatus SENT]> (<["sent_at" := VDatetime now]> n)
        | DISMISSED =>
            <["status" := VStatus DISMISSED]> (<["dismissed_at" := VDatetime now]> n)
        | PENDING => n
        end
      else n
  | None => n
  end.

(** The notification after each of a sequence of status updates. *)
Fixpoint status_history (n : gmap string Value)
    (reqs : list (datetime * NotificationStatus)) : list (gmap string Value) :=
  match reqs with
  | [] => [n]
  | r :: rs => n :: status_history (update_status n r) rs
  end.

(** ** Range of an RSI value *)

(** [0 <= d <= 100] for a decimal. *)
Definition in_0_100 (d : Decimal) : bool :=
  (d_int d =? 0)%N
  || (negb (d_sign d)
      && (if 0 <=? d_exp d then Z.of_N (d_int d) * 10 ^ d_exp d <=? 100
          else Z.of_N (d_int d) <=? 100 * 10 ^ (- d_exp d))).

(** The declaration of a field of a class, by name. *)
Definition field_of (m : ModelClass) (k : string) : option FieldDecl :=
  List.find (fun f => String.eqb (fname f) k) (fields m).

(** The arguments a class gives to [Field(...)] for a field. *)
Definition declared_args (m : ModelClass) (k : string) : list FieldArg :=
  match field_of m k with
  | Some f => args f
  | None => []
  end.

(** The default a class declares for a field, if it declares one. *)
Definition declared_default (now : datetime) (m : ModelClass) (k : string)
  : option Value :=
  match field_of m k with
  | Some f => get_default now (args f)
  | None => None
  end.

(** A reading of the clock, for examples. *)
Definition sample_now : datetime :=
  {| year := 2025; month := 1; day := 1; hour := 0; minute := 0;
     second := 0; microsecond := 0 |}.

(** A string of [n] copies of a character. *)
Fixpoint repeat_char (c : ascii) (n : nat) : string :=
  match n with
  | O => ""
  | S k => String c (repeat_char c k)
  end.

(** ** Kinds of fields *)

(** A field annotated [str] or [Optional[str]]. *)
Definition is_str_field (f : FieldDecl) : bool :=
  match annotation f with
  | str_ | Optional str_ => true
  | _ => false
  end.

(** A field annotated [Decimal] or [Optional[Decimal]]. *)
Definition is_decimal_field (f : FieldDecl) : bool :=
  match annotation f with
  | Decimal_ | Optional Decimal_ => true
  | _ => false
  end.

Definition is_optional (t : Annotation) : bool :=
  match t with
  | Optional _ => true
  | _ => false
  end.

(** The values of the members of the enum a field is annotated with. *)
Definition enum_values (t : Annotation) : option (list string) :=
  match t with
  | AlertCondition_ | Optional AlertCondition_ =>
      Some (List.map AlertCondition_.value AlertCondition_.members)
  | NotificationStatus_ | Optional NotificationStatus_ =>
      Some (List.map NotificationStatus_.value NotificationStatus_.members)
  | _ => None
  end.

(** Whether a value is one of the members with these values.  A member of
    a [str] enum is its value, so a member of either enum counts by its
    value. *)
Definition is_member (members : list string) (v : Value) : bool :=
  match v with
  | VStr s => bool_decide (s ∈ members)
  | VCondition c => bool_decide (AlertCondition_.value c ∈ members)
  | VStatus s => bool_decide (NotificationStatus_.value s ∈ members)
  | _ => false
  end.

(** Whether a value is an instance of an annotation (the elements of a
    list are not inspected). *)
Fixpoint has_type (t : Annotation) (v : Value) : bool :=
  match t, v with
  | Optional _, VNone => true
  | Optional t', _ => has_type t' v
  | int_, VInt _ => true
  | str_, VStr _ => true
  | bool_, VBool _ => true
  | Decimal_, VDecimal _ => true
  | datetime_, VDatetime _ => true
  | NotificationStatus_, VStatus _ => true
  | AlertCondition_, VCondition _ => true
  | List_ _, VList _ => true
  | Dict_str_Any, VDict _ => true
  | _, _ => false
  end.

(** Whether a table field declares a foreign key. *)
Definition is_foreign_key (f : FieldDecl) : bool :=
  existsb (fun a => match a with foreign_key _ => true | _ => false end)
          (args f).

(** ** Shape of a decimal written as text *)

(** Whether every character of a string satisfies a test. *)
Fixpoint string_all (p : ascii -> bool) (s : string) : bool :=
  match s with
  | String c r => p c && string_all p r
  | EmptyString => true
  end.

(** Whether a string does not start with a digit. *)
Definition starts_nondigit (s : string) : bool :=
  match s with
  | String c _ => negb (is_digit c)
  | EmptyString => true
  end.

(** A character that [strip] and the removal of underscores keep. *)
Definition is_kept (c : ascii) : bool := negb (is_space c) && negb (Ascii.eqb c "_").

(** The parts of a decimal written as text: the sign, the optional
    fraction after the point, the optional exponent. *)
Definition sign_str (neg : bool) : string := if neg then "-" else "".

Definition frac_str (frac : option string) : string :=
  match frac with
  | Some fd => String "." fd
  | None => ""
  end.

Definition exp_str (e : option Z) : string :=
  match e with
  | Some x => String "E" (signed_str x)
  | None => ""
  end.

(** The digits of the fraction, and the value of the exponent, when
    there is none: no digit, and 0. *)
Definition frac_digits (frac : option string) : string :=
  match frac with
  | Some fd => fd
  | None => ""
  end.

Definition exp_value (e : option Z) : Z :=
  match e with
  | Some x => x
  | None => 0
  end.

(** ** Reading back the values of an input *)

(** The decimal a keyword argument of a decimal field stands for:
    [Decimal(v)] of a decimal, an int or a numeric string. *)
Definition Decimal_of_value (v : Value) : option Decimal :=
  match v with
  | VDecimal d => Some d
  | VInt z => Some (Decimal_of_int z)
  | VStr s => Decimal_of_str s
  | _ => None
  end.

(** A number written in digits at the head of a text, and the rest of
    the text. *)
Definition read_number (s : string) : option (N * string) :=
  let '(ds, rest) := span_digits s in
  match ds with
  | String _ _ => Some (int_of_digits ds, rest)
  | EmptyString => None
  end.

(** The text after a given first character. *)
Definition read_char (c : ascii) (s : string) : option string :=
  match s with
  | String c' r => if Ascii.eqb c c' then Some r else None
  | EmptyString => None
  end.

(** A reading of the text [isoformat] writes: the six numbers between
    their separators, then the microseconds after a point if there is
    one.  It serves to show that the text of a timestamp determines the
    timestamp. *)
Definition read_isoformat (s : string) : option datetime :=
  '(y, s) ← read_number s; s ← read_char "-" s;
  '(mo, s) ← read_number s; s ← read_char "-" s;
  '(d, s) ← read_number s; s ← read_char "T" s;
  '(h, s) ← read_number s; s ← read_char ":" s;
  '(mi, s) ← read_number s; s ← read_char ":" s;
  '(sec, s) ← read_number s;
  let mk us := {| year := y; month := mo; day := d; hour := h;
                  minute := mi; second := sec; microsecond := us |} in
  match s with
  | EmptyString => Some (mk 0%N)
  | String c r =>
      if Ascii.eqb c "." then
        '(us, s) ← read_number r;
        match s with
        | EmptyString => Some (mk us)
        | String _ _ => None
        end
      else None
  end.

(** ** Reading the declarations of the classes *)

Definition is_primary_key (f : FieldDecl) : bool :=
  existsb (fun a => match a with primary_key => true | _ => false end)
          (args f).

Definition uses_default_factory (f : FieldDecl) : bool :=
  existsb (fun a => match a with default_factory_utcnow => true | _ => false end)
          (args f).

Fixpoint get_foreign_key (a : list FieldArg) : option string :=
  match a with
  | foreign_key target :: _ => Some target
  | _ :: r => get_foreign_key r
  | [] => None
  end.

(** The table class of a name, and of a table name. *)
Definition table_named (name : string) : option ModelClass :=
  List.find (fun T => String.eqb (cname T) name) table_classes.

Definition table_of_tablename (name : string) : option ModelClass :=
  List.find (fun T => match tablename T with
                      | Some n => String.eqb n name
                      | None => false
                      end) table_classes.

Definition relationship_named (T : ModelClass) (name : string)
  : option RelationshipDecl :=
  List.find (fun r => String.eqb (rname r) name) (relationships T).

(** Each create shape with the table class it is a shape of, and each
    update shape likewise. *)
Definition create_pairs : list (ModelClass * ModelClass) :=
  [ (CoinPairCreate, CoinPair); (RSIDataCreate, RSIData);
    (UserCreate, User); (AlertSettingCreate, AlertSetting);
    (UserCoinPreferenceCreate, UserCoinPreference);
    (NotificationCreate, RSINotification) ].

Definition update_pairs : list (ModelClass * ModelClass) :=
  [ (CoinPairUpdate, CoinPair); (UserUpdate, User);
    (AlertSettingUpdate, AlertSetting);
    (UserCoinPreferenceUpdate, UserCoinPreference);
    (DashboardConfigUpdate, DashboardConfig) ].

Definition strip_optional (t : Annotation) : Annotation :=
  match t with
  | Optional t' => t'
  | _ => t
  end.

(** The shapes that are validated: every class with [table=False]. *)
Definition shapes : list ModelClass :=
  (create_shapes ++ update_shapes ++ response_shapes)%list.

(** Whether a decimal is below 10^k in magnitude: the coefficient with
    the zeros of a positive exponent, against 10^k with the zeros a
    negative exponent shifts the point by. *)
Definition magnitude_below (k : nat) (d : Decimal) : bool :=
  Z.of_N (d_int d) * 10 ^ Z.max (d_exp d) 0
  <? 10 ^ Z.of_nat k * 10 ^ Z.max (- d_exp d) 0.

(** Whether a value is a string. *)
Definition is_VStr (v : Value) : bool :=
  match v with
  | VStr _ => true
  | _ => false
  end.

Section Interpreter.
Variable now : datetime.
Variable kwargs : gmap string Value.

Let step := fun acc f => validate_field now kwargs f acc.

Lemma validate_field_errors f acc :
  (validate_field now kwargs f acc).2
  = (acc.2 ++ option_list (field_error now kwargs f))%list.
Proof.
  destruct acc as [inst errs]. unfold validate_field, field_error. simpl.
  destruct (kwargs !! fname f) as [v|].
  - destruct (validate_value _ _ v); simpl; [by rewrite app_nil_r | done].
  - destruct (get_default now (args f)); simpl; [by rewrite app_nil_r | done].
Qed.

Lemma fold_errors fs : forall acc,
  (fold_left step fs acc).2
  = (acc.2 ++ omap (field_error now kwargs) fs)%list.
Proof.
  induction fs as [|f fs IH]; intros acc; simpl.
  - by rewrite app_nil_r.
  - rewrite IH. subst step. simpl. rewrite validate_field_errors.
    rewrite <- app_assoc. f_equal.
    destruct (field_error now kwargs f); reflexivity.
Qed.

Lemma validate_field_values_ne f acc k :
  k ≠ fname f ->
  values (validate_field now kwargs f acc).1 !! k = values acc.1 !! k.
Proof.
  intros Hne. destruct acc as [inst errs]. unfold validate_field. simpl.
  destruct (kwargs !! fname f) as [v|].
  - destruct (validate_value _ _ v); simpl; [|done].
    by rewrite lookup_insert_ne.
  - destruct (get_default now (args f)); simpl; [|done].
    by rewrite lookup_insert_ne.
Qed.

Lemma validate_field_values_eq f acc v :
  field_value now kwargs f = Some v ->
  values (validate_field now kwargs f acc).1 !! fname f = Some v.
Proof.
  destruct acc as [inst errs]. unfold validate_field, field_value. simpl.
  destruct (kwargs !! fname f) as [w|].
  - destruct (validate_value _ _ w); simpl; [|done].
    intros [= ->]. by rewrite lookup_insert_eq.
  - destruct (get_default now (args f)); simpl; [|done].
    intros [= ->]. by rewrite lookup_insert_eq.
Qed.

Lemma fold_values_notin fs : forall acc k,
  k ∉ fname <$> fs ->
  values (fold_left step fs acc).1 !! k = values acc.1 !! k.
Proof.
  induction fs as [|f fs IH]; intros acc k Hk; simpl; [done|].
  rewrite fmap_cons in Hk. apply not_elem_of_cons in Hk as [Hne Hk].
  rewrite IH by done. subst step. simpl. by apply validate_field_values_ne.
Qed.

Lemma fold_values_in fs : forall acc f v,
  NoDup (fname <$> fs) -> f ∈ fs ->
  field_value now kwargs f = Some v ->
  values (fold_left step fs acc).1 !! fname f = Some v.
Proof.
  induction fs as [|g fs IH]; intros acc f v Hnd Hin Hv; simpl.
  - by apply elem_of_nil in Hin.
  - rewrite fmap_cons in Hnd. apply NoDup_cons in Hnd as [Hg Hnd].
    apply elem_of_cons in Hin as [->|Hin].
    + rewrite fold_values_notin by done. subst step. simpl.
      by apply validate_field_values_eq.
    + by apply IH.
Qed.

Lemma validate_field_set f acc k :
  k ∈ model_fields_set (validate_field now kwargs f acc).1
  <-> k ∈ model_fields_set acc.1 \/ (k = fname f /\ field_set kwargs f = true).
Proof.
  destruct acc as [inst errs]. unfold validate_field, field_set. simpl.
  destruct (kwargs !! fname f) as [w|].
  - destruct (validate_value _ _ w); simpl.
    + rewrite elem_of_union, elem_of_singleton. naive_solver.
    + naive_solver.
  - destruct (get_default now (args f)); simpl; naive_solver.
Qed.

Lemma fold_set fs : forall acc k,
  k ∈ model_fields_set (fold_left step fs acc).1
  <-> k ∈ model_fields_set acc.1
      \/ exists f, f ∈ fs /\ k = fname f /\ field_set kwargs f = true.
Proof.
  induction fs as [|g fs IH]; intros acc k; simpl.
  - split; [auto|]. intros [H|(f & Hf & _)]; [done|].
    by apply elem_of_nil in Hf.
  - rewrite IH. subst step. simpl. rewrite validate_field_set.
    split.
    + intros [[H|[-> H]]|(f & Hf & Hk & Hs)]; [by left| |].
      * right. exists g. split; [apply elem_of_cons; by left|done].
      * right. exists f. split; [apply elem_of_cons; by right|done].
    + intros [H|(f & Hf & Hk & Hs)]; [by left; left|].
      apply elem_of_cons in Hf as [->|Hf]; [left; right; done|].
      right. by exists f.
Qed.

(** Acceptance: a shape is accepted exactly when no field reports an
    error. *)
Lemma validate_model_ok_iff m :
  is_ok (validate_model now m kwargs) = true
  <-> forall f, f ∈ fields m -> field_error now kwargs f = None.
Proof.
  unfold validate_model, validate_fields.
  pose proof (fold_errors (fields m) (empty_instance, [])) as He.
  fold step. destruct (fold_left step (fields m) _) as [inst errs].
  simpl in He. subst errs. split.
  - intros Hok f Hf.
    destruct (field_error now kwargs f) as [e|] eqn:E; [|done].
    assert (e ∈ omap (field_error now kwargs) (fields m)) as Hin
      by (apply list_elem_of_omap; eauto).
    destruct (omap _ _); [by apply elem_of_nil in Hin | done].
  - intros Hall.
    assert (omap (field_error now kwargs) (fields m) = []) as ->; [|done].
    induction (fields m) as [|g fs IH]; [done|]. simpl.
    rewrite (Hall g) by (apply elem_of_cons; by left).
    apply IH. intros f Hf. apply Hall, elem_of_cons. by right.
Qed.

Lemma validate_model_ok_field m inst f :
  validate_model now m kwargs = Ok inst -> f ∈ fields m ->
  field_error now kwargs f = None.
Proof.
  intros H. apply validate_model_ok_iff. by rewrite H.
Qed.

(** Rejection: an error reported by a field is in the error list. *)
Lemma validate_model_err m f e :
  f ∈ fields m -> field_error now kwargs f = Some e ->
  exists errs, validate_model now m kwargs = Err errs /\ e ∈ errs.
Proof.
  intros Hf He. unfold validate_model, validate_fields.
  pose proof (fold_errors (fields m) (empty_instance, [])) as Hs.
  fold step. destruct (fold_left step (fields m) _) as [inst errs].
  simpl in Hs. subst errs.
  assert (e ∈ omap (field_error now kwargs) (fields m)) as Hin
    by (apply list_elem_of_omap; eauto).
  destruct (omap _ _) as [|e0 es] eqn:E; [by apply elem_of_nil in Hin|].
  eauto.
Qed.

Lemma field_error_value f :
  field_error now kwargs f = None -> is_Some (field_value now kwargs f).
Proof.
  unfold field_error, field_value.
  destruct (kwargs !! fname f) as [v|].
  - destruct (validate_value _ _ v); [eauto|done].
  - destruct (get_default now (args f)); [eauto|done].
Qed.

(** The attributes of an accepted instance. *)
Lemma validate_model_lookup m inst f :
  NoDup (field_names m) ->
  validate_model now m kwargs = Ok inst -> f ∈ fields m ->
  values inst !! fname f = field_value now kwargs f
  /\ is_Some (field_value now kwargs f).
Proof.
  intros Hnd Hok Hf.
  destruct (field_error_value f (validate_model_ok_field _ _ _ Hok Hf))
    as [v Hv].
  split; [|eauto]. rewrite Hv.
  unfold validate_model, validate_fields in Hok.
  pose proof (fold_values_in (fields m) (empty_instance, []) f v Hnd Hf Hv)
    as Hl.
  fold step in Hok. destruct (fold_left step (fields m) _) as [i errs].
  destruct errs; [|done]. by injection Hok as <-.
Qed.

Lemma validate_model_lookup_other m inst k :
  validate_model now m kwargs = Ok inst -> k ∉ field_names m ->
  values inst !! k = None.
Proof.
  intros Hok Hk. unfold validate_model, validate_fields in Hok.
  pose proof (fold_values_notin (fields m) (empty_instance, []) k Hk) as Hl.
  fold step in Hok. destruct (fold_left step (fields m) _) as [i errs].
  destruct errs; [|done]. injection Hok as <-. simpl in Hl.
  by rewrite Hl, lookup_empty.
Qed.

Lemma validate_model_fields_set m inst k :
  validate_model now m kwargs = Ok inst ->
  k ∈ model_fields_set inst
  <-> k ∈ field_names m /\ is_Some (kwargs !! k).
Proof.
  intros Hok.
  pose proof Hok as Hok'. unfold validate_model, validate_fields in Hok'.
  pose proof (fold_set (fields m) (empty_instance, []) k) as Hs.
  fold step in Hok'. destruct (fold_left step (fields m) _) as [i errs].
  destruct errs; [|done]. injection Hok' as <-. simpl in Hs.
  rewrite Hs. split.
  - intros [H|(f & Hf & -> & Hset)]; [by apply not_elem_of_empty in H|].
    split; [by apply list_elem_of_fmap_2|].
    unfold field_set in Hset.
    destruct (kwargs !! fname f); [eauto|done].
  - intros [Hk [v Hv]]. right.
    apply list_elem_of_fmap in Hk as (f & -> & Hf).
    exists f. split; [done|]. split; [done|].
    pose proof (validate_model_ok_field _ _ _ Hok Hf) as He.
    unfold field_error in He. unfold field_set. rewrite Hv in *.
    by destruct (validate_value _ _ v).
Qed.
End Interpreter.

(** ** Instantiating a table class *)

Section Construct.
Variable now : datetime.
Variable kwargs : gmap string Value.

Let step := fun row f => construct_field now kwargs f row.

Lemma construct_field_ne f row k :
  k ≠ fname f -> construct_field now kwargs f row !! k = row !! k.
Proof.
  intros Hne. unfold construct_field.
  destruct (kwargs !! fname f); [by rewrite lookup_insert_ne|].
  destruct (get_default now (args f)); [by rewrite lookup_insert_ne|done].
Qed.

Lemma construct_field_eq f row :
  row !! fname f = None ->
  construct_field now kwargs f row !! fname f = assigned now kwargs f.
Proof.
  intros Hrow. unfold construct_field, assigned.
  destruct (kwargs !! fname f); [by rewrite lookup_insert_eq|].
  destruct (get_default now (args f)); [by rewrite lookup_insert_eq|done].
Qed.

Lemma construct_fold_notin fs : forall row k,
  k ∉ fname <$> fs -> fold_left step fs row !! k = row !! k.
Proof.
  induction fs as [|f fs IH]; intros row k Hk; simpl; [done|].
  rewrite fmap_cons in Hk. apply not_elem_of_cons in Hk as [Hne Hk].
  rewrite IH by done. by apply construct_field_ne.
Qed.

Lemma construct_fold_in fs : forall row f,
  NoDup (fname <$> fs) -> f ∈ fs ->
  (forall g, g ∈ fs -> row !! fname g = None) ->
  fold_left step fs row !! fname f = assigned now kwargs f.
Proof.
  induction fs as [|g fs IH]; intros row f Hnd Hin Hrow; simpl.
  - by apply elem_of_nil in Hin.
  - rewrite fmap_cons in Hnd. apply NoDup_cons in Hnd as [Hg Hnd].
    apply elem_of_cons in Hin as [->|Hin].
    + rewrite construct_fold_notin by done.
      apply construct_field_eq, Hrow, elem_of_cons. by left.
    + apply IH; [done..|]. intros h Hh. subst step. simpl.
      rewrite construct_field_ne.
      * apply Hrow, elem_of_cons. by right.
      * intros E. apply Hg. rewrite <- E. by apply list_elem_of_fmap_2.
Qed.

Lemma construct_lookup T f :
  NoDup (field_names T) -> f ∈ fields T ->
  construct now T kwargs !! fname f = assigned now kwargs f.
Proof.
  intros Hnd Hf. unfold construct. apply (construct_fold_in _ ∅ f Hnd Hf).
  intros g _. apply lookup_empty.
Qed.

Lemma construct_lookup_other T k :
  k ∉ field_names T -> construct now T kwargs !! k = None.
Proof.
  intros Hk. unfold construct.
  rewrite (construct_fold_notin _ ∅ k Hk). apply lookup_empty.
Qed.
End Construct.

(** ** The declarations are well formed *)

Lemma field_names_NoDup m : m ∈ all_classes -> NoDup (field_names m).
Proof.
  unfold all_classes, table_classes, create_shapes, update_shapes,
    response_shapes. simpl. intros Hm.
  repeat (apply elem_of_cons in Hm as [->|Hm];
          [apply (bool_decide_unpack _); vm_compute; exact I|]).
  by apply elem_of_nil in Hm.
Qed.

Lemma create_in_all C : C ∈ create_shapes -> C ∈ all_classes.
Proof.
  intros H. unfold all_classes.
  apply elem_of_app; right. apply elem_of_app; by left.
Qed.

Lemma update_in_all U : U ∈ update_shapes -> U ∈ all_classes.
Proof.
  intros H. unfold all_classes.
  apply elem_of_app; right. apply elem_of_app; right.
  apply elem_of_app; by left.
Qed.

Lemma field_of_elem m k f : field_of m k = Some f -> f ∈ fields m /\ fname f = k.
Proof.
  unfold field_of. intros H. apply find_some in H as [Hin Heq].
  split; [by apply list_elem_of_In|]. by apply String.eqb_eq.
Qed.

(** An omitted field of an accepted shape holds its declared default. *)
Lemma omitted_takes_default now m kwargs inst f v :
  NoDup (field_names m) -> f ∈ fields m ->
  get_default now (args f) = Some v ->
  kwargs !! fname f = None ->
  validate_model now m kwargs = Ok inst ->
  values inst !! fname f = Some v.
Proof.
  intros Hnd Hf Hd Hk Hok.
  destruct (validate_model_lookup now kwargs m inst f Hnd Hok Hf) as [-> _].
  unfold field_value. by rewrite Hk.
Qed.

(** An omitted field of an accepted shape, by name. *)
Lemma omitted_takes_declared_default now m kwargs inst k v :
  NoDup (field_names m) ->
  declared_default now m k = Some v ->
  kwargs !! k = None ->
  validate_model now m kwargs = Ok inst ->
  values inst !! k = Some v.
Proof.
  unfold declared_default. intros Hnd Hd Hk Hok.
  destruct (field_of m k) as [f|] eqn:Ef; [|done].
  apply field_of_elem in Ef as [Hf <-].
  by eapply omitted_takes_default.
Qed.

Lemma table_in_all T : T ∈ table_classes -> T ∈ all_classes.
Proof. intros H. unfold all_classes. apply elem_of_app; by left. Qed.

(** A field of the entity built from a create shape: the attribute of the
    shape when it has one of that name, the table's default otherwise. *)
Lemma from_create_lookup now T inst k f :
  T ∈ table_classes -> field_of T k = Some f ->
  from_create now T inst !! k
  = match values inst !! k with
    | Some v => Some v
    | None => get_default now (args f)
    end.
Proof.
  intros HT Hf. apply field_of_elem in Hf as [Hf <-].
  unfold from_create.
  rewrite construct_lookup; [done| |done].
  by apply field_names_NoDup, table_in_all.
Qed.

Lemma stored_lookup_ne id row k : k ≠ "id" -> stored id row !! k = row !! k.
Proof. intros H. unfold stored. by rewrite lookup_insert_ne. Qed.

(** * Defaults *)

(** C3: a field of a create shape that declares a default holds exactly
    that default when the input omits it.  The declared defaults are 14
    for [period], 70.00 and 30.00 for the two thresholds, true for
    [applies_to_all_pairs] and for [is_active]; and the CoinPair entity
    stored from a create input without [is_active] has [is_active] true. *)
Theorem C3_defaults_on_create (now : datetime) :
  (forall C f v kwargs inst,
      C ∈ create_shapes -> f ∈ fields C ->
      get_default now (args f) = Some v ->
      kwargs !! fname f = None ->
      validate_create now C kwargs = Ok inst ->
      values inst !! fname f = Some v)
  /\ declared_default now RSIDataCreate "period" = Some (VInt 14)
  /\ declared_default now AlertSettingCreate "overbought_threshold"
     = Some (VDecimal Decimal_70_00)
  /\ declared_default now AlertSettingCreate "oversold_threshold"
     = Some (VDecimal Decimal_30_00)
  /\ Decimal_of_str "70.00" = Some Decimal_70_00
  /\ Decimal_of_str "30.00" = Some Decimal_30_00
  /\ declared_default now AlertSettingCreate "applies_to_all_pairs"
     = Some (VBool true)
  /\ declared_default now CoinPairCreate "is_active" = Some (VBool true)
  /\ (forall kwargs inst id,
         kwargs !! "is_active" = None ->
         validate_create now CoinPairCreate kwargs = Ok inst ->
         stored id (from_create now CoinPair inst) !! "is_active"
         = Some (VBool true)).
Proof.
  split.
  { intros C f v kwargs inst HC Hf Hd Hk Hok.
    eapply omitted_takes_default; eauto.
    by apply field_names_NoDup, create_in_all. }
  repeat (split; [reflexivity|]).
  intros kwargs inst id Hk Hok.
  rewrite stored_lookup_ne by done.
  erewrite from_create_lookup;
    [|repeat constructor|reflexivity].
  erewrite (omitted_takes_declared_default now CoinPairCreate kwargs inst);
    [reflexivity| |reflexivity|done|done].
  apply field_names_NoDup, create_in_all. repeat constructor.
Qed.

(** The scenario of the spec: BTCUSDT created without [is_active]. *)
Lemma C3_defaults_on_create_witness :
  let now := {| year := 2025; month := 1; day := 1; hour := 0; minute := 0;
                second := 0; microsecond := 0 |} in
  let kwargs : gmap string Value :=
    {[ "symbol" := VStr "BTCUSDT"; "base_asset" := VStr "BTC";
       "quote_asset" := VStr "USDT" ]} in
  exists inst,
    validate_create now CoinPairCreate kwargs = Ok inst
    /\ values inst !! "is_active" = Some (VBool true)
    /\ stored 1 (from_create now CoinPair inst) !! "is_active"
       = Some (VBool true).
Proof.
  intros now kwargs.
  destruct (validate_create now CoinPairCreate kwargs) as [inst|errs] eqn:E;
    [|vm_compute in E; discriminate].
  exists inst. split; [reflexivity|]. split.
  - apply (proj1 (C3_defaults_on_create now) CoinPairCreate
             (Field "is_active" bool_ [default (VBool true)])
             (VBool true) kwargs inst).
    + repeat constructor.
    + unfold CoinPairCreate, schema; simpl. set_solver.
    + reflexivity.
    + vm_compute; reflexivity.
    + exact E.
  - apply (proj2 (proj2 (proj2 (proj2 (proj2 (proj2 (proj2 (proj2
             (C3_defaults_on_create now)))))))) kwargs inst 1).
    + vm_compute; reflexivity.
    + exact E.
Defined.

(** C10: an RSIData create input without [volume] gives the decimal 0
    (coefficient 0, exponent 0) as volume, in the shape and in the entity
    built from it; an AlertSetting create input without
    [coin_pair_filters] gives the empty list. *)
Theorem C10_volume_and_filters_defaults (now : datetime)
    (kwargs : gmap string Value) (inst : Instance) :
  (kwargs !! "volume" = None ->
   validate_create now RSIDataCreate kwargs = Ok inst ->
   values inst !! "volume" = Some (VDecimal Decimal_0)
   /\ from_create now RSIData inst !! "volume" = Some (VDecimal Decimal_0)
   /\ Decimal_0 = {| d_sign := false; d_int := 0; d_exp := 0 |})
  /\ (kwargs !! "coin_pair_filters" = None ->
      validate_create now AlertSettingCreate kwargs = Ok inst ->
      values inst !! "coin_pair_filters" = Some (VList [])
      /\ from_create now AlertSetting inst !! "coin_pair_filters"
         = Some (VList [])).
Proof.
  split; intros Hk Hok.
  - assert (values inst !! "volume" = Some (VDecimal Decimal_0)) as Hv.
    { eapply (omitted_takes_declared_default now RSIDataCreate);
        [|reflexivity|done|done].
      apply field_names_NoDup, create_in_all. repeat constructor. }
    split; [done|]. split; [|reflexivity].
    erewrite from_create_lookup; [|repeat constructor|reflexivity].
    by rewrite Hv.
  - assert (values inst !! "coin_pair_filters" = Some (VList [])) as Hv.
    { eapply (omitted_takes_declared_default now AlertSettingCreate);
        [|reflexivity|done|done].
      apply field_names_NoDup, create_in_all. repeat constructor. }
    split; [done|].
    erewrite from_create_lookup; [|repeat constructor|reflexivity].
    by rewrite Hv.
Qed.

Lemma C10_volume_and_filters_defaults_witness :
  let now := {| year := 2025; month := 1; day := 1; hour := 0; minute := 0;
                second := 0; microsecond := 0 |} in
  let kwargs : gmap string Value :=
    {[ "coin_pair_id" := VInt 1; "rsi_value" := VStr "55.5";
       "price" := VStr "42000.10" ]} in
  exists inst,
    validate_create now RSIDataCreate kwargs = Ok inst
    /\ values inst !! "volume" = Some (VDecimal Decimal_0).
Proof.
  intros now kwargs.
  destruct (validate_create now RSIDataCreate kwargs) as [inst|errs] eqn:E;
    [|vm_compute in E; discriminate].
  exists inst. split; [reflexivity|].
  apply (proj1 (C10_volume_and_filters_defaults now kwargs inst)).
  - vm_compute; reflexivity.
  - exact E.
Defined.

(** * Notifications start pending *)

(** C9: [NotificationCreate] has no field named [status], [sent_at] or
    [dismissed_at], and the RSINotification built from any accepted
    [NotificationCreate] input has status pending and neither timestamp,
    whatever else the input carries. *)
Theorem C9_notification_starts_pending (now : datetime)
    (kwargs : gmap string Value) (inst : Instance) :
  validate_create now NotificationCreate kwargs = Ok inst ->
  has_field NotificationCreate "status" = false
  /\ has_field NotificationCreate "sent_at" = false
  /\ has_field NotificationCreate "dismissed_at" = false
  /\ from_create now RSINotification inst !! "status" = Some (VStatus PENDING)
  /\ from_create now RSINotification inst !! "sent_at" = Some VNone
  /\ from_create now RSINotification inst !! "dismissed_at" = Some VNone.
Proof.
  intros Hok.
  assert (forall k, has_field NotificationCreate k = false ->
                    values inst !! k = None) as Hnone.
  { intros k Hk. eapply validate_model_lookup_other; [exact Hok|].
    unfold has_field in Hk. by apply bool_decide_eq_false in Hk. }
  repeat (split; [reflexivity|]).
  repeat split;
    (erewrite from_create_lookup; [|repeat constructor|reflexivity]);
    by rewrite Hnone.
Qed.

(** An input that even tries to pass a status. *)
Lemma C9_notification_starts_pending_witness :
  let now := {| year := 2025; month := 1; day := 1; hour := 0; minute := 0;
                second := 0; microsecond := 0 |} in
  let kwargs : gmap string Value :=
    {[ "user_id" := VInt 1; "coin_pair_id" := VInt 2;
       "alert_setting_id" := VInt 3; "title" := VStr "RSI high";
       "message" := VStr "BTCUSDT is overbought";
       "rsi_value" := VStr "81.2500"; "price_at_alert" := VStr "42000.10";
       "status" := VStr "sent" ]} in
  exists inst,
    validate_create now NotificationCreate kwargs = Ok inst
    /\ from_create now RSINotification inst !! "status"
       = Some (VStatus PENDING).
Proof.
  intros now kwargs.
  destruct (validate_create now NotificationCreate kwargs) as [inst|errs] eqn:E;
    [|vm_compute in E; discriminate].
  exists inst. split; [reflexivity|].
  apply (C9_notification_starts_pending now kwargs inst E).
Defined.

(** Fields of a class are told apart by their names. *)
Lemma field_name_inj m f g :
  NoDup (field_names m) -> f ∈ fields m -> g ∈ fields m ->
  fname f = fname g -> f = g.
Proof.
  unfold field_names. induction (fields m) as [|h fs IH]; intros Hnd Hf Hg E.
  - by apply elem_of_nil in Hf.
  - rewrite fmap_cons in Hnd. apply NoDup_cons in Hnd as [Hh Hnd].
    apply elem_of_cons in Hf as [->|Hf]; apply elem_of_cons in Hg as [->|Hg].
    + done.
    + exfalso. apply Hh. rewrite E. by apply list_elem_of_fmap_2.
    + exfalso. apply Hh. rewrite <- E. by apply list_elem_of_fmap_2.
    + by apply IH.
Qed.

(** * String lengths *)

Lemma validate_str_field f s :
  is_str_field f = true ->
  validate_value (annotation f) (args f) (VStr s) = check_str (args f) s.
Proof.
  unfold is_str_field. destruct (annotation f) as [| | | | | | |t| |]; try done.
  destruct t; done.
Qed.

Lemma string_length_repeat c n : String.length (repeat_char c n) = n.
Proof. induction n; simpl; congruence. Qed.

(** C5: in every create shape, a string field with a declared maximum
    length rejects a longer value with an error on that field, and a value
    of at most that length is accepted (the input is accepted when the
    other fields are).  The symbol of a CoinPair is bounded by 50, the
    title and message of a notification by 200 and 1000: one character
    more is rejected, the maximum itself is accepted. *)
Theorem C5_string_max_length (now : datetime) :
  (forall C f n s kwargs,
      C ∈ create_shapes -> f ∈ fields C -> is_str_field f = true ->
      get_max_length (args f) = Some n ->
      kwargs !! fname f = Some (VStr s) ->
      ((n < String.length s)%nat ->
       exists errs, validate_create now C kwargs = Err errs
                    /\ (fname f, string_too_long n) ∈ errs)
      /\ ((String.length s <= n)%nat ->
          validate_value (annotation f) (args f) (VStr s) = Ok (VStr s)
          /\ ((forall g, g ∈ fields C -> fname g ≠ fname f ->
                         field_error now kwargs g = None) ->
              exists inst, validate_create now C kwargs = Ok inst
                           /\ values inst !! fname f = Some (VStr s))))
  /\ (forall c,
       let pair symbol : gmap string Value :=
         {[ "symbol" := VStr symbol; "base_asset" := VStr "BTC";
            "quote_asset" := VStr "USDT" ]} in
       validate_create now CoinPairCreate (pair (repeat_char c 51))
       = Err [("symbol", string_too_long 50)]
       /\ is_ok (validate_create now CoinPairCreate (pair (repeat_char c 50)))
          = true)
  /\ (forall c,
       let notification title message : gmap string Value :=
         {[ "user_id" := VInt 1; "coin_pair_id" := VInt 2;
            "alert_setting_id" := VInt 3; "title" := VStr title;
            "message" := VStr message; "rsi_value" := VStr "81.25";
            "price_at_alert" := VStr "42000.10" ]} in
       validate_create now NotificationCreate
         (notification (repeat_char c 201) (repeat_char c 1000))
       = Err [("title", string_too_long 200)]
       /\ validate_create now NotificationCreate
            (notification (repeat_char c 200) (repeat_char c 1001))
          = Err [("message", string_too_long 1000)]
       /\ is_ok (validate_create now NotificationCreate
                   (notification (repeat_char c 200) (repeat_char c 1000)))
          = true).
Proof.
  split; [|split].
  - intros C f n s kwargs HC Hf Hstr Hmax Hk.
    pose proof (field_names_NoDup C (create_in_all C HC)) as Hnd.
    split.
    + intros Hlen.
      apply (validate_model_err now kwargs C f); [done|].
      unfold field_error. rewrite Hk, validate_str_field by done.
      unfold check_str. rewrite Hmax.
      by rewrite (proj2 (Nat.ltb_lt _ _) Hlen).
    + intros Hlen.
      assert (validate_value (annotation f) (args f) (VStr s) = Ok (VStr s))
        as Hv.
      { rewrite validate_str_field by done. unfold check_str. rewrite Hmax.
        by rewrite (proj2 (Nat.ltb_ge _ _) Hlen). }
      split; [done|]. intros Hothers.
      assert (is_ok (validate_model now C kwargs) = true) as Hok.
      { apply validate_model_ok_iff. intros g Hg.
        destruct (decide (fname g = fname f)) as [E|Hne]; [|by apply Hothers].
        rewrite (field_name_inj _ g f Hnd Hg Hf E).
        unfold field_error. by rewrite Hk, Hv. }
      unfold validate_create.
      destruct (validate_model now C kwargs) as [inst|] eqn:E; [|done].
      exists inst. split; [done|].
      destruct (validate_model_lookup now kwargs C inst f Hnd E Hf) as [-> _].
      unfold field_value. by rewrite Hk, Hv.
  - intros c pair. split; vm_compute; reflexivity.
  - intros c notification. repeat split; vm_compute; reflexivity.
Qed.

Lemma C5_string_max_length_witness :
  let now := {| year := 2025; month := 1; day := 1; hour := 0; minute := 0;
                second := 0; microsecond := 0 |} in
  let kwargs : gmap string Value :=
    {[ "symbol" := VStr (repeat_char "S" 51); "base_asset" := VStr "BTC";
       "quote_asset" := VStr "USDT" ]} in
  exists errs, validate_create now CoinPairCreate kwargs = Err errs
               /\ ("symbol", string_too_long 50) ∈ errs.
Proof.
  intros now kwargs.
  apply (proj1 (proj1 (C5_string_max_length now) CoinPairCreate
                  (Field "symbol" str_ [max_length 50]) 50%nat
                  (repeat_char "S" 51) kwargs
                  ltac:(repeat constructor)
                  ltac:(unfold CoinPairCreate, schema; simpl; set_solver)
                  ltac:(reflexivity) ltac:(reflexivity)
                  ltac:(vm_compute; reflexivity))).
  simpl. lia.
Defined.

(** * Enum fields *)

Lemma AlertCondition_of_value_spec s :
  match AlertCondition_.of_value s with
  | Some c => AlertCondition_.value c = s
  | None => s ∉ List.map AlertCondition_.value AlertCondition_.members
  end.
Proof.
  unfold AlertCondition_.of_value, AlertCondition_.members.
  cbn -[String.eqb].
  destruct (String.eqb_spec "overbought" s) as [<-|H1]; [done|].
  destruct (String.eqb_spec "oversold" s) as [<-|H2]; [done|].
  destruct (String.eqb_spec "custom" s) as [<-|H3]; [done|].
  intros Hin.
  repeat (apply elem_of_cons in Hin as [->|Hin]; [done|]).
  by apply elem_of_nil in Hin.
Qed.

Lemma NotificationStatus_of_value_spec s :
  match NotificationStatus_.of_value s with
  | Some c => NotificationStatus_.value c = s
  | None => s ∉ List.map NotificationStatus_.value NotificationStatus_.members
  end.
Proof.
  unfold NotificationStatus_.of_value, NotificationStatus_.members.
  cbn -[String.eqb].
  destruct (String.eqb_spec "pending" s) as [<-|H1]; [done|].
  destruct (String.eqb_spec "sent" s) as [<-|H2]; [done|].
  destruct (String.eqb_spec "dismissed" s) as [<-|H3]; [done|].
  intros Hin.
  repeat (apply elem_of_cons in Hin as [->|Hin]; [done|]).
  by apply elem_of_nil in Hin.
Qed.

(** An [AlertCondition] field accepts exactly the members. *)
Lemma AlertCondition_accepts a v :
  is_ok (validate_value AlertCondition_ a v)
  = is_member ["overbought"; "oversold"; "custom"] v.
Proof.
  destruct v as [| | |s| | |s|c| |]; simpl; try reflexivity.
  - pose proof (AlertCondition_of_value_spec s) as Hs.
    destruct (AlertCondition_.of_value s) as [c|]; simpl in *.
    + symmetry. apply bool_decide_eq_true. rewrite <- Hs.
      destruct c; set_solver.
    + symmetry. by apply bool_decide_eq_false.
  - by destruct s.
  - by destruct c.
Qed.

(** A [NotificationStatus] field accepts exactly the members. *)
Lemma NotificationStatus_accepts a v :
  is_ok (validate_value NotificationStatus_ a v)
  = is_member ["pending"; "sent"; "dismissed"] v.
Proof.
  destruct v as [| | |s| | |s|c| |]; simpl; try reflexivity.
  - pose proof (NotificationStatus_of_value_spec s) as Hs.
    destruct (NotificationStatus_.of_value s) as [c|]; simpl in *.
    + symmetry. apply bool_decide_eq_true. rewrite <- Hs.
      destruct c; set_solver.
    + symmetry. by apply bool_decide_eq_false.
  - by destruct s.
  - by destruct c.
Qed.

(** The error an enum field reports. *)
Lemma enum_field_error t a v ms e :
  enum_values t = Some ms ->
  validate_value t a v = Err e -> e = enum ms.
Proof.
  intros Ht.
  assert (forall t', (t' = AlertCondition_ \/ t' = NotificationStatus_) ->
            enum_values t' = Some ms ->
            validate_value t' a v = Err e -> e = enum ms) as Hbase.
  { intros t' [-> | ->] [= <-]; simpl.
    - destruct v as [| | |s| | | |c| |]; try (by intros [= <-]).
      destruct (AlertCondition_.of_value s); [done|by intros [= <-]].
    - destruct v as [| | |s| | |c| | |]; try (by intros [= <-]).
      destruct (NotificationStatus_.of_value s); [done|by intros [= <-]]. }
  destruct t as [| | | | | | |t| |]; try done.
  - apply Hbase; [by right|done].
  - apply Hbase; [by left|done].
  - destruct t; try done; intros Hv; destruct v; try done.
    all: first [ apply (Hbase NotificationStatus_ (or_intror eq_refl) Ht Hv)
               | apply (Hbase AlertCondition_ (or_introl eq_refl) Ht Hv) ].
Qed.

(** A value other than null passed for an enum field, optional or not,
    is accepted exactly when it is a member. *)
Lemma enum_field_accepts t a ms v :
  enum_values t = Some ms -> v ≠ VNone ->
  is_ok (validate_value t a v) = is_member ms v.
Proof.
  intros Hms Hv.
  destruct t as [| | | | | | |t| |]; try done.
  - injection Hms as <-. apply NotificationStatus_accepts.
  - injection Hms as <-. apply AlertCondition_accepts.
  - destruct t; try done; simpl in Hms; injection Hms as <-;
      destruct v; try done;
      match goal with
      | |- context [validate_value (Optional ?t) a ?w] =>
          change (validate_value (Optional t) a w) with (validate_value t a w)
      end;
      first [apply NotificationStatus_accepts | apply AlertCondition_accepts].
Qed.

(** C6 as stated fails on the update shape: the [condition] field of
    [AlertSettingUpdate] is optional, and null, which is no member of
    [AlertCondition], is accepted there. *)
Lemma C6_counterexample :
  let kwargs : gmap string Value := {[ "condition" := VNone ]} in
  is_ok (validate_update sample_now AlertSettingUpdate kwargs) = true
  /\ is_member ["overbought"; "oversold"; "custom"] VNone = false
  /\ ~ (forall (S : ModelClass) (f : FieldDecl) (ms : list string) (v : Value),
          S ∈ (create_shapes ++ update_shapes)%list -> f ∈ fields S ->
          enum_values (annotation f) = Some ms ->
          is_ok (validate_value (annotation f) (args f) v) = is_member ms v).
Proof.
  split; [vm_compute; reflexivity|]. split; [reflexivity|].
  intros H.
  specialize (H AlertSettingUpdate
                (Field "condition" (Optional AlertCondition_) [default VNone])
                ["overbought"; "oversold"; "custom"] VNone).
  simpl in H. discriminate H; [| |reflexivity].
  - unfold create_shapes, update_shapes. simpl. set_solver.
  - unfold AlertSettingUpdate, schema. simpl. set_solver.
Qed.

(** C6, amended: an [AlertCondition] field accepts exactly overbought,
    oversold and custom, a [NotificationStatus] field exactly pending,
    sent and dismissed.  In every create or update shape, a value other
    than null passed for an enum field is accepted if and only if it is a
    member, and is otherwise reported as an enum error on that field.
    Null is refused by the enum field of a create shape, with the same
    error, and accepted by the optional enum field of an update shape:
    the accepted update holds null for the field, which counts as
    passed. *)
Theorem C6_enum_membership (now : datetime) :
  (forall a v, is_ok (validate_value AlertCondition_ a v)
               = is_member ["overbought"; "oversold"; "custom"] v)
  /\ (forall a v, is_ok (validate_value NotificationStatus_ a v)
                  = is_member ["pending"; "sent"; "dismissed"] v)
  /\ (forall S f ms v kwargs,
         S ∈ (create_shapes ++ update_shapes)%list -> f ∈ fields S ->
         enum_values (annotation f) = Some ms ->
         kwargs !! fname f = Some v ->
         v ≠ VNone ->
         is_ok (validate_value (annotation f) (args f) v) = is_member ms v
         /\ (is_member ms v = false ->
             exists errs, validate_model now S kwargs = Err errs
                          /\ (fname f, enum ms) ∈ errs))
  /\ (forall S f ms,
         f ∈ fields S -> enum_values (annotation f) = Some ms ->
         (S ∈ create_shapes ->
          is_ok (validate_value (annotation f) (args f) VNone) = false)
         /\ (S ∈ update_shapes ->
             is_ok (validate_value (annotation f) (args f) VNone) = true))
  /\ (forall S f ms kwargs,
         f ∈ fields S -> enum_values (annotation f) = Some ms ->
         kwargs !! fname f = Some VNone ->
         (S ∈ create_shapes ->
          exists errs, validate_model now S kwargs = Err errs
                       /\ (fname f, enum ms) ∈ errs)
         /\ (S ∈ update_shapes ->
             field_error now kwargs f = None
             /\ forall inst, validate_model now S kwargs = Ok inst ->
                   values inst !! fname f = Some VNone
                   /\ fname f ∈ model_fields_set inst)).
Proof.
  assert (forall S f ms,
            f ∈ fields S -> enum_values (annotation f) = Some ms ->
            (S ∈ create_shapes ->
             is_ok (validate_value (annotation f) (args f) VNone) = false)
            /\ (S ∈ update_shapes ->
                validate_value (annotation f) (args f) VNone = Ok VNone))
    as Hnull.
  { intros S f ms Hf Hms. split; intros HS.
    + unfold create_shapes in HS.
      repeat (apply elem_of_cons in HS as [->|HS];
        [ unfold schema in Hf; simpl in Hf;
          repeat (apply elem_of_cons in Hf as [->|Hf]; [done|]);
          by apply elem_of_nil in Hf |]).
      by apply elem_of_nil in HS.
    + unfold update_shapes in HS.
      repeat (apply elem_of_cons in HS as [->|HS];
        [ unfold schema in Hf; simpl in Hf;
          repeat (apply elem_of_cons in Hf as [->|Hf]; [done|]);
          by apply elem_of_nil in Hf |]).
      by apply elem_of_nil in HS. }
  split; [apply AlertCondition_accepts|].
  split; [apply NotificationStatus_accepts|].
  split; [|split].
  - intros S f ms v kwargs HS Hf Hms Hk Hv.
    assert (is_ok (validate_value (annotation f) (args f) v) = is_member ms v)
      as Hacc.
    { by apply enum_field_accepts. }
    split; [done|]. intros Hnot.
    apply (validate_model_err now kwargs S f); [done|].
    unfold field_error. rewrite Hk. rewrite Hnot in Hacc.
    destruct (validate_value (annotation f) (args f) v) as [|e] eqn:E; [done|].
    by rewrite (enum_field_error _ _ _ _ _ Hms E).
  - intros S f ms Hf Hms. destruct (Hnull S f ms Hf Hms) as [Hc Hu].
    split; [done|]. intros HS. by rewrite (Hu HS).
  - intros S f ms kwargs Hf Hms Hk.
    destruct (Hnull S f ms Hf Hms) as [Hc Hu]. split; intros HS.
    + apply (validate_model_err now kwargs S f); [done|].
      unfold field_error. rewrite Hk. specialize (Hc HS).
      destruct (validate_value (annotation f) (args f) VNone) as [|e] eqn:E;
        [done|].
      by rewrite (enum_field_error _ _ _ _ _ Hms E).
    + specialize (Hu HS). split.
      { unfold field_error. by rewrite Hk, Hu. }
      intros inst Hok.
      pose proof (field_names_NoDup S (update_in_all S HS)) as Hnd.
      destruct (validate_model_lookup now kwargs S inst f Hnd Hok Hf)
        as [Hv _].
      split.
      * rewrite Hv. unfold field_value. by rewrite Hk, Hu.
      * apply (validate_model_fields_set now kwargs S inst (fname f) Hok).
        split; [by apply list_elem_of_fmap_2|]. by rewrite Hk.
Qed.

Lemma C6_enum_membership_witness :
  let kwargs : gmap string Value :=
    {[ "user_id" := VInt 1; "name" := VStr "my alert";
       "condition" := VStr "overboght" ]} in
  exists errs, validate_model sample_now AlertSettingCreate kwargs = Err errs
               /\ ("condition", enum ["overbought"; "oversold"; "custom"]) ∈ errs.
Proof.
  intros kwargs.
  apply (proj2 (proj1 (proj2 (proj2 (C6_enum_membership sample_now)))
                  AlertSettingCreate (Field "condition" AlertCondition_ [])
                  ["overbought"; "oversold"; "custom"] (VStr "overboght") kwargs
                  ltac:(unfold create_shapes; simpl; set_solver)
                  ltac:(unfold AlertSettingCreate, schema; simpl; set_solver)
                  ltac:(reflexivity) ltac:(vm_compute; reflexivity)
                  ltac:(discriminate))).
  vm_compute; reflexivity.
Defined.

(** * Decimal precision and scale *)

(** What the digit checks of a decimal field admit: a limit is met by the
    decimal as written or by the normalized decimal, and the digits
    before the point fit in what the two limits leave. *)
Lemma check_decimal_ok_iff a d :
  is_ok (check_decimal a d) = true
  <-> (forall m, get_max_digits a = Some m ->
                 ((decimal_digits_info d).2 <= m
                  \/ (normalized_digits_info d).2 <= m)%nat)
      /\ (forall p, get_decimal_places a = Some p ->
                    ((decimal_digits_info d).1 <= p
                     \/ (normalized_digits_info d).1 <= p)%nat)
      /\ (forall m p, get_max_digits a = Some m ->
                      get_decimal_places a = Some p ->
                      ((decimal_digits_info d).2 - (decimal_digits_info d).1
                       <= m - p)%nat).
Proof.
  unfold check_decimal.
  destruct (decimal_digits_info d) as [decimals digits].
  destruct (normalized_digits_info d) as [ndecimals ndigits]. simpl.
  destruct (get_max_digits a) as [m|], (get_decimal_places a) as [p|]; simpl.
  - destruct (Nat.ltb_spec m digits), (Nat.ltb_spec m ndigits); simpl;
      try (split; [done|]; intros (Ka & _); specialize (Ka m eq_refl); lia).
    all: destruct (Nat.ltb_spec p decimals), (Nat.ltb_spec p ndecimals); simpl;
      try (split; [done|]; intros (_ & Kb & _); specialize (Kb p eq_refl); lia).
    all: destruct (Nat.ltb_spec (m - p) (digits - decimals)); simpl;
      try (split; [done|]; intros (_ & _ & Kc);
           specialize (Kc m p eq_refl eq_refl); lia).
    all: split; [|done]; intros _; repeat split; intros; simplify_eq; lia.
  - destruct (Nat.ltb_spec m digits), (Nat.ltb_spec m ndigits); simpl;
      try (split; [done|]; intros (Ka & _); specialize (Ka m eq_refl); lia).
    all: split; [|done]; intros _; repeat split; intros; simplify_eq; lia.
  - destruct (Nat.ltb_spec p decimals), (Nat.ltb_spec p ndecimals); simpl;
      try (split; [done|]; intros (_ & Kb & _); specialize (Kb p eq_refl); lia).
    all: split; [|done]; intros _; repeat split; intros; simplify_eq; lia.
  - split; [|done]. intros _. repeat split; intros; simplify_eq.
Qed.

(** A decimal that passes the digit checks is kept as it is. *)
Lemma check_decimal_keeps a d v : check_decimal a d = Ok v -> v = VDecimal d.
Proof.
  unfold check_decimal. destruct (decimal_digits_info d) as [decimals digits].
  destruct (normalized_digits_info d) as [ndecimals ndigits].
  destruct (get_max_digits a) as [m|], (get_decimal_places a) as [p|]; simpl;
    repeat (match goal with
            | |- context [if ?b then _ else _] => destruct b; simpl
            end; try done); by intros [= <-].
Qed.

(** A field that declares no scale and no precision takes every
    decimal. *)
Lemma check_decimal_unconstrained a d :
  get_max_digits a = None -> get_decimal_places a = None ->
  check_decimal a d = Ok (VDecimal d).
Proof.
  intros Hm Hp. unfold check_decimal.
  destruct (decimal_digits_info d) as [decimals digits].
  destruct (normalized_digits_info d) as [ndecimals ndigits].
  by rewrite Hm, Hp.
Qed.

(** A decimal field that declares a scale or a precision refuses a value
    that has, as written and normalized, more digits after the point, or
    more digits in all. *)
Lemma constrained_decimal_refused now S kwargs f d :
  f ∈ fields S -> is_decimal_field f = true ->
  kwargs !! fname f = Some (VDecimal d) ->
  (exists p, get_decimal_places (args f) = Some p
             /\ (p < (decimal_digits_info d).1)%nat
             /\ (p < (normalized_digits_info d).1)%nat)
  \/ (exists m, get_max_digits (args f) = Some m
                /\ (m < (decimal_digits_info d).2)%nat
                /\ (m < (normalized_digits_info d).2)%nat) ->
  is_ok (validate_model now S kwargs) = false.
Proof.
  intros Hf Hdec Hk Hover.
  assert (is_ok (check_decimal (args f) d) = false) as Hrej.
  { destruct (is_ok (check_decimal (args f) d)) eqn:E; [|done].
    apply check_decimal_ok_iff in E as (H1 & H2 & _).
    destruct Hover as [(p & Hp & Hlt & Hlt')|(m & Hm & Hlt & Hlt')].
    - specialize (H2 p Hp). lia.
    - specialize (H1 m Hm). lia. }
  destruct (is_ok (validate_model now S kwargs)) eqn:E; [|done].
  pose proof (proj1 (validate_model_ok_iff now kwargs S) E f Hf) as E'.
  clear E. rename E' into E.
  unfold field_error in E. rewrite Hk in E.
  assert (validate_value (annotation f) (args f) (VDecimal d)
          = check_decimal (args f) d) as Hv.
  { unfold is_decimal_field in Hdec.
    destruct (annotation f) as [| | | | | | |t| |]; try done.
    destruct t; done. }
  rewrite Hv in E. by destruct (check_decimal (args f) d).
Qed.

(** C1: the create shape of RSIData declares no scale and no precision
    for [rsi_value], so the input with rsi_value "12345.12345" (5 digits
    after the point, 10 in all) is accepted and the entity built from it
    holds that value, although the [rsi_value] column of the table
    declares 4 and 8 and refuses it, and although the create shape of
    AlertSetting carries the constraints of its table and refuses a
    threshold with three digits after the point. *)
Theorem C1_rsi_create_accepts_over_scale (now : datetime) :
  let kwargs : gmap string Value :=
    {[ "coin_pair_id" := VInt 1; "rsi_value" := VStr "12345.12345";
       "price" := VStr "1" ]} in
  let d := {| d_sign := false; d_int := 1234512345; d_exp := -5 |} in
  Decimal_of_str "12345.12345" = Some d
  /\ decimal_digits_info d = (5%nat, 10%nat)
  /\ declared_args RSIDataCreate "rsi_value" = []
  /\ declared_args RSIData "rsi_value" = [decimal_places 4; max_digits 8]
  /\ (exists inst,
        validate_create now RSIDataCreate kwargs = Ok inst
        /\ values inst !! "rsi_value" = Some (VDecimal d)
        /\ from_create now RSIData inst !! "rsi_value" = Some (VDecimal d))
  /\ validate_value Decimal_ (declared_args RSIData "rsi_value")
       (VStr "12345.12345") = Err (decimal_max_digits 8)
  /\ validate_create now AlertSettingCreate
       {[ "user_id" := VInt 1; "name" := VStr "my alert";
          "condition" := VStr "overbought";
          "overbought_threshold" := VStr "70.123" ]}
     = Err [("overbought_threshold", decimal_max_places 2)].
Proof.
  intros kwargs d.
  repeat (split; [reflexivity|]).
  split; [|split; vm_compute; reflexivity].
  destruct (validate_create now RSIDataCreate kwargs) as [inst|errs] eqn:E;
    [|vm_compute in E; discriminate].
  exists inst. split; [done|].
  assert (values inst !! "rsi_value" = Some (VDecimal d)) as Hv.
  { vm_compute in E. injection E as <-. reflexivity. }
  split; [done|].
  erewrite from_create_lookup; [|repeat constructor|reflexivity].
  by rewrite Hv.
Qed.

(** * Range of the RSI value *)

(** The create shape of RSIData takes every decimal as [rsi_value] and as
    [price], and the row stored from the accepted input holds them as
    they are. *)
Lemma RSIData_stores_any_decimal now id pair rsi price :
  let kwargs : gmap string Value :=
    {[ "coin_pair_id" := VInt pair; "rsi_value" := VDecimal rsi;
       "price" := VDecimal price ]} in
  exists inst,
    validate_create now RSIDataCreate kwargs = Ok inst
    /\ stored id (from_create now RSIData inst) !! "rsi_value"
       = Some (VDecimal rsi)
    /\ stored id (from_create now RSIData inst) !! "price"
       = Some (VDecimal price).
Proof.
  intros kwargs.
  assert (kwargs !! "rsi_value" = Some (VDecimal rsi)) as Hrsi by reflexivity.
  assert (kwargs !! "price" = Some (VDecimal price)) as Hprice by reflexivity.
  assert (kwargs !! "coin_pair_id" = Some (VInt pair)) as Hpair by reflexivity.
  assert (kwargs !! "volume" = None) as Hvolume by reflexivity.
  assert (kwargs !! "period" = None) as Hperiod by reflexivity.
  assert (is_ok (validate_create now RSIDataCreate kwargs) = true) as Hok.
  { apply validate_model_ok_iff. intros f Hf.
    unfold RSIDataCreate, schema in Hf. simpl in Hf.
    repeat (apply elem_of_cons in Hf as [->|Hf];
            [unfold field_error; cbn [fname annotation args];
             rewrite ?Hrsi, ?Hprice, ?Hpair, ?Hvolume, ?Hperiod;
             cbn [validate_value];
             rewrite ?check_decimal_unconstrained by reflexivity;
             reflexivity|]).
    by apply elem_of_nil in Hf. }
  destruct (validate_create now RSIDataCreate kwargs) as [inst|] eqn:E;
    [|discriminate Hok].
  exists inst. split; [reflexivity|].
  pose proof (field_names_NoDup RSIDataCreate
                ltac:(apply create_in_all; repeat constructor)) as Hnd.
  assert (values inst !! "rsi_value" = Some (VDecimal rsi)) as Hv1.
  { destruct (validate_model_lookup now kwargs RSIDataCreate inst
                (Field "rsi_value" Decimal_ []) Hnd E
                ltac:(unfold RSIDataCreate, schema; simpl; set_solver))
      as [Hv _].
    cbn [fname] in Hv. rewrite Hv. unfold field_value.
    cbn [fname annotation args]. rewrite Hrsi. cbn [validate_value].
    by rewrite check_decimal_unconstrained. }
  assert (values inst !! "price" = Some (VDecimal price)) as Hv2.
  { destruct (validate_model_lookup now kwargs RSIDataCreate inst
                (Field "price" Decimal_ []) Hnd E
                ltac:(unfold RSIDataCreate, schema; simpl; set_solver))
      as [Hv _].
    cbn [fname] in Hv. rewrite Hv. unfold field_value.
    cbn [fname annotation args]. rewrite Hprice. cbn [validate_value].
    by rewrite check_decimal_unconstrained. }
  split.
  - rewrite stored_lookup_ne by done.
    erewrite from_create_lookup; [|repeat constructor|reflexivity].
    by rewrite Hv1.
  - rewrite stored_lookup_ne by done.
    erewrite from_create_lookup; [|repeat constructor|reflexivity].
    by rewrite Hv2.
Qed.

(** C8: the [rsi_value] column is declared with 4 digits after the point
    (8 in all), [price] and [volume] with 8 (20 in all), and the comment
    on the column gives the range 0-100; no declaration of the table or
    of the create shape holds the value in that range.  The create shape
    takes every decimal as [rsi_value] and the stored row holds it: the
    input with rsi_value "150" is accepted, and the row stored from it
    holds 150, which is not in [0, 100]; so does the input with
    rsi_value "-1". *)
Theorem C8_stored_rsi_value_out_of_range (now : datetime) (id : Z) :
  get_decimal_places (declared_args RSIData "rsi_value") = Some 4%nat
  /\ get_decimal_places (declared_args RSIData "price") = Some 8%nat
  /\ get_decimal_places (declared_args RSIData "volume") = Some 8%nat
  /\ declared_args RSIData "rsi_value" = [decimal_places 4; max_digits 8]
  /\ declared_args RSIDataCreate "rsi_value" = []
  /\ (forall pair rsi price,
        exists inst,
          validate_create now RSIDataCreate
            {[ "coin_pair_id" := VInt pair; "rsi_value" := VDecimal rsi;
               "price" := VDecimal price ]} = Ok inst
          /\ stored id (from_create now RSIData inst) !! "rsi_value"
             = Some (VDecimal rsi))
  /\ (forall text d,
        (text, d) ∈ [ ("150", {| d_sign := false; d_int := 150; d_exp := 0 |});
                      ("-1", {| d_sign := true; d_int := 1; d_exp := 0 |}) ] ->
        in_0_100 d = false
        /\ exists inst,
             validate_create now RSIDataCreate
               {[ "coin_pair_id" := VInt 1; "rsi_value" := VStr text;
                  "price" := VStr "1" ]} = Ok inst
             /\ stored id (from_create now RSIData inst) !! "rsi_value"
                = Some (VDecimal d)).
Proof.
  repeat (split; [reflexivity|]). split.
  - intros pair rsi price.
    destruct (RSIData_stores_any_decimal now id pair rsi price)
      as (inst & Hok & Hrsi & _).
    by exists inst.
  - intros text d Hin.
    repeat (apply elem_of_cons in Hin as [[= -> ->]|Hin]);
      [| |by apply elem_of_nil in Hin].
    all: split; [reflexivity|].
    all: match goal with
         | |- exists inst, validate_create ?n ?C ?kw = _ /\ _ =>
             destruct (validate_create n C kw) as [inst|errs] eqn:E;
               [|vm_compute in E; discriminate]
         end.
    all: exists inst; split; [reflexivity|].
    all: rewrite stored_lookup_ne by done.
    all: erewrite from_create_lookup; [|repeat constructor|reflexivity].
    all: vm_compute in E; injection E as <-; reflexivity.
Qed.

Lemma C8_stored_rsi_value_out_of_range_witness :
  let d := {| d_sign := false; d_int := 150; d_exp := 0 |} in
  in_0_100 d = false
  /\ exists inst,
       validate_create sample_now RSIDataCreate
         {[ "coin_pair_id" := VInt 1; "rsi_value" := VStr "150";
            "price" := VStr "1" ]} = Ok inst
       /\ stored 1 (from_create sample_now RSIData inst) !! "rsi_value"
          = Some (VDecimal d).
Proof.
  intros d.
  apply (proj2 (proj2 (proj2 (proj2 (proj2 (proj2
           (C8_stored_rsi_value_out_of_range sample_now 1)))))) "150" d).
  apply elem_of_cons. by left.
Defined.

(** * Status of a notification *)

Lemma status_of_insert_status n s :
  status_of (<["status" := VStatus s]> n) = Some s.
Proof. unfold status_of. by rewrite lookup_insert_eq. Qed.

(** The status after one update: the requested one when the change is
    permitted, the old one otherwise. *)
Lemma update_status_status n now to :
  status_of (update_status n (now, to))
  = match status_of n with
    | Some from => if permitted from to then Some to else Some from
    | None => None
    end.
Proof.
  unfold update_status. destruct (status_of n) as [from|] eqn:E; [|done].
  destruct (permitted from to) eqn:P; [|done].
  destruct to; [by destruct from| |]; apply status_of_insert_status.
Qed.

(** A notification that is no longer pending keeps its status. *)
Lemma left_pending_stays n req s :
  status_of n = Some s -> s ≠ PENDING ->
  status_of (update_status n req) = Some s.
Proof.
  intros Hs Hne. destruct req as [now to].
  rewrite update_status_status, Hs. by destruct s, to.
Qed.

Lemma status_history_left_pending reqs : forall n s b,
  status_of n = Some s -> s ≠ PENDING ->
  b ∈ status_history n reqs -> status_of b = Some s.
Proof.
  induction reqs as [|r rs IH]; intros n s b Hs Hne Hb; simpl in Hb.
  - apply list_elem_of_singleton in Hb. by subst.
  - apply elem_of_cons in Hb as [->|Hb]; [done|].
    eapply IH; [|done|exact Hb]. by apply left_pending_stays.
Qed.

(** The history from a point on is the history of the notification at
    that point under the remaining updates. *)
Lemma status_history_suffix reqs : forall n i a,
  status_history n reqs !! i = Some a ->
  forall j b, (i <= j)%nat -> status_history n reqs !! j = Some b ->
              b ∈ status_history a (drop i reqs).
Proof.
  induction reqs as [|r rs IH]; intros n i a Ha j b Hij Hb.
  - destruct i as [|i]; [|done]. destruct j as [|j]; [|done].
    simpl in *. simplify_eq. set_solver.
  - destruct i as [|i].
    + simpl in Ha. injection Ha as <-. rewrite drop_0.
      by apply list_elem_of_lookup_2 in Hb.
    + destruct j as [|j]; [lia|]. simpl in *.
      eapply IH; [exact Ha| |exact Hb]. lia.
Qed.

(** C7: the permitted status changes are pending to sent and pending to
    dismissed, a pending notification takes either on request, and in the
    history of a notification under any sequence of status updates, once
    the status is not pending it is not pending at any later point. *)
Theorem C7_status_never_back_to_pending
    (n : gmap string Value) (reqs : list (datetime * NotificationStatus))
    (i j : nat) (a b : gmap string Value) (s : NotificationStatus) :
  status_history n reqs !! i = Some a ->
  status_history n reqs !! j = Some b ->
  (i <= j)%nat ->
  status_of a = Some s -> s ≠ PENDING ->
  status_of b ≠ Some PENDING
  /\ (forall from to, permitted from to = true
                      <-> from = PENDING /\ (to = SENT \/ to = DISMISSED))
  /\ (forall m now to,
         status_of m = Some PENDING -> to ≠ PENDING ->
         status_of (update_status m (now, to)) = Some to).
Proof.
  intros Ha Hb Hij Hs Hne. split; [|split].
  - pose proof (status_history_suffix reqs n i a Ha j b Hij Hb) as Hin.
    rewrite (status_history_left_pending _ a s b Hs Hne Hin).
    congruence.
  - intros from to. destruct from, to; simpl; naive_solver.
  - intros m now to Hm Hto. rewrite update_status_status, Hm.
    by destruct to.
Qed.

(** A notification is sent, then asked to go back to pending and to be
    dismissed: it stays sent. *)
Lemma C7_status_never_back_to_pending_witness :
  let n : gmap string Value :=
    construct sample_now RSINotification
      {[ "user_id" := VInt 1; "coin_pair_id" := VInt 2;
         "alert_setting_id" := VInt 3; "title" := VStr "RSI high";
         "message" := VStr "BTCUSDT is overbought" ]} in
  let reqs := [(sample_now, SENT); (sample_now, PENDING);
               (sample_now, DISMISSED)] in
  exists a b,
    status_history n reqs !! 1%nat = Some a
    /\ status_history n reqs !! 3%nat = Some b
    /\ status_of a = Some SENT
    /\ status_of b ≠ Some PENDING.
Proof.
  intros n reqs.
  exists (update_status n (sample_now, SENT)),
         (update_status
            (update_status (update_status n (sample_now, SENT))
               (sample_now, PENDING))
            (sample_now, DISMISSED)).
  assert (status_of (update_status n (sample_now, SENT)) = Some SENT) as Hs
    by (vm_compute; reflexivity).
  split; [reflexivity|]. split; [reflexivity|]. split; [exact Hs|].
  apply (C7_status_never_back_to_pending n reqs 1 3 _ _ SENT
           eq_refl eq_refl ltac:(lia) Hs ltac:(discriminate)).
Defined.

(** * Updates *)

(** A field of the entity after an update: the attribute of the update
    shape when the field was passed, the stored value otherwise. *)
Lemma apply_update_lookup entity upd k :
  apply_update entity upd !! k
  = if decide (k ∈ model_fields_set upd)
    then match values upd !! k with
         | Some v => Some v
         | None => entity !! k
         end
    else entity !! k.
Proof.
  unfold apply_update. rewrite lookup_union.
  destruct (decide (k ∈ model_fields_set upd)) as [Hin|Hout].
  - destruct (values upd !! k) as [v|] eqn:E.
    + rewrite (map_lookup_filter_Some_2 _ _ _ _ E Hin).
      by destruct (entity !! k).
    + assert (filter (fun kv => kv.1 ∈ model_fields_set upd) (values upd) !! k
              = None) as ->.
      { apply map_lookup_filter_None. by left. }
      by destruct (entity !! k).
  - assert (filter (fun kv => kv.1 ∈ model_fields_set upd) (values upd) !! k
            = None) as ->.
    { apply map_lookup_filter_None. right. intros v _. exact Hout. }
    by destruct (entity !! k).
Qed.

(** C4: every field of every update shape is optional, with None as its
    default.  Applying an accepted update assigns to the stored entity
    the validated value of each field that was passed, and leaves every
    other field as stored: a field that was not passed keeps its stored
    value (no default is applied to it), and an update that passes no
    field leaves the entity as it is. *)
Theorem C4_update_changes_only_supplied (now : datetime) (U : ModelClass)
    (kwargs : gmap string Value) (upd : Instance)
    (entity : gmap string Value) :
  U ∈ update_shapes ->
  validate_update now U kwargs = Ok upd ->
  (forall f, f ∈ fields U ->
             is_optional (annotation f) = true
             /\ get_default now (args f) = Some VNone)
  /\ (forall f v, f ∈ fields U -> kwargs !! fname f = Some v ->
        exists v', validate_value (annotation f) (args f) v = Ok v'
                   /\ apply_update entity upd !! fname f = Some v')
  /\ (forall k, kwargs !! k = None ->
                apply_update entity upd !! k = entity !! k)
  /\ (forall k, k ∉ field_names U ->
                apply_update entity upd !! k = entity !! k)
  /\ ((forall k, k ∈ field_names U -> kwargs !! k = None) ->
      apply_update entity upd = entity).
Proof.
  intros HU Hok. unfold validate_update in Hok.
  pose proof (field_names_NoDup U (update_in_all U HU)) as Hnd.
  pose proof (validate_model_fields_set now kwargs U upd) as Hset.
  assert (forall k, kwargs !! k = None \/ k ∉ field_names U ->
                    apply_update entity upd !! k = entity !! k) as Hframe.
  { intros k Hk. rewrite apply_update_lookup.
    destruct (decide (k ∈ model_fields_set upd)) as [Hin|]; [|done].
    apply (Hset k Hok) in Hin as [Hfield [v Hv]].
    destruct Hk as [Hk|Hk]; [congruence|done]. }
  split; [|split; [|split; [|split]]].
  - intros f Hf. unfold update_shapes in HU.
    repeat (apply elem_of_cons in HU as [->|HU];
      [ unfold schema in Hf; simpl in Hf;
        repeat (apply elem_of_cons in Hf as [->|Hf]; [done|]);
        by apply elem_of_nil in Hf |]).
    by apply elem_of_nil in HU.
  - intros f v Hf Hk.
    destruct (validate_model_lookup now kwargs U upd f Hnd Hok Hf)
      as [Hval [v' Hv']].
    unfold field_value in Hv'. rewrite Hk in Hv'.
    destruct (validate_value (annotation f) (args f) v) as [w|] eqn:E; [|done].
    injection Hv' as <-. exists w. split; [done|].
    rewrite apply_update_lookup, Hval.
    unfold field_value. rewrite Hk, E.
    rewrite decide_True; [done|].
    apply (Hset _ Hok). split; [by apply list_elem_of_fmap_2|eauto].
  - intros k Hk. apply Hframe. by left.
  - intros k Hk. apply Hframe. by right.
  - intros Hnone. apply map_eq. intros k. apply Hframe.
    destruct (decide (k ∈ field_names U)); [left; by apply Hnone|by right].
Qed.

(** A stored CoinPair that was deactivated: an update of its symbol
    alone changes the symbol and leaves [is_active] false, where the
    default of the create shape is true. *)
Lemma C4_update_changes_only_supplied_witness :
  let entity : gmap string Value :=
    stored 1 (construct sample_now CoinPair
                {[ "symbol" := VStr "BTCUSDT"; "base_asset" := VStr "BTC";
                   "quote_asset" := VStr "USDT"; "is_active" := VBool false ]}) in
  let kwargs : gmap string Value := {[ "symbol" := VStr "BTCUSDC" ]} in
  exists upd,
    validate_update sample_now CoinPairUpdate kwargs = Ok upd
    /\ apply_update entity upd !! "is_active" = Some (VBool false)
    /\ apply_update entity upd !! "symbol" = Some (VStr "BTCUSDC").
Proof.
  intros entity kwargs.
  destruct (validate_update sample_now CoinPairUpdate kwargs) as [upd|errs] eqn:E;
    [|vm_compute in E; discriminate].
  exists upd. split; [reflexivity|].
  pose proof (C4_update_changes_only_supplied sample_now CoinPairUpdate
                kwargs upd entity
                ltac:(unfold update_shapes; simpl; set_solver) E)
    as (_ & Hset & Hkeep & _).
  split.
  - rewrite (Hkeep "is_active" ltac:(vm_compute; reflexivity)).
    vm_compute; reflexivity.
  - destruct (Hset (Field "symbol" (Optional str_) [default VNone; max_length 50])
                (VStr "BTCUSDC")
                ltac:(unfold CoinPairUpdate, schema; simpl; set_solver)
                ltac:(vm_compute; reflexivity)) as (v' & Hv & Hl).
    vm_compute in Hv. injection Hv as <-. exact Hl.
Defined.

(** * Decimals written as text are read back exactly *)

Lemma append_nil_l (b : string) : String.append "" b = b.
Proof. reflexivity. Qed.

Lemma append_cons x (a b : string) :
  String.append (String x a) b = String x (String.append a b).
Proof. reflexivity. Qed.

Lemma append_empty_r (a : string) : String.append a "" = a.
Proof.
  induction a as [|x a IH]; [done|]. by rewrite append_cons, IH.
Qed.

Lemma length_append (a b : string) :
  String.length (String.append a b) = (String.length a + String.length b)%nat.
Proof.
  induction a as [|x a IH]; [done|]. rewrite append_cons. simpl. by rewrite IH.
Qed.

Lemma string_all_append p a b :
  string_all p (String.append a b) = string_all p a && string_all p b.
Proof.
  induction a as [|c a IH]; [done|]. rewrite append_cons. simpl.
  rewrite IH. by destruct (p c).
Qed.

Lemma string_all_weaken (p q : ascii -> bool) s :
  (forall c, p c = true -> q c = true) ->
  string_all p s = true -> string_all q s = true.
Proof.
  intros Hpq. induction s as [|c s IH]; simpl; [done|].
  intros [Hc Hs]%andb_true_iff. rewrite (Hpq c Hc). by apply IH.
Qed.

Lemma digit_is_kept c : is_digit c = true -> is_kept c = true.
Proof.
  destruct c as [[] [] [] [] [] [] [] []]; vm_compute; congruence.
Qed.

Lemma take_sign_digit c r :
  is_digit c = true -> take_sign (String c r) = (false, String c r).
Proof.
  destruct c as [[] [] [] [] [] [] [] []]; vm_compute; congruence.
Qed.

Lemma lstrip_kept c r : is_kept c = true -> lstrip (String c r) = String c r.
Proof.
  unfold is_kept. simpl. by destruct (is_space c).
Qed.

Lemma rstrip_kept s : string_all is_kept s = true -> rstrip s = s.
Proof.
  induction s as [|c s IH]; simpl; [done|].
  intros [Hc Hs]%andb_true_iff. rewrite (IH Hs).
  destruct s; [|done].
  unfold is_kept in Hc. by destruct (is_space c).
Qed.

Lemma strip_kept s : string_all is_kept s = true -> strip s = s.
Proof.
  intros H. unfold strip. destruct s as [|c r]; [done|].
  simpl in H. apply andb_true_iff in H as [Hc Hr].
  rewrite lstrip_kept by done. apply rstrip_kept. simpl. by rewrite Hc, Hr.
Qed.

Lemma remove_underscores_kept s :
  string_all is_kept s = true -> remove_underscores s = s.
Proof.
  induction s as [|c s IH]; simpl; [done|].
  intros [Hc Hs]%andb_true_iff. rewrite (IH Hs).
  unfold is_kept in Hc. by destruct (Ascii.eqb c "_"), (is_space c).
Qed.

Lemma span_digits_append a b :
  string_all is_digit a = true -> starts_nondigit b = true ->
  span_digits (String.append a b) = (a, b).
Proof.
  intros Ha Hb. induction a as [|c a IH].
  - rewrite append_nil_l. destruct b as [|c b]; [done|]. simpl in *.
    by destruct (is_digit c).
  - rewrite append_cons. simpl in *. apply andb_true_iff in Ha as [Hc Ha].
    by rewrite Hc, (IH Ha).
Qed.

(** The digits of a number. *)
Lemma string_of_uint_digits u :
  string_all is_digit (NilEmpty.string_of_uint u) = true.
Proof. induction u; simpl; done. Qed.

Lemma digits_of_eq n : digits_of n = NilEmpty.string_of_uint (N.to_uint n).
Proof.
  unfold digits_of, NilZero.string_of_uint.
  destruct (N.to_uint n) eqn:E; try done.
  destruct n as [|p]; [done|]. by apply DecimalPos.Unsigned.to_uint_nonnil in E.
Qed.

Lemma digits_of_digits n : string_all is_digit (digits_of n) = true.
Proof. rewrite digits_of_eq. apply string_of_uint_digits. Qed.

Lemma int_of_digits_of n : int_of_digits (digits_of n) = n.
Proof.
  unfold int_of_digits. rewrite digits_of_eq, NilEmpty.usu.
  apply DecimalN.Unsigned.of_to.
Qed.

Lemma digits_of_nonempty n : exists c r, digits_of n = String c r.
Proof.
  destruct (digits_of n) as [|c r] eqn:E; [|eauto].
  pose proof (int_of_digits_of n) as H. rewrite E in H.
  vm_compute in H. subst n. vm_compute in E. discriminate.
Qed.

Lemma zeros_digits k : string_all is_digit (zeros k) = true.
Proof. induction k; simpl; done. Qed.

Lemma length_zeros k : String.length (zeros k) = k.
Proof. induction k; simpl; congruence. Qed.

Lemma int_of_digits_zeros k s :
  int_of_digits (String.append (zeros k) s) = int_of_digits s.
Proof.
  induction k as [|k IH]; [done|].
  rewrite <- IH. unfold int_of_digits.
  change (String.append (zeros (S k)) s)
    with (String "0" (String.append (zeros k) s)).
  simpl. by destruct (NilEmpty.uint_of_string (String.append (zeros k) s)).
Qed.

Lemma split_at_spec k s a b :
  split_at k s = (a, b) ->
  String.append a b = s
  /\ String.length a = Nat.min k (String.length s).
Proof.
  revert s a b. induction k as [|k IH]; intros s a b H.
  - destruct s; simpl in H; by injection H as <- <-.
  - destruct s as [|c s]; simpl in H; [by injection H as <- <-|].
    destruct (split_at k s) as [a' b'] eqn:E. injection H as <- <-.
    destruct (IH s a' b' E) as [H1 H2].
    rewrite append_cons. simpl. by rewrite H1, H2.
Qed.

Lemma parse_exponent_signed z : parse_exponent (signed_str z) = Some z.
Proof.
  unfold parse_exponent, signed_str.
  pose proof (digits_of_digits (Z.abs_N z)) as Hd.
  pose proof (int_of_digits_of (Z.abs_N z)) as Hi.
  destruct (digits_of_nonempty (Z.abs_N z)) as (c & r & E).
  rewrite E in *.
  assert (span_digits (String c r) = (String c r, "")) as Hspan.
  { rewrite <- (append_empty_r (String c r)) at 1.
    by apply span_digits_append. }
  destruct (Z.ltb_spec z 0).
  - change (take_sign (String.append "-" (String c r))) with (true, String c r).
    cbv beta iota. rewrite Hspan, Hi. f_equal. lia.
  - change (String.append "+" (String c r)) with (String "+" (String c r)).
    change (take_sign (String "+" (String c r))) with (false, String c r).
    cbv beta iota. rewrite Hspan, Hi. f_equal. lia.
Qed.

Lemma signed_str_kept z : string_all is_kept (signed_str z) = true.
Proof.
  unfold signed_str. rewrite string_all_append.
  rewrite (string_all_weaken _ _ _ digit_is_kept (digits_of_digits _)).
  by destruct (z <? 0).
Qed.

Lemma exp_str_kept e : string_all is_kept (exp_str e) = true.
Proof. destruct e as [x|]; [|done]. simpl. apply signed_str_kept. Qed.

Lemma exp_str_nondigit e : starts_nondigit (exp_str e) = true.
Proof. by destruct e. Qed.

(** Reading a decimal written as sign, digits, optional fraction and
    optional exponent. *)
Lemma Decimal_of_str_parts neg c0 r0 frac e :
  let ip := String c0 r0 in
  let fd := frac_digits frac in
  string_all is_digit ip = true -> string_all is_digit fd = true ->
  Decimal_of_str
    (String.append (sign_str neg)
       (String.append ip (String.append (frac_str frac) (exp_str e))))
  = Some {| d_sign := neg;
            d_int := int_of_digits (String.append ip fd);
            d_exp := exp_value e - Z.of_nat (String.length fd) |}.
Proof.
  intros ip fd Hip Hfd. subst fd.
  set (rest := String.append (frac_str frac) (exp_str e)).
  assert (string_all is_kept rest = true) as Hrest.
  { unfold rest. rewrite string_all_append, exp_str_kept.
    destruct frac as [f|]; [|done]. simpl in *.
    by rewrite (string_all_weaken _ _ _ digit_is_kept Hfd). }
  assert (starts_nondigit rest = true) as Hnd.
  { unfold rest. destruct frac as [f|]; [done|].
    simpl frac_str. rewrite append_nil_l. apply exp_str_nondigit. }
  set (s := String.append (sign_str neg) (String.append ip rest)).
  assert (string_all is_kept s = true) as Hs.
  { unfold s. rewrite !string_all_append, Hrest.
    rewrite (string_all_weaken _ _ _ digit_is_kept Hip).
    by destruct neg. }
  unfold Decimal_of_str. rewrite (strip_kept s Hs), (remove_underscores_kept s Hs).
  assert (take_sign s = (neg, String.append ip rest)) as ->.
  { unfold s. destruct neg; [done|]. simpl sign_str.
    rewrite append_nil_l. unfold ip. rewrite append_cons.
    apply take_sign_digit. simpl in Hip. by apply andb_true_iff in Hip as [? _]. }
  rewrite (span_digits_append ip rest Hip Hnd).
  assert (match rest with
          | String "." r' => span_digits r'
          | _ => ("", rest)
          end = (frac_digits frac, exp_str e)) as ->.
  { unfold rest. destruct frac as [f|].
    - simpl frac_str. rewrite append_cons.
      apply span_digits_append; [done|apply exp_str_nondigit].
    - simpl frac_str. rewrite append_nil_l. by destruct e. }
  unfold ip. rewrite append_cons.
  destruct e as [x|]; [|done].
  simpl exp_str. cbv beta iota.
  change (Ascii.eqb "E" "e" || Ascii.eqb "E" "E") with true. cbv iota.
  by rewrite parse_exponent_signed.
Qed.

(** The text of a decimal reads back as the same decimal: same sign,
    same coefficient, same exponent. *)
Lemma Decimal_of_str_Decimal_str d : Decimal_of_str (Decimal_str d) = Some d.
Proof.
  destruct d as [sg c e]. unfold Decimal_str. cbn [d_sign d_int d_exp].
  pose proof (digits_of_digits c) as Hds.
  pose proof (int_of_digits_of c) as Hint.
  destruct (digits_of_nonempty c) as (c0 & r0 & Eds).
  set (ds := digits_of c) in *.
  assert (1 <= Z.of_nat (String.length ds)) as Hn by (rewrite Eds; simpl; lia).
  set (n := Z.of_nat (String.length ds)) in *.
  set (L := e + n).
  destruct ((e <=? 0) && (-6 <? L)) eqn:A.
  - apply andb_true_iff in A as [He _]. apply Z.leb_le in He.
    rewrite Z.eqb_refl.
    destruct (Z.leb_spec L 0) as [HL|HL].
    + refine (eq_trans (Decimal_of_str_parts sg "0" ""
                (Some (String.append (zeros (Z.to_nat (- L))) ds)) None _ _) _).
      * done.
      * cbn [frac_digits exp_value]. by rewrite string_all_append, zeros_digits, Hds.
      * cbn [frac_digits exp_value]. f_equal. f_equal.
        -- change (String.append "0" (String.append (zeros (Z.to_nat (- L))) ds))
             with (String.append (zeros (S (Z.to_nat (- L)))) ds).
           by rewrite int_of_digits_zeros.
        -- rewrite length_append, length_zeros. subst n L. lia.
    + destruct (Z.leb_spec n L) as [HnL|HnL].
      * assert (L - n = 0) as -> by (subst L; lia).
        change (zeros (Z.to_nat 0)) with "". rewrite append_empty_r, Eds.
        refine (eq_trans (Decimal_of_str_parts sg c0 r0 None None _ _) _).
        -- by rewrite <- Eds.
        -- done.
        -- cbn [frac_digits exp_value]. rewrite append_empty_r, <- Eds, Hint.
           f_equal. f_equal. simpl. subst L. lia.
      * destruct (split_at (Z.to_nat L) ds) as [a b] eqn:Es.
        destruct (split_at_spec _ _ _ _ Es) as [Hab Hla].
        assert (string_all is_digit a = true /\ string_all is_digit b = true)
          as [Ha Hb].
        { rewrite <- Hab, string_all_append in Hds.
          by apply andb_true_iff in Hds. }
        destruct a as [|ca ra];
        [exfalso; subst n L; revert Hla; apply Nat.min_case_strong;
         simpl; lia|].
        refine (eq_trans (Decimal_of_str_parts sg ca ra (Some b) None Ha Hb) _).
        cbn [frac_digits exp_value]. rewrite Hab, Hint. f_equal. f_equal.
        assert (String.length ds
                = (String.length (String ca ra) + String.length b)%nat) as Hlen
          by (by rewrite <- Hab, length_append).
        subst n L. lia.
  - change (1 <=? 0) with false. cbv iota.
    assert (exists x, (if L =? 1 then "" else String "E" (signed_str (L - 1)))
                      = exp_str x /\ exp_value x = L - 1) as (x & -> & Hx).
    { destruct (Z.eqb_spec L 1) as [->|].
      - by exists None.
      - by exists (Some (L - 1)). }
    destruct (Z.leb_spec n 1) as [Hn1|Hn1].
    + assert (1 - n = 0) as -> by lia.
      change (zeros (Z.to_nat 0)) with "". rewrite append_empty_r, Eds.
      refine (eq_trans (Decimal_of_str_parts sg c0 r0 None x _ _) _).
      * by rewrite <- Eds.
      * done.
      * cbn [frac_digits exp_value]. rewrite append_empty_r, <- Eds, Hint, Hx.
        f_equal. f_equal. simpl. subst L. lia.
    + destruct (split_at (Z.to_nat 1) ds) as [a b] eqn:Es.
      destruct (split_at_spec _ _ _ _ Es) as [Hab Hla].
      assert (string_all is_digit a = true /\ string_all is_digit b = true)
        as [Ha Hb].
      { rewrite <- Hab, string_all_append in Hds.
        by apply andb_true_iff in Hds. }
      destruct a as [|ca ra];
        [exfalso; subst n L; revert Hla; apply Nat.min_case_strong;
         simpl; lia|].
      refine (eq_trans (Decimal_of_str_parts sg ca ra (Some b) x Ha Hb) _).
      cbn [frac_digits exp_value]. rewrite Hab, Hint, Hx. f_equal. f_equal.
      assert (String.length ds
              = (String.length (String ca ra) + String.length b)%nat) as Hlen
        by (by rewrite <- Hab, length_append).
      subst n L. lia.
Qed.

(** * Timestamps written as text are read back exactly *)

Lemma isoformat_eq t :
  isoformat t
  = String.append (zfill 4 (year t)) (String "-"
      (String.append (zfill 2 (month t)) (String "-"
        (String.append (zfill 2 (day t)) (String "T"
          (String.append (zfill 2 (hour t)) (String ":"
            (String.append (zfill 2 (minute t)) (String ":"
              (String.append (zfill 2 (second t))
                 (if (microsecond t =? 0)%N then ""
                  else String "." (zfill 6 (microsecond t))))))))))))).
Proof. reflexivity. Qed.

Lemma read_number_zfill w n rest :
  starts_nondigit rest = true ->
  read_number (String.append (zfill w n) rest) = Some (n, rest).
Proof.
  intros Hrest. unfold read_number.
  assert (string_all is_digit (zfill w n) = true) as Hd.
  { unfold zfill. by rewrite string_all_append, zeros_digits, digits_of_digits. }
  rewrite (span_digits_append _ _ Hd Hrest).
  assert (int_of_digits (zfill w n) = n) as Hi.
  { unfold zfill. by rewrite int_of_digits_zeros, int_of_digits_of. }
  destruct (zfill w n) as [|c r] eqn:E; [|by rewrite Hi].
  unfold zfill in E. destruct (digits_of_nonempty n) as (c & r & En).
  rewrite En in E. by destruct (w - String.length (String c r))%nat.
Qed.

(** The text of a timestamp is read back as the timestamp. *)
Lemma read_isoformat_isoformat t : read_isoformat (isoformat t) = Some t.
Proof.
  rewrite isoformat_eq. unfold read_isoformat.
  repeat (rewrite read_number_zfill by reflexivity;
          cbn [mbind option_bind read_char Ascii.eqb Bool.eqb]).
  destruct (microsecond t =? 0)%N eqn:E.
  - rewrite read_number_zfill by reflexivity.
    cbn [mbind option_bind]. apply N.eqb_eq in E. destruct t. simpl in E.
    by subst.
  - rewrite read_number_zfill by reflexivity.
    cbn [mbind option_bind Ascii.eqb Bool.eqb].
    rewrite <- (append_empty_r (zfill 6 (microsecond t))).
    rewrite read_number_zfill by reflexivity.
    cbn [mbind option_bind]. by destruct t.
Qed.

(** Two timestamps with the same text are the same. *)
Lemma isoformat_inj t t' : isoformat t = isoformat t' -> t = t'.
Proof.
  intros H. pose proof (read_isoformat_isoformat t) as Ht.
  rewrite H, read_isoformat_isoformat in Ht. by injection Ht.
Qed.

(** * Responses *)

(** An accepted value is an instance of the annotation of its field. *)
Lemma validate_value_type t : forall a v v',
  validate_value t a v = Ok v' -> has_type t v' = true.
Proof.
  induction t as [| | | | | | |t IH|t IH|]; intros a v v' H; simpl in H.
  - destruct v; try done. by injection H as <-.
  - destruct v; try done. unfold check_str in H.
    destruct (get_max_length a) as [n|].
    + destruct (n <? String.length s)%nat; [done|]. by injection H as <-.
    + by injection H as <-.
  - destruct v; try done. by injection H as <-.
  - destruct v; try done.
    + by rewrite (check_decimal_keeps _ _ _ H).
    + destruct (Decimal_of_str s); [|done].
      by rewrite (check_decimal_keeps _ _ _ H).
    + by rewrite (check_decimal_keeps _ _ _ H).
  - destruct v; try done. by injection H as <-.
  - destruct v; try done.
    + destruct (NotificationStatus_.of_value s); [|done]. by injection H as <-.
    + by injection H as <-.
  - destruct v; try done.
    + destruct (AlertCondition_.of_value s); [|done]. by injection H as <-.
    + by injection H as <-.
  - destruct v; try (apply IH in H; rewrite <- H; by destruct v').
    by injection H as <-.
  - destruct v; try done.
    destruct (all_ok _); [|done]. by injection H as <-.
  - destruct v; try done. by injection H as <-.
Qed.

(** The declared defaults of the create shapes are instances of the
    annotations of their fields. *)
Lemma create_default_type now C f v :
  C ∈ create_shapes -> f ∈ fields C ->
  get_default now (args f) = Some v -> has_type (annotation f) v = true.
Proof.
  intros HC Hf. unfold create_shapes in HC.
  repeat (apply elem_of_cons in HC as [->|HC];
    [ unfold schema in Hf; simpl in Hf;
      repeat (apply elem_of_cons in Hf as [->|Hf];
              [simpl; try done; by intros [= <-]|]);
      by apply elem_of_nil in Hf |]).
  by apply elem_of_nil in HC.
Qed.

(** Every field of an accepted create shape holds an instance of its
    annotation. *)
Lemma accepted_field_typed now C kwargs inst k f :
  C ∈ create_shapes -> validate_create now C kwargs = Ok inst ->
  field_of C k = Some f ->
  exists v, values inst !! k = Some v /\ has_type (annotation f) v = true.
Proof.
  intros HC Hok Hk. apply field_of_elem in Hk as [Hf <-].
  pose proof (field_names_NoDup C (create_in_all C HC)) as Hnd.
  destruct (validate_model_lookup now kwargs C inst f Hnd Hok Hf)
    as [Hval [v Hv]].
  exists v. split; [congruence|].
  unfold field_value in Hv. destruct (kwargs !! fname f) as [w|].
  - destruct (validate_value (annotation f) (args f) w) as [w'|] eqn:E; [|done].
    injection Hv as <-. by eapply validate_value_type.
  - by eapply create_default_type.
Qed.

(** The attributes of a stored entity built from a create shape. *)
Lemma entity_lookup now T inst id k f :
  T ∈ table_classes -> field_of T k = Some f -> k ≠ "id" ->
  stored id (from_create now T inst) !! k
  = match values inst !! k with
    | Some v => Some v
    | None => get_default now (args f)
    end.
Proof.
  intros HT Hf Hk. rewrite stored_lookup_ne by done.
  by apply from_create_lookup.
Qed.

Lemma entity_lookup_id now T inst id :
  stored id (from_create now T inst) !! "id" = Some (VInt id).
Proof. unfold stored. by rewrite lookup_insert_eq. Qed.

(** The attributes of an accepted instance, given as a map. *)
Lemma instance_values_eq now C kwargs inst (m : gmap string Value) :
  validate_model now C kwargs = Ok inst ->
  (forall k, k ∈ field_names C -> values inst !! k = m !! k) ->
  (forall k, k ∉ field_names C -> m !! k = None) ->
  values inst = m.
Proof.
  intros Hok Hin Hout. apply map_eq. intros k.
  destruct (decide (k ∈ field_names C)) as [Hk|Hk]; [by apply Hin|].
  rewrite (Hout k Hk). by eapply validate_model_lookup_other.
Qed.

Ltac typed_field Hok k v H :=
  let T := fresh "T" in
  match type of Hok with
  | validate_create ?now ?C ?kwargs = Ok ?inst =>
      destruct (accepted_field_typed now C kwargs inst k _
                  ltac:(repeat constructor) Hok eq_refl) as (v & H & T);
      simpl in T; destruct v; try discriminate T; clear T
  end.

Ltac by_field_name k Hk :=
  unfold field_names in Hk; simpl in Hk;
  repeat (apply elem_of_cons in Hk as [->|Hk];
          [match goal with
           | H : values _ !! ?n = _ |- values _ !! ?n = _ =>
               rewrite H; reflexivity
           end|]);
  by apply elem_of_nil in Hk.

Ltac not_a_field k Hk :=
  unfold field_names in Hk; simpl in Hk;
  repeat (apply not_elem_of_cons in Hk as [? Hk]);
  rewrite ?lookup_insert_ne by done;
  first [by apply lookup_singleton_ne | apply lookup_empty].

(** What an accepted create shape holds, for the three kinds that have a
    response shape. *)
Lemma CoinPairCreate_accepted now kwargs inst :
  validate_create now CoinPairCreate kwargs = Ok inst ->
  exists symbol base quote active,
    values inst = {[ "symbol" := VStr symbol; "base_asset" := VStr base;
                     "quote_asset" := VStr quote;
                     "is_active" := VBool active ]}.
Proof.
  intros Hok.
  typed_field Hok "symbol" v1 H1. typed_field Hok "base_asset" v2 H2.
  typed_field Hok "quote_asset" v3 H3. typed_field Hok "is_active" v4 H4.
  eexists _, _, _, _. eapply instance_values_eq; [exact Hok| |].
  - intros k Hk. by_field_name k Hk.
  - intros k Hk. not_a_field k Hk.
Qed.

Lemma RSIDataCreate_accepted now kwargs inst :
  validate_create now RSIDataCreate kwargs = Ok inst ->
  exists pair rsi price volume period,
    values inst = {[ "coin_pair_id" := VInt pair; "rsi_value" := VDecimal rsi;
                     "price" := VDecimal price; "volume" := VDecimal volume;
                     "period" := VInt period ]}.
Proof.
  intros Hok.
  typed_field Hok "coin_pair_id" v1 H1. typed_field Hok "rsi_value" v2 H2.
  typed_field Hok "price" v3 H3. typed_field Hok "volume" v4 H4.
  typed_field Hok "period" v5 H5.
  eexists _, _, _, _, _. eapply instance_values_eq; [exact Hok| |].
  - intros k Hk. by_field_name k Hk.
  - intros k Hk. not_a_field k Hk.
Qed.

Lemma NotificationCreate_accepted now kwargs inst :
  validate_create now NotificationCreate kwargs = Ok inst ->
  exists user pair setting title message rsi price,
    values inst = {[ "user_id" := VInt user; "coin_pair_id" := VInt pair;
                     "alert_setting_id" := VInt setting;
                     "title" := VStr title; "message" := VStr message;
                     "rsi_value" := VDecimal rsi;
                     "price_at_alert" := VDecimal price ]}.
Proof.
  intros Hok.
  typed_field Hok "user_id" v1 H1. typed_field Hok "coin_pair_id" v2 H2.
  typed_field Hok "alert_setting_id" v3 H3. typed_field Hok "title" v4 H4.
  typed_field Hok "message" v5 H5. typed_field Hok "rsi_value" v6 H6.
  typed_field Hok "price_at_alert" v7 H7.
  eexists _, _, _, _, _, _, _. eapply instance_values_eq; [exact Hok| |].
  - intros k Hk. by_field_name k Hk.
  - intros k Hk. not_a_field k Hk.
Qed.

Lemma response_kwargs_entity (entity joined : gmap string Value) k v :
  entity !! k = Some v ->
  (render <$> (entity ∪ joined)) !! k = Some (render v).
Proof.
  intros H. rewrite lookup_fmap, (lookup_union_Some_l _ _ _ _ H). done.
Qed.

Lemma response_shape_in_all R : R ∈ response_shapes -> R ∈ all_classes.
Proof.
  intros H. unfold all_classes.
  apply elem_of_app; right. apply elem_of_app; right.
  apply elem_of_app; by right.
Qed.

(** A field of a response that the entity has: its rendering, when the
    response shape takes the rendering as it is. *)
Lemma to_response_field now R entity joined resp k fR v :
  to_response now R entity joined = Ok resp ->
  R ∈ response_shapes ->
  field_of R k = Some fR -> entity !! k = Some v ->
  validate_value (annotation fR) (args fR) (render v) = Ok (render v) ->
  values resp !! k = Some (render v).
Proof.
  intros Hok HR HfR Hv Hval. apply field_of_elem in HfR as [HfR <-].
  pose proof (field_names_NoDup R (response_shape_in_all R HR)) as Hnd.
  destruct (validate_model_lookup now _ R resp fR Hnd Hok HfR) as [-> _].
  unfold field_value.
  by rewrite (response_kwargs_entity entity joined _ v Hv), Hval.
Qed.

Lemma to_response_not_field now R entity joined resp k :
  to_response now R entity joined = Ok resp ->
  has_field R k = false -> values resp !! k = None.
Proof.
  intros Hok Hk. apply bool_decide_eq_false in Hk.
  by eapply validate_model_lookup_other.
Qed.

Ltac response_field Hresp :=
  cbn [fname];
  match goal with
  | |- context [has_field ?R ?k] =>
      let b := eval vm_compute in (has_field R k) in
      change (has_field R k) with b; cbv beta iota
  end;
  lazymatch goal with
  | |- exists v, ?m !! ?k = Some v /\ _ =>
      eexists; split; [reflexivity|];
      eapply (to_response_field _ _ _ _ _ k _ _ Hresp);
      [repeat constructor | reflexivity | reflexivity | reflexivity]
  | |- _ /\ _ =>
      split;
      [ eapply to_response_not_field; [exact Hresp|reflexivity]
      | eexists; split; reflexivity ]
  end.

Lemma CoinPair_round_trip now kwargs inst id :
  validate_create now CoinPairCreate kwargs = Ok inst ->
  let entity := stored id (from_create now CoinPair inst) in
  (forall symbol,
      is_ok (to_response now CoinPairResponse entity
               {[ "symbol" := VStr symbol ]}) = true)
  /\ (forall joined resp f,
         to_response now CoinPairResponse entity joined = Ok resp ->
         f ∈ fields CoinPairCreate ->
         if has_field CoinPairResponse (fname f)
         then exists v, values inst !! fname f = Some v
                        /\ values resp !! fname f = Some (render v)
         else values resp !! fname f = None
              /\ exists g, field_of CoinPair (fname f) = Some g
                           /\ is_foreign_key g = true).
Proof.
  intros Hok entity. subst entity. unfold from_create.
  destruct (CoinPairCreate_accepted now kwargs inst Hok)
    as (symbol & base & quote & active & ->).
  split.
  - intros joined_symbol. vm_compute. reflexivity.
  - intros joined resp f Hresp Hf.
    unfold CoinPairCreate, schema in Hf. simpl in Hf.
    repeat (apply elem_of_cons in Hf as [->|Hf];
            [response_field Hresp|]).
    by apply elem_of_nil in Hf.
Qed.

Lemma RSIData_round_trip now kwargs inst id :
  validate_create now RSIDataCreate kwargs = Ok inst ->
  let entity := stored id (from_create now RSIData inst) in
  (forall symbol,
      is_ok (to_response now RSIDataResponse entity
               {[ "symbol" := VStr symbol ]}) = true)
  /\ (forall joined resp f,
         to_response now RSIDataResponse entity joined = Ok resp ->
         f ∈ fields RSIDataCreate ->
         if has_field RSIDataResponse (fname f)
         then exists v, values inst !! fname f = Some v
                        /\ values resp !! fname f = Some (render v)
         else values resp !! fname f = None
              /\ exists g, field_of RSIData (fname f) = Some g
                           /\ is_foreign_key g = true).
Proof.
  intros Hok entity. subst entity. unfold from_create.
  destruct (RSIDataCreate_accepted now kwargs inst Hok)
    as (pair & rsi & price & volume & period & ->).
  split.
  - intros joined_symbol. vm_compute. reflexivity.
  - intros joined resp f Hresp Hf.
    unfold RSIDataCreate, schema in Hf. simpl in Hf.
    repeat (apply elem_of_cons in Hf as [->|Hf];
            [response_field Hresp|]).
    by apply elem_of_nil in Hf.
Qed.

Lemma Notification_round_trip now kwargs inst id :
  validate_create now NotificationCreate kwargs = Ok inst ->
  let entity := stored id (from_create now RSINotification inst) in
  (forall symbol,
      is_ok (to_response now NotificationResponse entity
               {[ "symbol" := VStr symbol ]}) = true)
  /\ (forall joined resp f,
         to_response now NotificationResponse entity joined = Ok resp ->
         f ∈ fields NotificationCreate ->
         if has_field NotificationResponse (fname f)
         then exists v, values inst !! fname f = Some v
                        /\ values resp !! fname f = Some (render v)
         else values resp !! fname f = None
              /\ exists g, field_of RSINotification (fname f) = Some g
                           /\ is_foreign_key g = true).
Proof.
  intros Hok entity. subst entity. unfold from_create.
  destruct (NotificationCreate_accepted now kwargs inst Hok)
    as (user & pair & setting & title & message & rsi & price & ->).
  split.
  - intros joined_symbol. vm_compute. reflexivity.
  - intros joined resp f Hresp Hf.
    unfold NotificationCreate, schema in Hf. simpl in Hf.
    repeat (apply elem_of_cons in Hf as [->|Hf];
            [response_field Hresp|]).
    by apply elem_of_nil in Hf.
Qed.

(** What a decimal field accepts is the decimal its argument stands
    for. *)
Lemma validate_Decimal_input a w v :
  validate_value Decimal_ a w = Ok v ->
  exists d, Decimal_of_value w = Some d /\ v = VDecimal d.
Proof.
  destruct w as [| |z|s|d| | | | |]; simpl; try done.
  - intros H. exists (Decimal_of_int z). split; [done|].
    by eapply check_decimal_keeps.
  - destruct (Decimal_of_str s) as [d|]; [|done].
    intros H. exists d. split; [done|]. by eapply check_decimal_keeps.
  - intros H. exists d. split; [done|]. by eapply check_decimal_keeps.
Qed.

(** The value an accepted create shape holds for a field, against what
    the call gave for that field: the same value for an int, a str or a
    bool, and the decimal it stands for, for a decimal. *)
Lemma accepted_input_value now C kwargs inst f v :
  C ∈ create_shapes -> validate_create now C kwargs = Ok inst ->
  f ∈ fields C -> values inst !! fname f = Some v ->
  exists w, assigned now kwargs f = Some w
            /\ has_type (annotation f) v = true
            /\ match annotation f with
               | Decimal_ => exists d, Decimal_of_value w = Some d
                                       /\ v = VDecimal d
               | int_ | str_ | bool_ => v = w
               | _ => True
               end.
Proof.
  intros HC Hok Hf Hv.
  pose proof (field_names_NoDup C (create_in_all C HC)) as Hnd.
  destruct (validate_model_lookup now kwargs C inst f Hnd Hok Hf) as [Hval _].
  rewrite Hv in Hval. symmetry in Hval.
  unfold field_value in Hval. unfold assigned.
  destruct (kwargs !! fname f) as [w|].
  - destruct (validate_value (annotation f) (args f) w) as [v'|] eqn:E;
      [|done].
    injection Hval as ->. exists w. split; [done|].
    split; [by eapply validate_value_type|].
    destruct (annotation f); try done.
    + destruct w; try done. simpl in E. congruence.
    + destruct w; try done. simpl in E. unfold check_str in E.
      destruct (get_max_length (args f)) as [n|]; [|congruence].
      destruct (n <? String.length s)%nat; [done|congruence].
    + destruct w; try done. simpl in E. congruence.
    + by apply validate_Decimal_input in E.
  - exists v. split; [done|].
    pose proof (create_default_type now C f v HC Hf Hval) as Ht.
    split; [done|].
    destruct (annotation f); try done.
    destruct v; try done. eauto.
Qed.

(** The fields of the create shapes that have a response shape are ints,
    strs, bools and decimals. *)
Lemma response_kind_fields C T R f :
  (C, T, R) ∈ response_kinds -> f ∈ fields C ->
  C ∈ create_shapes
  /\ match annotation f with
     | int_ | str_ | bool_ | Decimal_ => True
     | _ => False
     end.
Proof.
  intros Hkind Hf. unfold response_kinds in Hkind.
  repeat (apply elem_of_cons in Hkind as [[= -> -> ->]|Hkind];
    [ split; [unfold create_shapes; set_solver|];
      unfold schema in Hf; simpl in Hf;
      repeat (apply elem_of_cons in Hf as [->|Hf]; [exact I|]);
      by apply elem_of_nil in Hf |]).
  by apply elem_of_nil in Hkind.
Qed.

(** From the attribute of the create shape to the argument of the call:
    a field whose attribute is in the response, rendered, carries what
    the call gave for it. *)
Lemma rendered_input now C T R kwargs inst f (r : option Value) :
  (C, T, R) ∈ response_kinds -> validate_create now C kwargs = Ok inst ->
  f ∈ fields C ->
  (exists v, values inst !! fname f = Some v /\ r = Some (render v)) ->
  exists w, assigned now kwargs f = Some w
            /\ match annotation f with
               | Decimal_ =>
                   exists d, Decimal_of_value w = Some d
                             /\ r = Some (VStr (Decimal_str d))
                             /\ Decimal_of_str (Decimal_str d) = Some d
               | int_ | str_ | bool_ => r = Some w
               | _ => False
               end.
Proof.
  intros Hkind Hok Hf (v & Hv & ->).
  destruct (response_kind_fields C T R f Hkind Hf) as [HC Hplain].
  destruct (accepted_input_value now C kwargs inst f v HC Hok Hf Hv)
    as (w & Hw & Ht & Hin).
  exists w. split; [done|].
  destruct (annotation f); try done.
  - subst w. by destruct v.
  - subst w. by destruct v.
  - subst w. by destruct v.
  - destruct Hin as (d & Hd & ->). exists d.
    split; [done|]. split; [done|]. apply Decimal_of_str_Decimal_str.
Qed.

(** The timestamp of a response is the text of the time the entity was
    built at. *)
Lemma CoinPair_timestamp now kwargs inst id joined resp :
  validate_create now CoinPairCreate kwargs = Ok inst ->
  to_response now CoinPairResponse (stored id (from_create now CoinPair inst))
    joined = Ok resp ->
  values resp !! "created_at" = Some (VStr (isoformat now)).
Proof.
  intros Hok. unfold from_create.
  destruct (CoinPairCreate_accepted now kwargs inst Hok)
    as (symbol & base & quote & active & ->).
  intros Hresp.
  eapply (to_response_field _ _ _ _ _ "created_at" _ (VDatetime now) Hresp);
    [repeat constructor | reflexivity | reflexivity | reflexivity].
Qed.

Lemma RSIData_timestamp now kwargs inst id joined resp :
  validate_create now RSIDataCreate kwargs = Ok inst ->
  to_response now RSIDataResponse (stored id (from_create now RSIData inst))
    joined = Ok resp ->
  values resp !! "timestamp" = Some (VStr (isoformat now)).
Proof.
  intros Hok. unfold from_create.
  destruct (RSIDataCreate_accepted now kwargs inst Hok)
    as (pair & rsi & price & volume & period & ->).
  intros Hresp.
  eapply (to_response_field _ _ _ _ _ "timestamp" _ (VDatetime now) Hresp);
    [repeat constructor | reflexivity | reflexivity | reflexivity].
Qed.

Lemma Notification_timestamp now kwargs inst id joined resp :
  validate_create now NotificationCreate kwargs = Ok inst ->
  to_response now NotificationResponse
    (stored id (from_create now RSINotification inst)) joined = Ok resp ->
  values resp !! "created_at" = Some (VStr (isoformat now)).
Proof.
  intros Hok. unfold from_create.
  destruct (NotificationCreate_accepted now kwargs inst Hok)
    as (user & pair & setting & title & message & rsi & price & ->).
  intros Hresp.
  eapply (to_response_field _ _ _ _ _ "created_at" _ (VDatetime now) Hresp);
    [repeat constructor | reflexivity | reflexivity | reflexivity].
Qed.

(** The timestamps of a table class that its response shape declares. *)
Lemma response_timestamps now C T R kwargs inst id joined resp g :
  (C, T, R) ∈ response_kinds -> validate_create now C kwargs = Ok inst ->
  to_response now R (stored id (from_create now T inst)) joined = Ok resp ->
  g ∈ fields T -> annotation g = datetime_ -> has_field R (fname g) = true ->
  values resp !! fname g = Some (VStr (isoformat now)).
Proof.
  intros Hkind Hok Hresp Hg Ha Hr. unfold response_kinds in Hkind.
  repeat (apply elem_of_cons in Hkind as [[= -> -> ->]|Hkind]).
  - unfold CoinPair, schema in Hg. simpl in Hg.
    repeat (apply elem_of_cons in Hg as [->|Hg]; [try done|]).
    + by eapply CoinPair_timestamp.
    + by apply elem_of_nil in Hg.
  - unfold RSIData, schema in Hg. simpl in Hg.
    repeat (apply elem_of_cons in Hg as [->|Hg]; [try done|]).
    + by eapply RSIData_timestamp.
    + by apply elem_of_nil in Hg.
  - unfold RSINotification, schema in Hg. simpl in Hg.
    repeat (apply elem_of_cons in Hg as [->|Hg]; [try done|]).
    + by eapply Notification_timestamp.
    + by apply elem_of_nil in Hg.
  - by apply elem_of_nil in Hkind.
Qed.




(** * Consistency of the declarations *)

Ltac each_member H tac :=
  repeat (apply elem_of_cons in H as [->|H]; [tac|]);
  try (by apply elem_of_nil in H).

Ltac each_pair H tac :=
  repeat (apply elem_of_cons in H as [[= -> ->]|H]; [tac|]);
  try (by apply elem_of_nil in H).

(** X1: every relationship is declared from both sides: the class it targets
    is a table class, which declares the relationship named by
    [back_populates], targeting the first class, naming the first
    relationship in return, one side being the list and the other the
    single object. *)
Theorem relationships_are_mutual (T : ModelClass) (r : RelationshipDecl) :
  T ∈ table_classes -> r ∈ relationships T ->
  exists T' r',
    table_named (rtarget r) = Some T'
    /\ relationship_named T' (back_populates r) = Some r'
    /\ rtarget r' = cname T
    /\ back_populates r' = rname r
    /\ many r' = negb (many r).
Proof.
  intros HT Hr. unfold table_classes in HT.
  each_member HT ltac:(
    simpl in Hr;
    each_member Hr ltac:(do 2 eexists; repeat split; reflexivity)).
Qed.

Lemma relationships_are_mutual_witness :
  exists T' r',
    table_named "RSIData" = Some T'
    /\ relationship_named T' "coin_pair" = Some r'
    /\ rtarget r' = "CoinPair" /\ back_populates r' = "rsi_data"
    /\ many r' = false.
Proof.
  apply (relationships_are_mutual CoinPair
           (Relationship "rsi_data" "RSIData" true "coin_pair")).
  - unfold table_classes. set_solver.
  - simpl. set_solver.
Defined.

Ltac fk_case T' member :=
  exists T'; do 3 eexists;
  split; [unfold table_classes; set_solver|];
  split; [reflexivity|]; split; [reflexivity|];
  split; [reflexivity|]; split; [reflexivity|];
  split; [simpl; member|];
  split; [reflexivity|]; split; reflexivity.

(** X2: every foreign key resolves: a field that declares one is a required
    int, its target is the [id] column, the primary key, of the table of
    some table class, and the declaring class has a to-one relationship
    to that class, named as the field without its [_id] suffix. *)
Theorem foreign_keys_resolve (T : ModelClass) (f : FieldDecl) (target : string) :
  T ∈ table_classes -> f ∈ fields T ->
  get_foreign_key (args f) = Some target ->
  annotation f = int_ /\ is_required f = true
  /\ exists T' tn pk r,
       T' ∈ table_classes /\ tablename T' = Some tn
       /\ target = String.append tn ".id"
       /\ field_of T' "id" = Some pk /\ is_primary_key pk = true
       /\ r ∈ relationships T /\ rtarget r = cname T' /\ many r = false
       /\ fname f = String.append (rname r) "_id".
Proof.
  intros HT Hf Hk. unfold table_classes in HT.
  each_member HT ltac:(
    simpl in Hf;
    each_member Hf ltac:(
      first
        [ discriminate Hk
        | simpl in Hk; injection Hk as <-;
          split; [reflexivity|]; split; [reflexivity|];
          first [ fk_case CoinPair ltac:(apply list_elem_of_here)
                | fk_case User ltac:(apply list_elem_of_here)
                | fk_case AlertSetting ltac:(apply list_elem_of_here)
                | fk_case CoinPair
                    ltac:(apply list_elem_of_further, list_elem_of_here)
                | fk_case User
                    ltac:(apply list_elem_of_further, list_elem_of_here)
                | fk_case AlertSetting
                    ltac:(apply list_elem_of_further, list_elem_of_here)
                | fk_case AlertSetting
                    ltac:(do 2 apply list_elem_of_further;
                          apply list_elem_of_here) ] ])).
Qed.

Lemma foreign_keys_resolve_witness :
  exists T' tn pk r,
    T' ∈ table_classes /\ tablename T' = Some tn
    /\ "alert_settings.id" = String.append tn ".id"
    /\ field_of T' "id" = Some pk /\ is_primary_key pk = true
    /\ r ∈ relationships RSINotification /\ rtarget r = cname T'
    /\ many r = false
    /\ "alert_setting_id" = String.append (rname r) "_id".
Proof.
  apply (foreign_keys_resolve RSINotification
           (Field "alert_setting_id" int_
              [foreign_key "alert_settings.id"; index])
           "alert_settings.id").
  - unfold table_classes. set_solver.
  - simpl. set_solver.
  - reflexivity.
Defined.

(** X3: conversely, every to-one relationship of a table class is backed by
    a foreign key: the class has the field named after the relationship
    with the suffix [_id], whose foreign key is the [id] column of the
    table of the target class. *)
Theorem to_one_relationships_have_foreign_key
    (T : ModelClass) (r : RelationshipDecl) :
  T ∈ table_classes -> r ∈ relationships T -> many r = false ->
  exists f T' tn,
    field_of T (String.append (rname r) "_id") = Some f
    /\ table_named (rtarget r) = Some T'
    /\ tablename T' = Some tn
    /\ get_foreign_key (args f) = Some (String.append tn ".id").
Proof.
  intros HT Hr Hm. unfold table_classes in HT.
  each_member HT ltac:(
    simpl in Hr;
    each_member Hr ltac:(
      first [ discriminate Hm
            | do 3 eexists; repeat split; reflexivity ])).
Qed.

Lemma to_one_relationships_have_foreign_key_witness :
  exists f T' tn,
    field_of UserCoinPreference "user_id" = Some f
    /\ table_named "User" = Some T'
    /\ tablename T' = Some tn
    /\ get_foreign_key (args f) = Some (String.append tn ".id").
Proof.
  apply (to_one_relationships_have_foreign_key UserCoinPreference
           (Relationship "user" "User" false "coin_preferences")).
  - unfold table_classes. set_solver.
  - simpl. set_solver.
  - reflexivity.
Defined.

(** X4: every table class is a table with a name, and has exactly one primary
    key: the field [id], an optional int that defaults to None (the
    store assigns it).  Class names and table names are pairwise
    distinct. *)
Theorem tables_have_one_primary_key (T : ModelClass) :
  T ∈ table_classes ->
  table T = true
  /\ is_Some (tablename T)
  /\ List.filter is_primary_key (fields T)
     = [Field "id" (Optional int_) [default VNone; primary_key]]
  /\ table_named (cname T) = Some T
  /\ (forall tn, tablename T = Some tn -> table_of_tablename tn = Some T).
Proof.
  intros HT. unfold table_classes in HT.
  each_member HT ltac:(
    split; [reflexivity|]; split; [by eexists|];
    split; [reflexivity|]; split; [reflexivity|];
    by intros tn [= <-]).
Qed.

Lemma tables_have_one_primary_key_witness :
  List.filter is_primary_key (fields DashboardConfig)
  = [Field "id" (Optional int_) [default VNone; primary_key]].
Proof.
  apply (tables_have_one_primary_key DashboardConfig).
  unfold table_classes. set_solver.
Defined.

(** * Entities built from create shapes *)

Lemma field_of_complete m f :
  NoDup (field_names m) -> f ∈ fields m -> field_of m (fname f) = Some f.
Proof.
  intros Hnd Hf. unfold field_of.
  destruct (List.find _ (fields m)) as [g|] eqn:E.
  - apply find_some in E as [Hg Heq]. apply String.eqb_eq in Heq.
    f_equal. apply (field_name_inj m); [done| |done|done].
    by apply list_elem_of_In.
  - exfalso.
    pose proof (find_none _ _ E f (proj1 (list_elem_of_In _ _) Hf)) as Hn.
    simpl in Hn. by rewrite String.eqb_refl in Hn.
Qed.

Lemma create_pair_classes C T :
  (C, T) ∈ create_pairs -> C ∈ create_shapes /\ T ∈ table_classes.
Proof.
  intros H. unfold create_pairs in H.
  each_pair H ltac:(
    split; [unfold create_shapes|unfold table_classes]; set_solver).
Qed.

(** A field of the entity built from an accepted create shape: the
    attribute of the shape when the shape has the field, the default of
    the table class otherwise. *)
Lemma from_create_cases now C T kwargs inst f :
  C ∈ create_shapes -> T ∈ table_classes ->
  validate_create now C kwargs = Ok inst -> f ∈ fields T ->
  from_create now T inst !! fname f
  = if has_field C (fname f) then values inst !! fname f
    else get_default now (args f).
Proof.
  intros HC HT Hok Hf.
  pose proof (field_names_NoDup T (table_in_all T HT)) as HndT.
  pose proof (field_names_NoDup C (create_in_all C HC)) as HndC.
  rewrite (from_create_lookup now T inst (fname f) f HT
             (field_of_complete T f HndT Hf)).
  unfold has_field. destruct (bool_decide_reflect (fname f ∈ field_names C))
    as [Hin|Hout].
  - apply list_elem_of_fmap in Hin as (g & Hname & Hg).
    destruct (validate_model_lookup now kwargs C inst g HndC Hok Hg)
      as [Hval [v Hv]].
    rewrite Hname, Hval, Hv. done.
  - by rewrite (validate_model_lookup_other now kwargs C inst _ Hok Hout).
Qed.

(** X5: the entity built from an accepted create input is a complete row:
    every field of the table class is set, to an instance of its
    annotation. *)
Theorem entity_of_accepted_create_is_complete (now : datetime)
    (C T : ModelClass) (kwargs : gmap string Value) (inst : Instance)
    (f : FieldDecl) :
  (C, T) ∈ create_pairs ->
  validate_create now C kwargs = Ok inst ->
  f ∈ fields T ->
  exists v, from_create now T inst !! fname f = Some v
            /\ has_type (annotation f) v = true.
Proof.
  intros Hp Hok Hf.
  destruct (create_pair_classes C T Hp) as [HC HT].
  rewrite (from_create_cases now C T kwargs inst f HC HT Hok Hf).
  unfold create_pairs in Hp.
  each_pair Hp ltac:(
    simpl in Hf;
    each_member Hf ltac:(
      cbn [fname args annotation];
      match goal with
      | |- context [has_field ?S ?k] =>
          let b := eval vm_compute in (has_field S k) in
          change (has_field S k) with b; cbv beta iota
      end;
      first
        [ match goal with
          | |- exists v, values _ !! ?k = Some v /\ _ =>
              destruct (accepted_field_typed now _ kwargs inst k _ HC Hok
                          eq_refl) as (v & Hv & Hty);
              exists v; split; [exact Hv|exact Hty]
          end
        | eexists; split; reflexivity ])).
Qed.

Lemma entity_of_accepted_create_is_complete_witness :
  let kwargs : gmap string Value :=
    {[ "user_id" := VInt 1; "coin_pair_id" := VInt 2 ]} in
  exists inst v,
    validate_create sample_now UserCoinPreferenceCreate kwargs = Ok inst
    /\ from_create sample_now UserCoinPreference inst !! "display_order"
       = Some v
    /\ has_type int_ v = true.
Proof.
  intros kwargs.
  destruct (validate_create sample_now UserCoinPreferenceCreate kwargs)
    as [inst|errs] eqn:E; [|vm_compute in E; discriminate].
  destruct (entity_of_accepted_create_is_complete sample_now
              UserCoinPreferenceCreate UserCoinPreference kwargs inst
              (Field "display_order" int_ [default (VInt 0)])
              ltac:(unfold create_pairs; set_solver) E
              ltac:(simpl; set_solver)) as (v & Hv & Hty).
  exists inst, v. split; [reflexivity|]. split; [exact Hv|exact Hty].
Defined.

(** A string accepted for a field with a maximum length is within it. *)
Lemma accepted_str_within now kwargs g n s :
  is_str_field g = true -> get_max_length (args g) = Some n ->
  get_default now (args g) = Some VNone ∨ get_default now (args g) = None ->
  field_value now kwargs g = Some (VStr s) ->
  (String.length s <= n)%nat.
Proof.
  intros Hstr Hmax Hdef. unfold field_value.
  destruct (kwargs !! fname g) as [v|].
  - destruct (validate_value (annotation g) (args g) v) as [w|] eqn:E; [|done].
    intros [= ->]. unfold is_str_field in Hstr.
    assert (exists s0, v = VStr s0) as [s0 ->].
    { destruct (annotation g) as [| | | | | | |t| |]; try done.
      - destruct v; try done. eauto.
      - destruct t; try done. destruct v; try done. eauto. }
    rewrite validate_str_field in E by done. unfold check_str in E.
    rewrite Hmax in E. destruct (Nat.ltb_spec n (String.length s0)); [done|].
    by injection E as <-.
  - destruct Hdef as [-> | ->]; done.
Qed.

(** X6: the string columns of the entity built from an accepted create input
    are within the maximum lengths the table class declares: the create
    shapes carry the same string ceilings as their tables. *)
Theorem entity_strings_within_table_lengths (now : datetime)
    (C T : ModelClass) (kwargs : gmap string Value) (inst : Instance)
    (f : FieldDecl) (n : nat) (s : string) :
  (C, T) ∈ create_pairs ->
  validate_create now C kwargs = Ok inst ->
  f ∈ fields T -> get_max_length (args f) = Some n ->
  from_create now T inst !! fname f = Some (VStr s) ->
  (String.length s <= n)%nat.
Proof.
  intros Hp Hok Hf Hmax.
  destruct (create_pair_classes C T Hp) as [HC HT].
  pose proof (field_names_NoDup C (create_in_all C HC)) as HndC.
  rewrite (from_create_cases now C T kwargs inst f HC HT Hok Hf).
  unfold create_pairs in Hp.
  each_pair Hp ltac:(
    simpl in Hf;
    each_member Hf ltac:(
      first
        [ discriminate Hmax
        | simpl in Hmax; injection Hmax as <-;
          cbn [fname args annotation];
          match goal with
          | |- context [has_field ?S ?k] =>
              let b := eval vm_compute in (has_field S k) in
              change (has_field S k) with b; cbv beta iota
          end;
          match goal with
          | |- values _ !! ?k = _ -> _ =>
              lazymatch type of Hok with
              | validate_create _ ?S _ = _ =>
                  let g := eval vm_compute in (field_of S k) in
                  lazymatch g with
                  | Some ?g' =>
                      destruct (validate_model_lookup now kwargs S inst g'
                                  HndC Hok ltac:(simpl; set_solver))
                        as [Hval _];
                      cbn [fname] in Hval; rewrite Hval;
                      apply (accepted_str_within now kwargs g');
                      [reflexivity|reflexivity|simpl; tauto]
                  end
              end
          end ])).
Qed.

Lemma entity_strings_within_table_lengths_witness :
  let kwargs : gmap string Value :=
    {[ "username" := VStr "satoshi"; "email" := VStr "s@example.org" ]} in
  exists inst,
    validate_create sample_now UserCreate kwargs = Ok inst
    /\ from_create sample_now User inst !! "email"
       = Some (VStr "s@example.org")
    /\ (String.length "s@example.org" <= 255)%nat.
Proof.
  intros kwargs.
  destruct (validate_create sample_now UserCreate kwargs)
    as [inst|errs] eqn:E; [|vm_compute in E; discriminate].
  assert (from_create sample_now User inst !! "email"
          = Some (VStr "s@example.org")) as Hemail.
  { clear -E. vm_compute in E. injection E as <-. vm_compute. reflexivity. }
  exists inst. split; [reflexivity|]. split; [exact Hemail|].
  apply (entity_strings_within_table_lengths sample_now UserCreate User
           kwargs inst (Field "email" str_ [unique; max_length 255])
           255%nat "s@example.org"
           ltac:(unfold create_pairs; set_solver) E
           ltac:(simpl; set_solver) eq_refl Hemail).
Defined.

(** X7: the fields the system generates cannot be set through a create
    shape: whatever the input carries, the entity built from an accepted
    create input has no id yet (None, until the store assigns one) and
    has the reading of the clock in every field filled by
    [default_factory] (its timestamps). *)
Theorem create_cannot_set_generated_fields (now : datetime)
    (C T : ModelClass) (kwargs : gmap string Value) (inst : Instance) :
  (C, T) ∈ create_pairs ->
  validate_create now C kwargs = Ok inst ->
  from_create now T inst !! "id" = Some VNone
  /\ (forall f, f ∈ fields T -> uses_default_factory f = true ->
                from_create now T inst !! fname f = Some (VDatetime now)).
Proof.
  intros Hp Hok.
  destruct (create_pair_classes C T Hp) as [HC HT].
  pose proof (fun f => from_create_cases now C T kwargs inst f HC HT Hok)
    as Hcases.
  unfold create_pairs in Hp.
  each_pair Hp ltac:(
    split;
    [ exact (Hcases (Field "id" (Optional int_) [default VNone; primary_key])
               ltac:(simpl; set_solver))
    | intros f Hf Hfac; rewrite (Hcases f Hf); simpl in Hf;
      each_member Hf ltac:(first [discriminate Hfac | reflexivity]) ]).
Qed.

(** An input that tries to choose its id and its creation time. *)
Lemma create_cannot_set_generated_fields_witness :
  let kwargs : gmap string Value :=
    {[ "username" := VStr "satoshi"; "email" := VStr "s@example.org";
       "id" := VInt 99;
       "created_at" := VDatetime {| year := 1999; month := 1; day := 1;
                                    hour := 0; minute := 0; second := 0;
                                    microsecond := 0 |} ]} in
  exists inst,
    validate_create sample_now UserCreate kwargs = Ok inst
    /\ from_create sample_now User inst !! "id" = Some VNone
    /\ from_create sample_now User inst !! "created_at"
       = Some (VDatetime sample_now).
Proof.
  intros kwargs.
  destruct (validate_create sample_now UserCreate kwargs)
    as [inst|errs] eqn:E; [|vm_compute in E; discriminate].
  destruct (create_cannot_set_generated_fields sample_now UserCreate User
              kwargs inst ltac:(unfold create_pairs; set_solver) E)
    as [Hid Hts].
  exists inst. split; [reflexivity|]. split; [exact Hid|].
  apply (Hts (Field "created_at" datetime_ [default_factory_utcnow])).
  - simpl. set_solver.
  - reflexivity.
Defined.

(** * Update shapes and their tables *)

(** X8: every field of an update shape is a field of its table class, with
    the same annotation made optional and the same length and digit
    constraints; and none of them is a primary key, a foreign key or a
    field filled by [default_factory]: an update cannot name an
    identifier, a reference or a timestamp. *)
Theorem update_shapes_mirror_tables (U T : ModelClass) (f : FieldDecl) :
  (U, T) ∈ update_pairs -> f ∈ fields U ->
  exists g,
    field_of T (fname f) = Some g
    /\ annotation f = Optional (strip_optional (annotation g))
    /\ get_max_length (args f) = get_max_length (args g)
    /\ get_decimal_places (args f) = get_decimal_places (args g)
    /\ get_max_digits (args f) = get_max_digits (args g)
    /\ is_primary_key g = false
    /\ get_foreign_key (args g) = None
    /\ uses_default_factory g = false.
Proof.
  intros Hp Hf. unfold update_pairs in Hp.
  each_pair Hp ltac:(
    simpl in Hf;
    each_member Hf ltac:(eexists; repeat split; reflexivity)).
Qed.

Lemma update_shapes_mirror_tables_witness :
  exists g,
    field_of AlertSetting "overbought_threshold" = Some g
    /\ Optional Decimal_ = Optional (strip_optional (annotation g))
    /\ get_decimal_places (args g) = Some 2%nat
    /\ get_max_digits (args g) = Some 5%nat.
Proof.
  destruct (update_shapes_mirror_tables AlertSettingUpdate AlertSetting
              (Field "overbought_threshold" (Optional Decimal_)
                 [default VNone; decimal_places 2; max_digits 5])
              ltac:(unfold update_pairs; set_solver)
              ltac:(simpl; set_solver))
    as (g & Hg & Hann & _ & Hp & Hm & _).
  exists g. repeat split; [exact Hg | exact Hann | by rewrite <- Hp
                          | by rewrite <- Hm].
Defined.

(** * Instantiating a shape: errors and attributes *)

Lemma is_required_spec now f :
  is_required f = true <-> get_default now (args f) = None.
Proof.
  unfold is_required. induction (args f) as [|a r IH]; simpl; [done|].
  destruct a; simpl; try exact IH; done.
Qed.

(** X9: omitting a required field is an error: the input is rejected, and
    the error list names the field as missing. *)
Theorem missing_required_field_is_reported (now : datetime) (m : ModelClass)
    (kwargs : gmap string Value) (f : FieldDecl) :
  f ∈ fields m -> is_required f = true -> kwargs !! fname f = None ->
  exists errs, validate_model now m kwargs = Err errs
               /\ (fname f, missing) ∈ errs.
Proof.
  intros Hf Hreq Hk. apply (validate_model_err now kwargs m f _ Hf).
  unfold field_error. rewrite Hk.
  by rewrite (proj1 (is_required_spec now f) Hreq).
Qed.

(** A CoinPair create input without its symbol. *)
Lemma missing_required_field_is_reported_witness :
  let kwargs : gmap string Value :=
    {[ "base_asset" := VStr "BTC"; "quote_asset" := VStr "USDT" ]} in
  exists errs, validate_model sample_now CoinPairCreate kwargs = Err errs
               /\ ("symbol", missing) ∈ errs.
Proof.
  intros kwargs.
  apply (missing_required_field_is_reported sample_now CoinPairCreate kwargs
           (Field "symbol" str_ [max_length 50])).
  - simpl. set_solver.
  - reflexivity.
  - vm_compute. reflexivity.
Defined.

Lemma validate_field_agree now kw1 kw2 f acc :
  kw1 !! fname f = kw2 !! fname f ->
  validate_field now kw1 f acc = validate_field now kw2 f acc.
Proof. intros H. unfold validate_field. by rewrite H. Qed.

Lemma validate_fields_agree now kw1 kw2 fs : forall acc,
  (forall f, f ∈ fs -> kw1 !! fname f = kw2 !! fname f) ->
  fold_left (fun acc f => validate_field now kw1 f acc) fs acc
  = fold_left (fun acc f => validate_field now kw2 f acc) fs acc.
Proof.
  induction fs as [|f fs IH]; intros acc H; simpl; [done|].
  rewrite (validate_field_agree now kw1 kw2 f acc)
    by (apply H, elem_of_cons; by left).
  apply IH. intros g Hg. apply H, elem_of_cons. by right.
Qed.

(** X10: only the arguments that name a field count: two inputs that agree
    on the fields of a shape get the same result, instance or errors,
    whatever else they carry. *)
Theorem unknown_arguments_are_ignored (now : datetime) (m : ModelClass)
    (kw1 kw2 : gmap string Value) :
  (forall k, k ∈ field_names m -> kw1 !! k = kw2 !! k) ->
  validate_model now m kw1 = validate_model now m kw2.
Proof.
  intros H. unfold validate_model, validate_fields.
  rewrite (validate_fields_agree now kw1 kw2 (fields m)); [done|].
  intros f Hf. apply H. by apply list_elem_of_fmap_2.
Qed.

Lemma unknown_arguments_are_ignored_witness :
  validate_model sample_now UserCreate
    {[ "username" := VStr "satoshi"; "email" := VStr "s@example.org";
       "is_admin" := VBool true ]}
  = validate_model sample_now UserCreate
      {[ "username" := VStr "satoshi"; "email" := VStr "s@example.org" ]}.
Proof.
  apply (unknown_arguments_are_ignored sample_now UserCreate).
  intros k Hk. unfold field_names in Hk. simpl in Hk.
  each_member Hk ltac:(vm_compute; reflexivity).
Defined.

(** X11: an accepted instance has exactly the declared fields as attributes,
    and its set of passed fields is exactly the declared fields that the
    input carries. *)
Theorem accepted_instance_has_declared_fields (now : datetime)
    (m : ModelClass) (kwargs : gmap string Value) (inst : Instance)
    (k : string) :
  m ∈ shapes -> validate_model now m kwargs = Ok inst ->
  (is_Some (values inst !! k) <-> k ∈ field_names m)
  /\ (k ∈ model_fields_set inst
      <-> k ∈ field_names m /\ is_Some (kwargs !! k)).
Proof.
  intros Hm Hok.
  assert (m ∈ all_classes) as Hall.
  { unfold all_classes. apply elem_of_app. by right. }
  pose proof (field_names_NoDup m Hall) as Hnd.
  split; [|by apply (validate_model_fields_set now kwargs m inst k Hok)].
  split.
  - intros Hsome. destruct (decide (k ∈ field_names m)) as [|Hout]; [done|].
    rewrite (validate_model_lookup_other now kwargs m inst k Hok Hout) in Hsome.
    by destruct Hsome.
  - intros Hin. apply list_elem_of_fmap in Hin as (f & -> & Hf).
    destruct (validate_model_lookup now kwargs m inst f Hnd Hok Hf) as [-> H].
    exact H.
Qed.

Lemma accepted_instance_has_declared_fields_witness :
  let kwargs : gmap string Value :=
    {[ "is_selected" := VBool false; "note" := VStr "x" ]} in
  exists inst,
    validate_model sample_now UserCoinPreferenceUpdate kwargs = Ok inst
    /\ ("display_order" ∈ model_fields_set inst
        <-> "display_order" ∈ field_names UserCoinPreferenceUpdate
            /\ is_Some (kwargs !! "display_order")).
Proof.
  intros kwargs.
  destruct (validate_model sample_now UserCoinPreferenceUpdate kwargs)
    as [inst|errs] eqn:E; [|vm_compute in E; discriminate].
  exists inst. split; [reflexivity|].
  apply (accepted_instance_has_declared_fields sample_now
           UserCoinPreferenceUpdate kwargs inst "display_order"
           ltac:(unfold shapes, create_shapes, update_shapes; set_solver) E).
Defined.

(** * Defaults, enums and re-validation *)

Lemma default_passes_validation now m f v :
  m ∈ all_classes -> f ∈ fields m ->
  get_default now (args f) = Some v ->
  validate_value (annotation f) (args f) v = Ok v.
Proof.
  intros Hm Hf Hd.
  unfold all_classes, table_classes, create_shapes, update_shapes,
    response_shapes in Hm. simpl in Hm.
  each_member Hm ltac:(
    simpl in Hf;
    each_member Hf ltac:(
      simpl in Hd;
      first [discriminate Hd | injection Hd as <-; reflexivity])).
Qed.

(** X12: every declared default is valid for its own field: defaults are
    taken without validation, and each of them would pass it unchanged;
    it is an instance of the annotation of the field, and only an
    optional field defaults to None. *)
Theorem declared_defaults_are_valid (now : datetime) (m : ModelClass)
    (f : FieldDecl) (v : Value) :
  m ∈ all_classes -> f ∈ fields m ->
  get_default now (args f) = Some v ->
  validate_value (annotation f) (args f) v = Ok v
  /\ has_type (annotation f) v = true
  /\ (v = VNone <-> is_optional (annotation f) = true).
Proof.
  intros Hm Hf Hd.
  pose proof (default_passes_validation now m f v Hm Hf Hd) as Hv.
  pose proof (validate_value_type _ _ _ _ Hv) as Ht.
  split; [exact Hv|]. split; [exact Ht|]. split.
  - intros ->. by destruct (annotation f).
  - intros Hopt. clear Hv Ht.
    unfold all_classes, table_classes, create_shapes, update_shapes,
      response_shapes in Hm. simpl in Hm.
    each_member Hm ltac:(
      simpl in Hf;
      each_member Hf ltac:(
        simpl in Hd;
        first [discriminate Hd | discriminate Hopt
              | by injection Hd as <-])).
Qed.

Lemma declared_defaults_are_valid_witness :
  validate_value Decimal_
    [default (VDecimal Decimal_70_00); decimal_places 2; max_digits 5]
    (VDecimal Decimal_70_00)
  = Ok (VDecimal Decimal_70_00).
Proof.
  apply (declared_defaults_are_valid sample_now AlertSettingCreate
           (Field "overbought_threshold" Decimal_
              [default (VDecimal Decimal_70_00); decimal_places 2;
               max_digits 5])).
  - unfold all_classes, create_shapes. set_solver.
  - simpl. set_solver.
  - reflexivity.
Defined.

(** X13: the members of each enum and their values correspond one to one:
    looking a value up gives a member exactly when it is the value of
    that member. *)
Theorem enum_values_round_trip :
  (forall s c, AlertCondition_.of_value s = Some c
               <-> AlertCondition_.value c = s)
  /\ (forall s c, NotificationStatus_.of_value s = Some c
                  <-> NotificationStatus_.value c = s).
Proof.
  split; intros s c; split.
  - intros H. pose proof (AlertCondition_of_value_spec s) as Hs.
    rewrite H in Hs. exact Hs.
  - intros <-. by destruct c.
  - intros H. pose proof (NotificationStatus_of_value_spec s) as Hs.
    rewrite H in Hs. exact Hs.
  - intros <-. by destruct c.
Qed.

Lemma all_ok_idempotent (f : Value -> Result Value ErrorType) :
  forall l l',
    (forall v v', f v = Ok v' -> f v' = Ok v') ->
    all_ok (List.map f l) = Ok l' -> all_ok (List.map f l') = Ok l'.
Proof.
  induction l as [|x l IH]; intros l' Hf H; simpl in H.
  - by injection H as <-.
  - destruct (f x) as [y|] eqn:Ex; [|done]. simpl in H.
    destruct (all_ok (List.map f l)) as [ys|] eqn:El; [|done].
    simpl in H. injection H as <-. simpl.
    by rewrite (Hf x y Ex), (IH ys Hf eq_refl).
Qed.

(** Validation is idempotent: an accepted value is accepted again, as
    itself. *)
Lemma validate_value_idempotent t : forall a v v',
  validate_value t a v = Ok v' -> validate_value t a v' = Ok v'.
Proof.
  induction t as [| | | | | | |t IH|t IH|]; intros a v v' H; simpl in H.
  - destruct v; try done. by injection H as <-.
  - destruct v; try done. unfold check_str in *.
    destruct (get_max_length a) as [n|] eqn:En.
    + destruct (n <? String.length s)%nat eqn:El; [done|].
      injection H as <-. simpl. unfold check_str. by rewrite En, El.
    + injection H as <-. simpl. unfold check_str. by rewrite En.
  - destruct v; try done. by injection H as <-.
  - assert (forall d, check_decimal a d = Ok v' ->
                      validate_value Decimal_ a v' = Ok v') as Hd.
    { intros d Hc. pose proof (check_decimal_keeps a d v' Hc) as ->.
      exact Hc. }
    destruct v; try done; eauto.
    destruct (Decimal_of_str s); [eauto|done].
  - destruct v; try done. by injection H as <-.
  - destruct v; try done.
    + destruct (NotificationStatus_.of_value s); [|done]. by injection H as <-.
    + by injection H as <-.
  - destruct v; try done.
    + destruct (AlertCondition_.of_value s); [|done]. by injection H as <-.
    + by injection H as <-.
  - assert (validate_value t a v' = Ok v' ->
            validate_value (Optional t) a v' = Ok v') as Hopt.
    { intros Hv. simpl. by destruct v'. }
    destruct v; try (apply Hopt, (IH a _ _ H)).
    by injection H as <-.
  - destruct v; try done.
    destruct (all_ok (List.map (validate_value t []) l)) as [l'|] eqn:El;
      [|done].
    simpl in H. injection H as <-. simpl.
    by rewrite (all_ok_idempotent _ l l' (IH []) El).
  - destruct v; try done. by injection H as <-.
Qed.

(** X14: re-validating the attributes of an accepted instance accepts them
    and gives the same attributes: what a shape holds after validation
    is a valid input of the same shape. *)
Theorem accepted_attributes_revalidate (now : datetime) (m : ModelClass)
    (kwargs : gmap string Value) (inst : Instance) :
  m ∈ shapes -> validate_model now m kwargs = Ok inst ->
  exists inst', validate_model now m (values inst) = Ok inst'
                /\ values inst' = values inst.
Proof.
  intros Hm Hok.
  assert (m ∈ all_classes) as Hall.
  { unfold all_classes. apply elem_of_app. by right. }
  pose proof (field_names_NoDup m Hall) as Hnd.
  assert (forall f, f ∈ fields m ->
            exists w, values inst !! fname f = Some w
                      /\ validate_value (annotation f) (args f) w = Ok w)
    as Hfield.
  { intros f Hf.
    destruct (validate_model_lookup now kwargs m inst f Hnd Hok Hf)
      as [Hval [w Hw]].
    exists w. split; [congruence|]. unfold field_value in Hw.
    destruct (kwargs !! fname f) as [v|].
    - destruct (validate_value (annotation f) (args f) v) as [w'|] eqn:E;
        [|done].
      injection Hw as <-. by eapply validate_value_idempotent.
    - by eapply default_passes_validation. }
  assert (is_ok (validate_model now m (values inst)) = true) as Hacc.
  { apply validate_model_ok_iff. intros f Hf.
    destruct (Hfield f Hf) as (w & Hw & Hv).
    unfold field_error. by rewrite Hw, Hv. }
  destruct (validate_model now m (values inst)) as [inst'|] eqn:E; [|done].
  exists inst'. split; [done|]. apply map_eq. intros k.
  destruct (decide (k ∈ field_names m)) as [Hin|Hout].
  - apply list_elem_of_fmap in Hin as (f & -> & Hf).
    destruct (Hfield f Hf) as (w & Hw & Hv).
    destruct (validate_model_lookup now _ m inst' f Hnd E Hf) as [-> _].
    unfold field_value. by rewrite Hw, Hv.
  - rewrite (validate_model_lookup_other now _ m inst' k E Hout).
    by rewrite (validate_model_lookup_other now kwargs m inst k Hok Hout).
Qed.

(** An alert created from strings holds decimals and an enum member,
    which validate again. *)
Lemma accepted_attributes_revalidate_witness :
  let kwargs : gmap string Value :=
    {[ "user_id" := VInt 1; "name" := VStr "my alert";
       "condition" := VStr "custom"; "custom_threshold" := VStr "55.50";
       "custom_operator" := VStr ">=" ]} in
  exists inst inst',
    validate_model sample_now AlertSettingCreate kwargs = Ok inst
    /\ validate_model sample_now AlertSettingCreate (values inst) = Ok inst'
    /\ values inst' = values inst.
Proof.
  intros kwargs.
  destruct (validate_model sample_now AlertSettingCreate kwargs)
    as [inst|errs] eqn:E; [|vm_compute in E; discriminate].
  destruct (accepted_attributes_revalidate sample_now AlertSettingCreate
              kwargs inst
              ltac:(unfold shapes, create_shapes; set_solver) E)
    as (inst' & H1 & H2).
  exists inst, inst'. split; [reflexivity|]. split; [exact H1|exact H2].
Defined.

(** Every attribute of an accepted instance is valid for its field. *)
Lemma accepted_field_valid now m kwargs inst f :
  m ∈ shapes -> validate_model now m kwargs = Ok inst -> f ∈ fields m ->
  exists w, values inst !! fname f = Some w
            /\ validate_value (annotation f) (args f) w = Ok w.
Proof.
  intros Hm Hok Hf.
  assert (m ∈ all_classes) as Hall.
  { unfold all_classes. apply elem_of_app. by right. }
  pose proof (field_names_NoDup m Hall) as Hnd.
  destruct (validate_model_lookup now kwargs m inst f Hnd Hok Hf)
    as [Hval [w Hw]].
  exists w. split; [congruence|]. unfold field_value in Hw.
  destruct (kwargs !! fname f) as [v|].
  - destruct (validate_value (annotation f) (args f) v) as [w'|] eqn:E;
      [|done].
    injection Hw as <-. by eapply validate_value_idempotent.
  - by eapply default_passes_validation.
Qed.

(** * Decimals: bounds and text *)

Lemma of_lu_bound u :
  (DecimalPos.Unsigned.of_lu u < 10 ^ N.of_nat (Decimal.nb_digits u))%N.
Proof.
  induction u; cbn [DecimalPos.Unsigned.of_lu Decimal.nb_digits];
    rewrite ?Nat2N.inj_succ, ?N.pow_succ_r'; simpl N.of_nat;
    rewrite ?N.pow_0_r; lia.
Qed.

(** A number is below 10 to the number of its digits. *)
Lemma coefficient_below_pow_digits d :
  Z.of_N (d_int d) < 10 ^ Z.of_nat (digit_count d).
Proof.
  unfold digit_count.
  pose proof (DecimalN.Unsigned.of_to (d_int d)) as Hc.
  unfold N.of_uint in Hc. rewrite DecimalPos.Unsigned.of_uint_alt in Hc.
  pose proof (of_lu_bound (Decimal.rev (N.to_uint (d_int d)))) as Hb.
  rewrite DecimalFacts.nb_digits_rev, Hc in Hb.
  apply N2Z.inj_lt in Hb. rewrite N2Z.inj_pow, nat_N_Z in Hb. exact Hb.
Qed.

(** The digit checks bound the value: a decimal admitted under
    max_digits m and decimal_places p has at most m - p digits before
    the point, so it is below 10^(m-p) in magnitude. *)
Lemma admitted_decimal_is_bounded a d m p :
  get_max_digits a = Some m -> get_decimal_places a = Some p ->
  is_ok (check_decimal a d) = true ->
  magnitude_below (m - p) d = true.
Proof.
  intros Hm Hp Hok. apply check_decimal_ok_iff in Hok as (_ & _ & H3).
  specialize (H3 m p Hm Hp).
  pose proof (coefficient_below_pow_digits d) as Hc.
  unfold decimal_digits_info in H3. unfold magnitude_below.
  apply Z.ltb_lt.
  set (n := digit_count d) in *. set (e := d_exp d) in *.
  set (k := (m - p)%nat) in *.
  assert (0 <= Z.of_N (d_int d)) as Hc0 by lia.
  destruct (Z.leb_spec 0 e) as [He|He]; simpl in H3.
  - rewrite Z.max_l, Z.max_r by lia. rewrite Z.pow_0_r, Z.mul_1_r.
    apply Z.lt_le_trans with (10 ^ Z.of_nat n * 10 ^ e).
    + apply Z.mul_lt_mono_pos_r; [apply Z.pow_pos_nonneg; lia|exact Hc].
    + rewrite <- Z.pow_add_r by lia. apply Z.pow_le_mono_r; lia.
  - rewrite Z.max_r, Z.max_l by lia. rewrite Z.pow_0_r, Z.mul_1_r.
    apply Z.lt_le_trans with (10 ^ Z.of_nat n); [exact Hc|].
    rewrite <- Z.pow_add_r by lia. apply Z.pow_le_mono_r; lia.
Qed.

(** X15: a decimal held by an accepted instance in a field that declares
    max_digits m and decimal_places p is below 10^(m-p) in magnitude,
    whether it was passed or is the default: the thresholds of an alert,
    declared with 5 and 2, lie strictly between -1000 and 1000. *)
Theorem accepted_decimal_fields_are_bounded (now : datetime)
    (S : ModelClass) (kwargs : gmap string Value) (inst : Instance)
    (f : FieldDecl) (m p : nat) (d : Decimal) :
  S ∈ shapes -> f ∈ fields S -> is_decimal_field f = true ->
  get_max_digits (args f) = Some m ->
  get_decimal_places (args f) = Some p ->
  validate_model now S kwargs = Ok inst ->
  values inst !! fname f = Some (VDecimal d) ->
  magnitude_below (m - p) d = true.
Proof.
  intros HS Hf Hdec Hm Hp Hok Hv.
  destruct (accepted_field_valid now S kwargs inst f HS Hok Hf)
    as (w & Hw & Hvalid).
  rewrite Hv in Hw. injection Hw as <-.
  apply (admitted_decimal_is_bounded (args f) d m p Hm Hp).
  assert (validate_value (annotation f) (args f) (VDecimal d)
          = check_decimal (args f) d) as E.
  { unfold is_decimal_field in Hdec.
    destruct (annotation f) as [| | | | | | |t| |]; try done.
    destruct t; done. }
  rewrite E in Hvalid. by rewrite Hvalid.
Qed.

Lemma accepted_decimal_fields_are_bounded_witness :
  let kwargs : gmap string Value :=
    {[ "user_id" := VInt 1; "name" := VStr "my alert";
       "condition" := VStr "overbought";
       "overbought_threshold" := VStr "999.99" ]} in
  let d := {| d_sign := false; d_int := 99999; d_exp := -2 |} in
  exists inst,
    validate_model sample_now AlertSettingCreate kwargs = Ok inst
    /\ values inst !! "overbought_threshold" = Some (VDecimal d)
    /\ magnitude_below 3 d = true.
Proof.
  intros kwargs d.
  destruct (validate_model sample_now AlertSettingCreate kwargs)
    as [inst|errs] eqn:E; [|vm_compute in E; discriminate].
  assert (values inst !! "overbought_threshold" = Some (VDecimal d)) as Hv.
  { clear -E. vm_compute in E. injection E as <-. reflexivity. }
  exists inst. split; [reflexivity|]. split; [exact Hv|].
  apply (accepted_decimal_fields_are_bounded sample_now AlertSettingCreate
           kwargs inst
           (Field "overbought_threshold" Decimal_
              [default (VDecimal Decimal_70_00); decimal_places 2;
               max_digits 5])
           5%nat 2%nat d
           ltac:(unfold shapes, create_shapes; set_solver)
           ltac:(simpl; set_solver) eq_refl eq_refl eq_refl E Hv).
Defined.

(** X16: the text of a decimal in a response is an exact rendering: passed
    back to a decimal field as a string, it is validated as the decimal
    it was rendered from. *)
Theorem decimal_text_validates_as_the_decimal (a : list FieldArg) (d : Decimal) :
  Decimal_of_str (Decimal_str d) = Some d
  /\ validate_value Decimal_ a (VStr (Decimal_str d))
     = validate_value Decimal_ a (VDecimal d).
Proof.
  split; [apply Decimal_of_str_Decimal_str|].
  simpl. by rewrite Decimal_of_str_Decimal_str.
Qed.



(** * Null and lists *)

(** X18: null is accepted exactly by the optional fields: a field whose
    annotation is not [Optional] reports an error for None (so an input
    that passes None for it is rejected), and an optional field keeps
    None. *)
Theorem null_is_accepted_exactly_by_optional_fields (now : datetime)
    (m : ModelClass) (kwargs : gmap string Value) (f : FieldDecl) :
  f ∈ fields m -> kwargs !! fname f = Some VNone ->
  is_ok (validate_value (annotation f) (args f) VNone)
  = is_optional (annotation f)
  /\ (is_optional (annotation f) = false ->
      is_ok (validate_model now m kwargs) = false)
  /\ (is_optional (annotation f) = true ->
      validate_value (annotation f) (args f) VNone = Ok VNone).
Proof.
  intros Hf Hk.
  assert (is_ok (validate_value (annotation f) (args f) VNone)
          = is_optional (annotation f)) as Hnull
    by (by destruct (annotation f)).
  split; [exact Hnull|]. split.
  - intros Hopt. rewrite Hopt in Hnull.
    destruct (is_ok (validate_model now m kwargs)) eqn:E; [|done].
    pose proof (proj1 (validate_model_ok_iff now kwargs m) E f Hf) as He.
    unfold field_error in He. rewrite Hk in He.
    by destruct (validate_value (annotation f) (args f) VNone).
  - intros Hopt. by destruct (annotation f).
Qed.

Lemma null_is_accepted_exactly_by_optional_fields_witness :
  let kwargs : gmap string Value :=
    {[ "symbol" := VStr "BTCUSDT"; "base_asset" := VStr "BTC";
       "quote_asset" := VStr "USDT"; "is_active" := VNone ]} in
  is_ok (validate_model sample_now CoinPairCreate kwargs) = false.
Proof.
  intros kwargs.
  apply (proj1 (proj2 (null_is_accepted_exactly_by_optional_fields
                         sample_now CoinPairCreate kwargs
                         (Field "is_active" bool_ [default (VBool true)])
                         ltac:(simpl; set_solver)
                         ltac:(vm_compute; reflexivity)))).
  reflexivity.
Defined.

Lemma update_fields_are_optional now U f :
  U ∈ update_shapes -> f ∈ fields U ->
  is_optional (annotation f) = true /\ get_default now (args f) = Some VNone.
Proof.
  intros HU Hf. unfold update_shapes in HU.
  each_member HU ltac:(
    simpl in Hf; each_member Hf ltac:(split; reflexivity)).
Qed.

(** X19: in an update shape, passing None for a field and omitting the field
    give the same attributes (None everywhere) and differ only in the set
    of passed fields: empty for the empty input, the one field for the
    input that passes None for it. *)
Theorem update_null_is_passed_not_omitted (now : datetime) (U : ModelClass)
    (f : FieldDecl) :
  U ∈ update_shapes -> f ∈ fields U ->
  exists i0 i1,
    validate_update now U ∅ = Ok i0
    /\ validate_update now U {[ fname f := VNone ]} = Ok i1
    /\ values i1 = values i0
    /\ model_fields_set i0 = ∅
    /\ model_fields_set i1 = {[ fname f ]}.
Proof.
  intros HU Hf. unfold validate_update.
  pose proof (field_names_NoDup U (update_in_all U HU)) as Hnd.
  assert (forall kw : gmap string Value,
            (forall k, kw !! k = None \/ kw !! k = Some VNone) ->
            exists i, validate_model now U kw = Ok i
                      /\ forall g, g ∈ fields U ->
                                   values i !! fname g = Some VNone) as Hnone.
  { intros kw Hkw.
    assert (forall g, g ∈ fields U ->
              field_error now kw g = None
              /\ field_value now kw g = Some VNone) as Hg.
    { intros g Hg. destruct (update_fields_are_optional now U g HU Hg)
        as [Hopt Hdef].
      unfold field_error, field_value.
      destruct (Hkw (fname g)) as [-> | ->].
      - by rewrite Hdef.
      - destruct (annotation g); done. }
    assert (is_ok (validate_model now U kw) = true) as Hok.
    { apply validate_model_ok_iff. intros g Hgin. by apply Hg. }
    destruct (validate_model now U kw) as [i|] eqn:E; [|done].
    exists i. split; [done|]. intros g Hgin.
    destruct (validate_model_lookup now kw U i g Hnd E Hgin) as [-> _].
    by apply Hg. }
  destruct (Hnone ∅) as (i0 & E0 & V0).
  { intros k. left. apply lookup_empty. }
  destruct (Hnone {[ fname f := VNone ]}) as (i1 & E1 & V1).
  { intros k. destruct (decide (k = fname f)) as [->|Hne].
    - right. apply lookup_singleton_eq.
    - left. by apply lookup_singleton_ne. }
  exists i0, i1. split; [done|]. split; [done|]. split; [|split].
  - apply map_eq. intros k.
    destruct (decide (k ∈ field_names U)) as [Hin|Hout].
    + apply list_elem_of_fmap in Hin as (g & -> & Hg).
      by rewrite (V0 g Hg), (V1 g Hg).
    + rewrite (validate_model_lookup_other now _ U i1 k E1 Hout).
      by rewrite (validate_model_lookup_other now _ U i0 k E0 Hout).
  - apply set_eq. intros k.
    rewrite (validate_model_fields_set now _ U i0 k E0), lookup_empty.
    split; [intros [_ [? ?]]; done|intros H; by apply not_elem_of_empty in H].
  - apply set_eq. intros k.
    rewrite (validate_model_fields_set now _ U i1 k E1), elem_of_singleton.
    split.
    + intros [_ [v Hv]].
      destruct (decide (k = fname f)) as [|Hne]; [done|].
      by rewrite lookup_singleton_ne in Hv.
    + intros ->. split; [by apply list_elem_of_fmap_2|].
      rewrite lookup_singleton_eq. eauto.
Qed.

Lemma update_null_is_passed_not_omitted_witness :
  exists i0 i1,
    validate_update sample_now CoinPairUpdate ∅ = Ok i0
    /\ validate_update sample_now CoinPairUpdate {[ "is_active" := VNone ]}
       = Ok i1
    /\ values i1 = values i0
    /\ model_fields_set i0 = ∅
    /\ model_fields_set i1 = {[ "is_active" ]}.
Proof.
  apply (update_null_is_passed_not_omitted sample_now CoinPairUpdate
           (Field "is_active" (Optional bool_) [default VNone])).
  - unfold update_shapes. set_solver.
  - simpl. set_solver.
Defined.

Lemma all_ok_strings l :
  all_ok (List.map (validate_value str_ []) l)
  = if forallb is_VStr l then Ok l else Err string_type.
Proof.
  induction l as [|v l IH]; [done|].
  change (all_ok (List.map (validate_value str_ []) (v :: l)))
    with (bind (validate_value str_ [] v)
               (fun x => bind (all_ok (List.map (validate_value str_ []) l))
                              (fun rest => Ok (x :: rest)))).
  rewrite IH. destruct v; try done. simpl. by destruct (forallb is_VStr l).
Qed.

